(** * mt7601u DMA core (dma.c): shallow embedding and verified properties

    The development follows [dma.c] function by function.  Machine integers
    are unbounded [Z] with the C wrap-around written out ([u8], [u16],
    [u32]); buffers are lists of bytes; the queues are records mirroring
    [struct mt7601u_rx_queue] and [struct mt7601u_tx_queue]; calls that leave
    the file (USB core, mac80211, the rest of the driver) are recorded as
    events in a log kept in the device record. *)

From Stdlib Require Import String.
From Stdlib Require Import ZArith List Bool Lia.
From Stdlib Require Import Init.Byte.
Import ListNotations.
Local Open Scope Z_scope.

(* ===================================================================== *)
(** * Part I: the model                                                    *)
(* ===================================================================== *)

(** ** Machine integers *)

Definition u8 (x : Z) : Z := x mod 2 ^ 8.
Definition u16 (x : Z) : Z := x mod 2 ^ 16.
Definition u32 (x : Z) : Z := x mod 2 ^ 32.

Arguments u8 : simpl never.
Arguments u16 : simpl never.
Arguments u32 : simpl never.

(** Linux errno values used by the file. *)
Definition ENOENT : Z := 2.
Definition ENOMEM : Z := 12.
Definition ENODEV : Z := 19.
Definition ENOSPC : Z := 28.

(** ** Bytes and unaligned little-endian reads *)

Definition byte_val (b : byte) : Z := Z.of_N (Byte.to_N b).

(** [byte_at data i] is [data[i]]; outside the list (memory the model does
    not describe) it reads as zero. *)
Definition byte_at (data : list byte) (i : Z) : Z :=
  if i <? 0 then 0 else byte_val (nth (Z.to_nat i) data x00).

Definition get_unaligned_le16 (data : list byte) : Z :=
  Z.lor (byte_at data 0) (Z.shiftl (byte_at data 1) 8).

Definition get_unaligned_le32_at (buf : list byte) (off : Z) : Z :=
  Z.lor (byte_at buf off)
    (Z.lor (Z.shiftl (byte_at buf (off + 1)) 8)
       (Z.lor (Z.shiftl (byte_at buf (off + 2)) 16)
              (Z.shiftl (byte_at buf (off + 3)) 24))).

(** [memcpy] source: [n] bytes starting at [data]. *)
Definition bytes_of (data : list byte) (n : Z) : list byte :=
  firstn (Z.to_nat n) data.

(** Pointer advance [data + n] on a view of the buffer. *)
Definition advance (data : list byte) (n : Z) : list byte :=
  skipn (Z.to_nat n) data.

(** ** Socket buffers *)

Inductive mt76_qsel := MT_QSEL_MGMT | MT_QSEL_EDCA.

(** The DMA-control word a transmit frame is wrapped with. *)
Record txd := mk_txd { txd_qsel : mt76_qsel; txd_flags : Z }.

Record sk_buff := mk_skb {
  skb_size : Z;               (* size requested from alloc_skb *)
  skb_cb : list byte;         (* control block *)
  skb_data : list byte;       (* skb->data .. skb->data + skb->len *)
  skb_queue_mapping : Z;
  skb_txd : list txd          (* DMA-control words pushed in front, outermost first *)
}.

Definition skb_get_queue_mapping (skb : sk_buff) : Z := skb_queue_mapping skb.

(** [skb_put(skb, len)] followed by the [memcpy] into the returned tail. *)
Definition skb_put_data (skb : sk_buff) (bytes : list byte) : sk_buff :=
  mk_skb (skb_size skb) (skb_cb skb) (skb_data skb ++ bytes)
         (skb_queue_mapping skb) (skb_txd skb).

Definition skb_memset_cb (skb : sk_buff) : sk_buff :=
  mk_skb (skb_size skb) (repeat x00 (length (skb_cb skb))) (skb_data skb)
         (skb_queue_mapping skb) (skb_txd skb).

(** A freshly allocated buffer: no data, a 48-byte control block. *)
Definition new_skb (size : Z) : sk_buff :=
  mk_skb size (repeat x00 48) [] 0 [].

(** ** URBs

    [urb_id] stands for the address of the [struct urb]; [in_flight] and
    [reject] are the USB core's view of it: submitted and not yet given
    back, and poisoned (further submissions are refused). *)

Record urb := mk_urb {
  urb_id : Z;
  status : Z;
  actual_length : Z;
  in_flight : bool;
  reject : bool
}.

(** ** Events: calls that leave dma.c *)

Inductive completion_fn := Complete_rx | Complete_tx.

Inductive event :=
| EvDevErr (msg : string)                 (* dev_err / dev_err_once *)
| EvWarn (msg : string)                   (* WARN_ON / WARN_ONCE that fired *)
| EvRx (skb : sk_buff)                    (* ieee80211_rx_ni *)
| EvKfreeSkb (skb : sk_buff)              (* dev_kfree_skb *)
| EvTraceAggr (cnt : Z)                   (* trace_mt_rx_dma_aggr *)
| EvSubmitBuf (entry : Z) (fn : completion_fn) (* mt7601u_usb_submit_buf, USB_DIR_IN *)
| EvTaskletSchedule                       (* tasklet_schedule(&dev->rx_tasklet) *)
| EvTaskletKill                           (* tasklet_kill(&dev->rx_tasklet) *)
| EvTxStatus (skb : option sk_buff)       (* mt7601u_tx_status *)
| EvWakeQueue (queue : Z)                 (* ieee80211_wake_queue *)
| EvStopQueue (queue : Z)                 (* ieee80211_stop_queue *)
| EvSubmitUrb (ep : Z) (urb : Z) (skb : sk_buff) (* usb_submit_urb on a TX urb *)
| EvQueueStatWork (msecs : Z)             (* queue_delayed_work(stat_wq, ...) *)
| EvPoisonUrb (urb : Z)                   (* usb_poison_urb *)
| EvFreeUrb (urb : Z)                     (* usb_free_urb *)
| EvFreeBuf (entry : Z).                  (* mt7601u_usb_free_buf *)

(** ** Constants and collaborators declared outside dma.c

    [dma.h], [mt7601u.h] and [mac.h] are not part of the sources at hand, so
    the sizes and masks they define are parameters of the model.
    [mt7601u_hw] instantiates them with the values the driver ships with. *)

Record dma_consts := mk_consts {
  MT_DMA_HDR_LEN : Z;
  MT_RX_INFO_LEN : Z;
  MT_FCE_INFO_LEN : Z;
  sizeof_rxwi : Z;            (* sizeof(struct mt7601u_rxwi) *)
  MT_RXINFO_L2PAD : Z;
  MT_RXD_INFO_TYPE : Z;
  MT_TXD_PKT_INFO_80211 : Z;
  MT_TXD_PKT_INFO_WIV : Z
}.

Definition MT_DMA_HDRS (c : dma_consts) : Z := MT_DMA_HDR_LEN c + MT_RX_INFO_LEN c.

Definition mt7601u_hw : dma_consts :=
  mk_consts 4 4 4 28 (2 ^ 14) (3 * 2 ^ 30) (2 ^ 19) (2 ^ 24).

(** The fields of [struct mt7601u_rxwi] that dma.c reads. *)
Record mt7601u_rxwi := mk_rxwi { rxinfo : Z; zero : list Z }.

(** Collaborators: mac80211's [ieee80211_hdrlen], the atomic allocator
    behind [alloc_skb], the cast of raw bytes to [struct mt7601u_rxwi] and
    the driver's [mt76_mac_process_rx] (mac.c) and [mt7601u_urb_has_error]
    (usb.h), which only decides whether a completion is logged. *)
Record collaborators := mk_collab {
  ieee80211_hdrlen : Z -> Z;
  alloc_ok : Z -> bool;
  rxwi_of_buf : list byte -> mt7601u_rxwi;
  mt76_mac_process_rx : sk_buff -> mt7601u_rxwi -> Z;
  mt7601u_urb_has_error : urb -> bool
}.

Definition alloc_skb (x : collaborators) (size : Z) : option sk_buff :=
  if alloc_ok x size then Some (new_skb size) else None.

(** ** The receive reassembler *)

Section Reassembler.
Variable c : dma_consts.
Variable x : collaborators.

Definition frame_control (data : list byte) : Z := get_unaligned_le16 data.

Definition ieee80211_get_hdrlen_from_buf (data : list byte) (len : Z) : Z :=
  if len <? 10 then 0
  else
    let hdrlen := ieee80211_hdrlen x (frame_control data) in
    if hdrlen >? len then 0 else hdrlen.

Definition l2pad (rxwi : mt7601u_rxwi) : bool :=
  negb (Z.land (rxinfo rxwi) (MT_RXINFO_L2PAD c) =? 0).

Definition mt7601u_rx_skb_from_seg
    (rxwi : mt7601u_rxwi) (data : list byte) (seg_len : Z) : option sk_buff :=
  let seg_len := if l2pad rxwi then u32 (seg_len - 2) else seg_len in
  match alloc_skb x seg_len with
  | None => None
  | Some skb =>
    let skb := skb_memset_cb skb in
    let '(skb, data, seg_len) :=
      if l2pad rxwi then
        let hdr_len := ieee80211_get_hdrlen_from_buf data seg_len in
        (skb_put_data skb (bytes_of data hdr_len),
         advance data (hdr_len + 2),
         u32 (seg_len - hdr_len))
      else (skb, data, seg_len) in
    Some (skb_put_data skb (bytes_of data seg_len))
  end.

(** [MT76_GET(field, val)] is non-zero exactly when [val & field] is. *)
Definition MT76_GET_nonzero (field val : Z) : bool :=
  negb (Z.land val field =? 0).

(** [data] is the buffer and [off] the cursor into it: the FCE descriptor
    is read relative to the end of the segment. *)
Definition mt7601u_rx_process_seg
    (buf : list byte) (off : Z) (seg_len : Z) : list event :=
  let fce_info := get_unaligned_le32_at buf (off + seg_len - MT_FCE_INFO_LEN c) in
  let seg_len := u32 (seg_len - MT_FCE_INFO_LEN c) in
  let off := off + MT_DMA_HDR_LEN c in
  let seg_len := u32 (seg_len - MT_DMA_HDR_LEN c) in
  let rxwi := rxwi_of_buf x (advance buf off) in
  let off := off + sizeof_rxwi c in
  let seg_len := u32 (seg_len - sizeof_rxwi c) in
  (if existsb (fun z => negb (z =? 0)) (zero rxwi)
   then [EvDevErr "Error: RXWI zero fields are set"] else []) ++
  (if MT76_GET_nonzero (MT_RXD_INFO_TYPE c) fce_info
   then [EvDevErr "Error: RX path seen a non-pkt urb"] else []) ++
  match mt7601u_rx_skb_from_seg rxwi (advance buf off) seg_len with
  | None => []
  | Some skb =>
    if mt76_mac_process_rx x skb rxwi =? 0 then [EvRx skb] else [EvKfreeSkb skb]
  end.

Definition min_seg_len : Z :=
  MT_DMA_HDR_LEN c + MT_RX_INFO_LEN c + sizeof_rxwi c + MT_FCE_INFO_LEN c.

(** The result type is [u16]: the sum is truncated on return. *)
Definition mt7601u_rx_next_seg_len (data : list byte) (data_len : Z) : Z :=
  let dma_len := get_unaligned_le16 data in
  if (data_len <? min_seg_len)
     || (dma_len =? 0)
     || (dma_len + MT_DMA_HDRS c >? data_len)
     || negb (Z.land dma_len 3 =? 0)
  then 0
  else u16 (MT_DMA_HDRS c + dma_len).

(** The four reasons for which [mt7601u_rx_next_seg_len] gives up. *)
Definition seg_rejected (data : list byte) (data_len : Z) : Prop :=
  data_len < min_seg_len
  \/ get_unaligned_le16 data = 0
  \/ get_unaligned_le16 data mod 4 <> 0
  \/ MT_DMA_HDRS c + get_unaligned_le16 data > data_len.

(** Prepends the log of one turn of the loop to the result of the rest. *)
Definition loop_cons (ev : list event) (r : option (list event * Z * Z * Z))
    : option (list event * Z * Z * Z) :=
  match r with
  | None => None
  | Some (evs, off', len', cnt') => Some (ev ++ evs, off', len', cnt')
  end.

(** The [while] loop of [mt7601u_rx_process_entry]: [off] is the cursor
    ([data - e->buf]), the result is the log of the segments processed,
    the final cursor, the final [data_len] and [cnt]; [None] when the
    fuel runs out before the loop exits. *)
Fixpoint rx_process_loop (fuel : nat) (buf : list byte)
    (off data_len cnt : Z) : option (list event * Z * Z * Z) :=
  match fuel with
  | O => None
  | S fuel' =>
    let seg_len := mt7601u_rx_next_seg_len (advance buf off) data_len in
    if seg_len =? 0 then Some ([], off, data_len, cnt)
    else
      let ev := mt7601u_rx_process_seg buf off seg_len in
      match rx_process_loop fuel' buf (off + seg_len)
                            (u32 (data_len - seg_len)) (cnt + 1) with
      | None => None
      | Some (evs, off', len', cnt') => Some (ev ++ evs, off', len', cnt')
      end
  end.

(** The offsets and lengths of the segments the loop hands to
    [mt7601u_rx_process_seg], in order. *)
Fixpoint rx_segments (fuel : nat) (buf : list byte)
    (off data_len : Z) : list (Z * Z) :=
  match fuel with
  | O => []
  | S fuel' =>
    let seg_len := mt7601u_rx_next_seg_len (advance buf off) data_len in
    if seg_len =? 0 then []
    else (off, seg_len)
           :: rx_segments fuel' buf (off + seg_len) (u32 (data_len - seg_len))
  end.

(** Fuel that always suffices: every iteration consumes at least one byte. *)
Definition rx_fuel (data_len : Z) : nat := S (Z.to_nat data_len).

Definition mt7601u_rx_process_entry
    (initialized : bool) (buf : list byte) (actual_length : Z)
    : option (list event) :=
  if negb initialized then Some []
  else
    match rx_process_loop (rx_fuel actual_length) buf 0 actual_length 0 with
    | None => None
    | Some (evs, _, _, cnt) =>
      Some (evs ++ if cnt >? 1 then [EvTraceAggr cnt] else [])
    end.

End Reassembler.

(** ** Queues and device state *)

Record mt7601u_dma_buf := mk_dma_buf {
  rx_urb : urb;
  buf : list byte;
  len : Z                      (* capacity handed to the transport *)
}.

Record mt7601u_dma_buf_tx := mk_dma_buf_tx {
  tx_urb : urb;
  skb : option sk_buff
}.

Record mt7601u_rx_queue := mk_rx_queue {
  rx_e : list mt7601u_dma_buf;
  rx_start : Z;
  rx_end : Z;
  rx_entries : Z;
  rx_pending : Z
}.

Record mt7601u_tx_queue := mk_tx_queue {
  tx_e : list mt7601u_dma_buf_tx;
  tx_start : Z;
  tx_end : Z;
  tx_entries : Z;
  tx_used : Z
}.

(** The bits of [dev->state] that dma.c tests or sets. *)
Record dev_state := mk_state {
  MT7601U_STATE_INITIALIZED : bool;
  MT7601U_STATE_REMOVED : bool;
  MT7601U_STATE_READING_STATS : bool;
  MT7601U_STATE_MORE_STATS : bool
}.

Record mt7601u_dev := mk_dev {
  state : dev_state;
  rx_q : mt7601u_rx_queue;
  tx_q : list mt7601u_tx_queue;   (* __MT_EP_OUT_MAX queues *)
  out_eps : list Z;
  rx_tasklet : bool;              (* the tasklet is scheduled and has not run yet *)
  log : list event
}.

(** Array access with the unsigned indices of the source. *)
Definition zth {A} (l : list A) (i : Z) (d : A) : A := nth (Z.to_nat i) l d.

Fixpoint set_nth {A} (l : list A) (n : nat) (v : A) : list A :=
  match l, n with
  | [], _ => []
  | _ :: t, O => v :: t
  | h :: t, S n' => h :: set_nth t n' v
  end.

Definition zset {A} (l : list A) (i : Z) (v : A) : list A :=
  if i <? 0 then l else set_nth l (Z.to_nat i) v.

Arguments zth : simpl never.
Arguments zset : simpl never.

Definition null_urb : urb := mk_urb (-1) 0 0 false false.
Definition null_dma_buf : mt7601u_dma_buf := mk_dma_buf null_urb [] 0.
Definition null_dma_buf_tx : mt7601u_dma_buf_tx := mk_dma_buf_tx null_urb None.
Definition null_tx_queue : mt7601u_tx_queue := mk_tx_queue [] 0 0 0 0.

Definition rx_entry (dev : mt7601u_dev) (i : Z) : mt7601u_dma_buf :=
  zth (rx_e (rx_q dev)) i null_dma_buf.

Definition tx_queue (dev : mt7601u_dev) (ep : Z) : mt7601u_tx_queue :=
  zth (tx_q dev) ep null_tx_queue.

Definition tx_entry (q : mt7601u_tx_queue) (i : Z) : mt7601u_dma_buf_tx :=
  zth (tx_e q) i null_dma_buf_tx.

Definition add_log (dev : mt7601u_dev) (evs : list event) : mt7601u_dev :=
  mk_dev (state dev) (rx_q dev) (tx_q dev) (out_eps dev) (rx_tasklet dev)
         (log dev ++ evs).

Definition set_state (dev : mt7601u_dev) (s : dev_state) : mt7601u_dev :=
  mk_dev s (rx_q dev) (tx_q dev) (out_eps dev) (rx_tasklet dev) (log dev).

Definition set_rx_q (dev : mt7601u_dev) (q : mt7601u_rx_queue) : mt7601u_dev :=
  mk_dev (state dev) q (tx_q dev) (out_eps dev) (rx_tasklet dev) (log dev).

Definition set_tx_queue (dev : mt7601u_dev) (ep : Z) (q : mt7601u_tx_queue)
    : mt7601u_dev :=
  mk_dev (state dev) (rx_q dev) (zset (tx_q dev) ep q) (out_eps dev)
         (rx_tasklet dev) (log dev).

Definition set_rx_tasklet (dev : mt7601u_dev) (b : bool) : mt7601u_dev :=
  mk_dev (state dev) (rx_q dev) (tx_q dev) (out_eps dev) b (log dev).

(** [tasklet_schedule(&dev->rx_tasklet)]. *)
Definition tasklet_schedule (dev : mt7601u_dev) : mt7601u_dev :=
  add_log (set_rx_tasklet dev true) [EvTaskletSchedule].

Definition set_rx_urb (dev : mt7601u_dev) (i : Z) (u : urb) : mt7601u_dev :=
  let q := rx_q dev in
  let e := rx_entry dev i in
  set_rx_q dev
    (mk_rx_queue (zset (rx_e q) i (mk_dma_buf u (buf e) (len e)))
                 (rx_start q) (rx_end q) (rx_entries q) (rx_pending q)).

Definition set_tx_entry (q : mt7601u_tx_queue) (i : Z) (e : mt7601u_dma_buf_tx)
    : mt7601u_tx_queue :=
  mk_tx_queue (zset (tx_e q) i e) (tx_start q) (tx_end q) (tx_entries q) (tx_used q).

(** ** The receive ring *)

Section Ring.
Variable c : dma_consts.
Variable x : collaborators.

(** Returns the index of the popped entry ([&q->e[q->start]]) or [None]
    for [NULL]. *)
Definition mt7601u_rx_get_pending_entry (dev : mt7601u_dev)
    : option Z * mt7601u_dev :=
  let q := rx_q dev in
  if rx_pending q =? 0 then (None, dev)
  else
    (Some (rx_start q),
     set_rx_q dev
       (mk_rx_queue (rx_e q)
                    (u32 (rx_start q + 1) mod rx_entries q)
                    (rx_end q) (rx_entries q)
                    (u32 (rx_pending q - 1)))).

Definition mt7601u_complete_rx (dev : mt7601u_dev) (u : urb) : mt7601u_dev :=
  let q := rx_q dev in
  let dev :=
    if mt7601u_urb_has_error x u
    then add_log dev [EvDevErr "Error: RX urb failed"] else dev in
  if negb (urb_id (rx_urb (zth (rx_e q) (rx_end q) null_dma_buf)) =? urb_id u)
  then add_log dev [EvWarn "RX urb mismatch"]
  else
    tasklet_schedule
      (set_rx_q dev
         (mk_rx_queue (rx_e q) (rx_start q)
                      (u32 (rx_end q + 1) mod rx_entries q)
                      (rx_entries q)
                      (u32 (rx_pending q + 1)))).

(** Modelled from the spec: [mt7601u_usb_submit_buf] (usb.c is not among
    the sources) gives the entry's buffer to the transport for an inbound
    transfer at its full capacity, with the given completion handler; the
    transport refuses a poisoned urb.  The result is the error code. *)
Definition mt7601u_usb_submit_buf (dev : mt7601u_dev) (e : Z)
    (fn : completion_fn) : Z * mt7601u_dev :=
  let dev := add_log dev [EvSubmitBuf e fn] in
  let u := rx_urb (rx_entry dev e) in
  if reject u then (- 1, dev)
  else (0, set_rx_urb dev e (mk_urb (urb_id u) (status u) (actual_length u) true false)).

(** The body of the tasklet's loop for the popped entry [e]. *)
Definition rx_tasklet_body (dev : mt7601u_dev) (e : Z) : option mt7601u_dev :=
  let ent := rx_entry dev e in
  if negb (status (rx_urb ent) =? 0) then Some dev
  else
    match mt7601u_rx_process_entry c x
            (MT7601U_STATE_INITIALIZED (state dev))
            (buf ent) (actual_length (rx_urb ent)) with
    | None => None
    | Some evs =>
      Some (snd (mt7601u_usb_submit_buf (add_log dev evs) e Complete_rx))
    end.

Fixpoint rx_tasklet_loop (fuel : nat) (dev : mt7601u_dev) : option mt7601u_dev :=
  match fuel with
  | O => None
  | S fuel' =>
    match mt7601u_rx_get_pending_entry dev with
    | (None, dev) => Some dev
    | (Some e, dev) =>
      match rx_tasklet_body dev e with
      | None => None
      | Some dev => rx_tasklet_loop fuel' dev
      end
    end
  end.

Definition mt7601u_rx_tasklet (dev : mt7601u_dev) : option mt7601u_dev :=
  rx_tasklet_loop (S (Z.to_nat (rx_pending (rx_q dev)))) dev.

(** The softirq runs the tasklet if it is scheduled. *)
Definition run_rx_tasklet (dev : mt7601u_dev) : option mt7601u_dev :=
  if rx_tasklet dev then mt7601u_rx_tasklet (set_rx_tasklet dev false)
  else Some dev.

(** [tasklet_kill]: a scheduled tasklet runs to completion before the
    call returns. *)
Definition tasklet_kill (dev : mt7601u_dev) : option mt7601u_dev :=
  match run_rx_tasklet dev with
  | None => None
  | Some dev => Some (add_log dev [EvTaskletKill])
  end.

(** The transport gives back the in-flight urb of entry [i] with status
    [st], [n] bytes transferred into the buffer ([data]), and runs the
    completion handler. *)
Definition usb_giveback_rx (dev : mt7601u_dev) (i st n : Z) (data : list byte)
    : mt7601u_dev :=
  let e := rx_entry dev i in
  let u := mk_urb (urb_id (rx_urb e)) st n false (reject (rx_urb e)) in
  let q := rx_q dev in
  let dev :=
    set_rx_q dev
      (mk_rx_queue (zset (rx_e q) i (mk_dma_buf u data (len e)))
                   (rx_start q) (rx_end q) (rx_entries q) (rx_pending q)) in
  mt7601u_complete_rx dev u.

(** [usb_poison_urb] on the urb of receive entry [i]: the urb is marked
    so that submissions fail; a transfer in flight is cancelled, and its
    completion handler has run, with status [-ENOENT], by the time the call
    returns. *)
Definition usb_poison_urb_rx (dev : mt7601u_dev) (i : Z) : mt7601u_dev :=
  let e := rx_entry dev i in
  let u := rx_urb e in
  let dev := add_log dev [EvPoisonUrb (urb_id u)] in
  if in_flight u then
    let u' := mk_urb (urb_id u) (- ENOENT) 0 false true in
    mt7601u_complete_rx (set_rx_urb dev i u') u'
  else
    set_rx_urb dev i (mk_urb (urb_id u) (status u) (actual_length u) false true).

Fixpoint kill_rx_loop (n : nat) (dev : mt7601u_dev) : mt7601u_dev :=
  match n with
  | O => dev
  | S n' =>
    let next := rx_end (rx_q dev) in
    kill_rx_loop n' (usb_poison_urb_rx dev next)
  end.

Definition mt7601u_kill_rx (dev : mt7601u_dev) : mt7601u_dev :=
  kill_rx_loop (Z.to_nat (rx_entries (rx_q dev))) dev.

(** The indices [0 .. n-1] a [for (i = 0; i < n; i++)] loop visits. *)
Definition upto (n : Z) : list Z := map Z.of_nat (seq 0 (Z.to_nat n)).

Definition mt7601u_submit_rx (dev : mt7601u_dev) : Z * mt7601u_dev :=
  fold_left
    (fun (acc : Z * mt7601u_dev) i =>
       let '(ret, dev) := acc in
       if ret =? 0 then mt7601u_usb_submit_buf dev i Complete_rx else acc)
    (upto (rx_entries (rx_q dev))) (0, dev).

Definition mt7601u_free_rx (dev : mt7601u_dev) : mt7601u_dev :=
  add_log dev (map EvFreeBuf (upto (rx_entries (rx_q dev)))).

(** The receive queue [mt7601u_alloc_rx] leaves when every allocation
    succeeds: zeroed indices, [n] entries with distinct idle urbs and
    buffers of [size] bytes. *)
Definition rx_queue_alloc (n size : Z) : mt7601u_rx_queue :=
  mk_rx_queue
    (map (fun i => mk_dma_buf (mk_urb i 0 0 false false)
                              (repeat x00 (Z.to_nat size)) size)
         (upto n))
    0 0 n 0.

End Ring.

(** ** The transmit queues *)

Record mt76_wcid := mk_wcid { hw_key_idx : Z }.

(** Map hardware Q to USB endpoint number; parameter and result are [u8]. *)
Definition q2ep (qid : Z) : Z := u8 (qid + 1).

(** Map USB endpoint number to Q id in the DMA engine. *)
Definition ep2dmaq (ep : Z) : mt76_qsel :=
  if ep =? 5 then MT_QSEL_MGMT else MT_QSEL_EDCA.

(** Modelled from the spec: [mt7601u_dma_skb_wrap_pkt] (dma.h is not among
    the sources) wraps the frame with the DMA-control word, which carries
    the descriptor selector and the packet-info flags it is given. *)
Definition mt7601u_dma_skb_wrap_pkt (skb : sk_buff) (qsel : mt76_qsel)
    (flags : Z) : sk_buff :=
  mk_skb (skb_size skb) (skb_cb skb) (skb_data skb) (skb_queue_mapping skb)
         (mk_txd qsel flags :: skb_txd skb).

(** [skb_get_queue_mapping] on the frame stored in a slot. *)
Definition slot_queue_mapping (s : option sk_buff) : Z :=
  match s with
  | Some skb => skb_get_queue_mapping skb
  | None => 0
  end.

Section Tx.
Variable c : dma_consts.
Variable x : collaborators.

(** [ep] names the queue [urb->context] points to. *)
Definition mt7601u_complete_tx (dev : mt7601u_dev) (ep : Z) (u : urb)
    : mt7601u_dev :=
  let q := tx_queue dev ep in
  let dev :=
    if mt7601u_urb_has_error x u
    then add_log dev [EvDevErr "Error: TX urb failed"] else dev in
  if negb (urb_id (tx_urb (tx_entry q (tx_start q))) =? urb_id u)
  then add_log dev [EvWarn "TX urb mismatch"]
  else
    let s := skb (tx_entry q (tx_start q)) in
    let dev := add_log dev [EvTxStatus s] in
    let dev :=
      if tx_used q =? u32 (tx_entries q - tx_entries q / 8)
      then add_log dev [EvWakeQueue (slot_queue_mapping s)] else dev in
    let dev :=
      set_tx_queue dev ep
        (mk_tx_queue (tx_e q)
                     (u32 (tx_start q + 1) mod tx_entries q)
                     (tx_end q) (tx_entries q)
                     (u32 (tx_used q - 1))) in
    if negb (status u =? 0) then dev
    else
      let st := state dev in
      let dev :=
        set_state dev
          (mk_state (MT7601U_STATE_INITIALIZED st) (MT7601U_STATE_REMOVED st)
                    (MT7601U_STATE_READING_STATS st) true) in
      if MT7601U_STATE_READING_STATS st then dev
      else
        add_log
          (set_state dev
             (mk_state (MT7601U_STATE_INITIALIZED st) (MT7601U_STATE_REMOVED st)
                       true true))
          [EvQueueStatWork 10].

(** [usb_ret] is what [usb_submit_urb] answers if it is reached. *)
Definition mt7601u_dma_submit_tx (dev : mt7601u_dev) (s : sk_buff) (ep : Z)
    (usb_ret : Z) : Z * mt7601u_dev :=
  let q := tx_queue dev ep in
  if tx_entries q <=? tx_used q
  then (- ENOSPC, add_log dev [EvWarn "q->entries <= q->used"])
  else
    let u := tx_urb (tx_entry q (tx_end q)) in
    let dev := add_log dev [EvSubmitUrb (zth (out_eps dev) ep 0) (urb_id u) s] in
    if negb (usb_ret =? 0) then
      let dev :=
        set_tx_queue dev ep
          (set_tx_entry q (tx_end q) (mk_dma_buf_tx u (Some s))) in
      if usb_ret =? - ENODEV then
        let st := state dev in
        (usb_ret,
         set_state dev
           (mk_state (MT7601U_STATE_INITIALIZED st) true
                     (MT7601U_STATE_READING_STATS st)
                     (MT7601U_STATE_MORE_STATS st)))
      else (usb_ret, add_log dev [EvDevErr "Error: TX urb submit failed"])
    else
      let u' := mk_urb (urb_id u) (status u) (actual_length u) true (reject u) in
      let q1 := set_tx_entry q (tx_end q) (mk_dma_buf_tx u' (Some s)) in
      let q2 :=
        mk_tx_queue (tx_e q1) (tx_start q1)
                    (u32 (tx_end q1 + 1) mod tx_entries q1)
                    (tx_entries q1)
                    (u32 (tx_used q1 + 1)) in
      let dev := set_tx_queue dev ep q2 in
      if tx_used q2 >=? tx_entries q2
      then (usb_ret, add_log dev [EvStopQueue (skb_get_queue_mapping s)])
      else (usb_ret, dev).

(** Returns the error code, the caller's frame as the call leaves it and
    the device. *)
Definition mt7601u_dma_enqueue_tx (dev : mt7601u_dev) (s : sk_buff)
    (wcid : mt76_wcid) (hw_q : Z) (usb_ret : Z)
    : Z * sk_buff * mt7601u_dev :=
  let ep := q2ep (u8 hw_q) in
  let dma_flags := MT_TXD_PKT_INFO_80211 c in
  let dma_flags :=
    if hw_key_idx wcid =? 255
    then Z.lor dma_flags (MT_TXD_PKT_INFO_WIV c) else dma_flags in
  let s := mt7601u_dma_skb_wrap_pkt s (ep2dmaq ep) dma_flags in
  let '(ret, dev) := mt7601u_dma_submit_tx dev s ep usb_ret in
  (ret, s, dev).

(** The transport gives back the in-flight urb of slot [i] of queue [ep]
    with status [st] and runs the completion handler. *)
Definition usb_giveback_tx (dev : mt7601u_dev) (ep i st : Z) : mt7601u_dev :=
  let q := tx_queue dev ep in
  let e := tx_entry q i in
  let u := mk_urb (urb_id (tx_urb e)) st 0 false (reject (tx_urb e)) in
  mt7601u_complete_tx
    (set_tx_queue dev ep (set_tx_entry q i (mk_dma_buf_tx u (skb e)))) ep u.

(** [usb_poison_urb] on the urb of slot [i] of queue [ep]; see
    [usb_poison_urb_rx]. *)
Definition usb_poison_urb_tx (dev : mt7601u_dev) (ep i : Z) : mt7601u_dev :=
  let q := tx_queue dev ep in
  let e := tx_entry q i in
  let u := tx_urb e in
  let dev := add_log dev [EvPoisonUrb (urb_id u)] in
  if in_flight u then
    let u' := mk_urb (urb_id u) (- ENOENT) 0 false true in
    mt7601u_complete_tx
      (set_tx_queue dev ep (set_tx_entry q i (mk_dma_buf_tx u' (skb e)))) ep u'
  else
    set_tx_queue dev ep
      (set_tx_entry q i
         (mk_dma_buf_tx (mk_urb (urb_id u) (status u) (actual_length u) false true)
                        (skb e))).

Definition mt7601u_free_tx_queue (dev : mt7601u_dev) (ep : Z) : mt7601u_dev :=
  let q := tx_queue dev ep in
  let dev :=
    if negb (tx_used q =? 0) then add_log dev [EvWarn "q->used"] else dev in
  fold_left
    (fun dev i =>
       let dev := usb_poison_urb_tx dev ep i in
       add_log dev [EvFreeUrb (urb_id (tx_urb (tx_entry (tx_queue dev ep) i)))])
    (upto (tx_entries q)) dev.

Definition mt7601u_free_tx (dev : mt7601u_dev) : mt7601u_dev :=
  fold_left mt7601u_free_tx_queue (upto (Z.of_nat (List.length (tx_q dev)))) dev.

Definition mt7601u_dma_cleanup (dev : mt7601u_dev) : option mt7601u_dev :=
  let dev := mt7601u_kill_rx x dev in
  match tasklet_kill c x dev with
  | None => None
  | Some dev =>
    let dev := mt7601u_free_rx dev in
    Some (mt7601u_free_tx dev)
  end.

End Tx.

(** A model of mac80211's [ieee80211_hdrlen], used to instantiate the
    collaborators on concrete inputs. *)
Definition ieee80211_hdrlen_std (fc : Z) : Z :=
  let ftype := Z.land fc 12 in
  let order := negb (Z.land fc 32768 =? 0) in
  if ftype =? 8 then
    let hdrlen := if Z.land fc 768 =? 768 then 30 else 24 in
    if Z.land fc 128 =? 128
    then hdrlen + 2 + (if order then 4 else 0)
    else hdrlen
  else if ftype =? 0 then 24 + (if order then 4 else 0)
  else if ftype =? 4 then (if Z.land fc 224 =? 192 then 10 else 16)
  else 24.

Definition std_collab : collaborators :=
  mk_collab ieee80211_hdrlen_std
            (fun size => size <? 2 ^ 20)
            (fun data => mk_rxwi (get_unaligned_le32_at data 0) [0; 0; 0])
            (fun _ _ => 0)
            (fun u => negb (status u =? 0)).


(** ** The receive ring as a transition system

    The completion handler and the tasklet run under [dev->rx_lock], so an
    execution is an interleaving of whole steps: the transport giving back
    an urb that is in flight, the processor popping an entry, the processor
    popping and handling an entry (reassembly and resubmission), and a
    whole run of the tasklet with nothing else in between. *)

Section RingSystem.
Variable c : dma_consts.
Variable x : collaborators.

Inductive rx_step : mt7601u_dev -> mt7601u_dev -> Prop :=
| rx_step_complete (dev : mt7601u_dev) (i st n : Z) (data : list byte) :
    0 <= i < rx_entries (rx_q dev) ->
    in_flight (rx_urb (rx_entry dev i)) = true ->
    rx_step dev (usb_giveback_rx x dev i st n data)
| rx_step_pop (dev : mt7601u_dev) :
    rx_step dev (snd (mt7601u_rx_get_pending_entry dev))
| rx_step_process (dev dev' : mt7601u_dev) (e : Z) :
    fst (mt7601u_rx_get_pending_entry dev) = Some e ->
    rx_tasklet_body c x (snd (mt7601u_rx_get_pending_entry dev)) e = Some dev' ->
    rx_step dev dev'
| rx_step_tasklet (dev dev' : mt7601u_dev) :
    run_rx_tasklet c x dev = Some dev' ->
    rx_step dev dev'.

Inductive rx_run (dev0 : mt7601u_dev) : mt7601u_dev -> Prop :=
| rx_run_refl : rx_run dev0 dev0
| rx_run_step (dev dev' : mt7601u_dev) :
    rx_run dev0 dev -> rx_step dev dev' -> rx_run dev0 dev'.

(** The state [mt7601u_dma_init] leaves: [N] entries with distinct urbs,
    all submitted, and the indices zeroed by [mt7601u_alloc_rx]. *)
Definition rx_all_submitted (N : Z) (dev : mt7601u_dev) : Prop :=
  0 < N < 2 ^ 32
  /\ rx_entries (rx_q dev) = N
  /\ Z.of_nat (List.length (rx_e (rx_q dev))) = N
  /\ rx_start (rx_q dev) = 0
  /\ rx_end (rx_q dev) = 0
  /\ rx_pending (rx_q dev) = 0
  /\ (forall i, 0 <= i < N -> in_flight (rx_urb (rx_entry dev i)) = true)
  /\ (forall i j, 0 <= i < N -> 0 <= j < N ->
        urb_id (rx_urb (rx_entry dev i)) = urb_id (rx_urb (rx_entry dev j)) ->
        i = j).

(** The ring invariant: the [pending] entries from [start] on have been
    given back by the transport, and [end] follows them. *)
Definition ring_inv (N : Z) (dev : mt7601u_dev) : Prop :=
  0 < N < 2 ^ 32
  /\ rx_entries (rx_q dev) = N
  /\ Z.of_nat (List.length (rx_e (rx_q dev))) = N
  /\ 0 <= rx_start (rx_q dev) < N
  /\ 0 <= rx_pending (rx_q dev) <= N
  /\ rx_end (rx_q dev) = (rx_start (rx_q dev) + rx_pending (rx_q dev)) mod N
  /\ (forall k, 0 <= k < rx_pending (rx_q dev) ->
        in_flight (rx_urb (rx_entry dev ((rx_start (rx_q dev) + k) mod N))) = false)
  /\ (forall i j, 0 <= i < N -> 0 <= j < N ->
        urb_id (rx_urb (rx_entry dev i)) = urb_id (rx_urb (rx_entry dev j)) ->
        i = j).

(** Completions handled at the expected slot, one per element of
    [results] (status, byte count, data), with no processing in between:
    the transport gives back the urb the ring expects next. *)
Definition complete_expected (results : list (Z * Z * list byte))
    (dev : mt7601u_dev) : mt7601u_dev :=
  fold_left
    (fun d r =>
       usb_giveback_rx x d (rx_end (rx_q d)) (fst (fst r)) (snd (fst r)) (snd r))
    results dev.

End RingSystem.

(** ** Reading logs *)

Definition wake_events (evs : list event) : list Z :=
  flat_map (fun e => match e with EvWakeQueue q => [q] | _ => [] end) evs.

Definition submit_urb_events (evs : list event) : list (Z * Z * sk_buff) :=
  flat_map (fun e => match e with EvSubmitUrb ep u s => [(ep, u, s)] | _ => [] end) evs.

Definition submit_buf_events (evs : list event) : list (Z * completion_fn) :=
  flat_map (fun e => match e with EvSubmitBuf i fn => [(i, fn)] | _ => [] end) evs.

Definition poison_events (evs : list event) : list Z :=
  flat_map (fun e => match e with EvPoisonUrb u => [u] | _ => [] end) evs.

Definition rx_events (evs : list event) : list sk_buff :=
  flat_map (fun e => match e with EvRx s => [s] | _ => [] end) evs.

(** ** Concrete instances, for evaluating the model *)

Definition example_frame : sk_buff :=
  mk_skb 4 (repeat x00 48) [x01; x02; x03; x04] 2 [].

(** A transmit queue of [entries] slots whose [used] slots from [start] on
    hold a frame in flight. *)
Definition example_tx_queue (entries start used : Z) : mt7601u_tx_queue :=
  mk_tx_queue
    (map (fun i =>
            if (i - start) mod entries <? used
            then mk_dma_buf_tx (mk_urb (100 + i) 0 0 true false) (Some example_frame)
            else mk_dma_buf_tx (mk_urb (100 + i) 0 0 false false) None)
         (upto entries))
    start ((start + used) mod entries) entries used.

Definition example_state : dev_state := mk_state true false false false.

(** A device with six transmit queues like [q] and receive queue [rq]. *)
Definition example_dev (rq : mt7601u_rx_queue) (q : mt7601u_tx_queue)
    : mt7601u_dev :=
  mk_dev example_state rq [q; q; q; q; q; q] [4; 5; 6; 7; 8; 9] false [].

Definition byte_of_Z (z : Z) : byte :=
  match Byte.of_N (Z.to_N (z mod 256)) with
  | Some b => b
  | None => x00
  end.

Definition le16_bytes (z : Z) : list byte := [byte_of_Z z; byte_of_Z (z / 256)].

Definition le32_bytes (z : Z) : list byte :=
  le16_bytes z ++ le16_bytes (z / 65536).

(** One aggregated segment in the layout of [mt7601u_hw]: DMA header with
    the length prefix, RXWI starting with [rxinfo], payload, FCE descriptor. *)
Definition example_segment (rxinfo : Z) (payload : list byte) : list byte :=
  le16_bytes (28 + Z.of_nat (List.length payload)) ++ [x00; x00]
  ++ (le32_bytes rxinfo ++ repeat x00 24)
  ++ payload
  ++ le32_bytes 0.

Definition example_payload : list byte :=
  [x01; x02; x03; x04; x05; x06; x07; x08; x09; x0a;
   x0b; x0c; x0d; x0e; x0f; x10; x11; x12; x13; x14].

(** A 10-byte link-layer header (an ACK frame control), the 2 pad bytes and
    8 more bytes. *)
Definition example_hdr : list byte :=
  [xd4; x00; x00; x00; xa1; xa2; xa3; xa4; xa5; xa6].
Definition example_pad : list byte := [x00; x00].
Definition example_rest : list byte := [xb1; xb2; xb3; xb4; xb5; xb6; xb7; xb8].

(** A completed buffer holding two segments, the second one L2-padded,
    followed by unused capacity. *)
Definition example_rx_buf : list byte :=
  example_segment 0 example_payload
  ++ example_segment (2 ^ 14) (example_hdr ++ example_pad ++ example_rest)
  ++ repeat x00 16.

(** A two-entry receive ring after [mt7601u_dma_init]. *)
Definition example_rx_dev : mt7601u_dev :=
  snd (mt7601u_submit_rx
         (example_dev (rx_queue_alloc 2 8) (example_tx_queue 4 0 0))).

(** The device after the softirq has run the tasklet. *)
Definition after_rx_tasklet (dev : mt7601u_dev) : mt7601u_dev :=
  match run_rx_tasklet mt7601u_hw std_collab dev with
  | Some dev' => dev'
  | None => dev
  end.

(** A run from [example_rx_dev]: the transfer of entry 0 fails (-EPROTO)
    and the tasklet runs; then the transfer of entry 1 succeeds and the
    tasklet runs again. *)
Definition example_rx_failed : mt7601u_dev :=
  usb_giveback_rx std_collab example_rx_dev 0 (- 71) 0 (repeat x00 8).

Definition example_rx_dropped : mt7601u_dev := after_rx_tasklet example_rx_failed.

Definition example_rx_given_back : mt7601u_dev :=
  usb_giveback_rx std_collab example_rx_dropped 1 0 0 (repeat x00 8).

Definition example_rx_desynced : mt7601u_dev :=
  after_rx_tasklet example_rx_given_back.


(** ** Vocabulary for the properties of Part III *)

(** Start offsets of consecutive regions of the given lengths. *)
Fixpoint offsets (off : Z) (lens : list Z) : list Z :=
  match lens with
  | [] => []
  | l :: t => off :: offsets (off + l) t
  end.

Definition zsum (l : list Z) : Z := fold_right Z.add 0 l.

(** A payload with the two bytes at positions [h] and [h + 1] taken out. *)
Definition l2_unpad (h : Z) (payload : list byte) : list byte :=
  bytes_of payload h ++ advance payload (h + 2).

Definition stop_events (evs : list event) : list Z :=
  flat_map (fun e => match e with EvStopQueue q => [q] | _ => [] end) evs.


Definition free_urb_events (evs : list event) : list Z :=
  flat_map (fun e => match e with EvFreeUrb u => [u] | _ => [] end) evs.

Definition tx_status_events (evs : list event) : list (option sk_buff) :=
  flat_map (fun e => match e with EvTxStatus s => [s] | _ => [] end) evs.

Definition dev_err_events (evs : list event) : list string :=
  flat_map (fun e => match e with EvDevErr m => [m] | _ => [] end) evs.

(** The ring positions visited by [n] steps from [start]. *)
Fixpoint ring_walk (N start : Z) (n : nat) : list Z :=
  match n with
  | O => []
  | S n' => start :: ring_walk N ((start + 1) mod N) n'
  end.

Definition kfree_events (evs : list event) : list sk_buff :=
  flat_map (fun e => match e with EvKfreeSkb s => [s] | _ => [] end) evs.

Definition aggr_events (evs : list event) : list Z :=
  flat_map (fun e => match e with EvTraceAggr n => [n] | _ => [] end) evs.

(** The frame [mt7601u_rx_skb_from_seg] builds from the first [seg_len]
    bytes of [data] when the allocation succeeds. *)
Definition seg_frame (c : dma_consts) (x : collaborators)
    (rxwi : mt7601u_rxwi) (data : list byte) (seg_len : Z) : sk_buff :=
  if l2pad c rxwi
  then mk_skb (seg_len - 2) (repeat x00 48)
              (l2_unpad (ieee80211_get_hdrlen_from_buf x data (seg_len - 2))
                        (bytes_of data seg_len))
              0 []
  else mk_skb seg_len (repeat x00 48) (bytes_of data seg_len) 0 [].

(** A ring with no entry held back: every entry is either pending or in
    flight. *)
Definition ring_full (N : Z) (dev : mt7601u_dev) : Prop :=
  ring_inv N dev
  /\ forall k, rx_pending (rx_q dev) <= k < N ->
       in_flight
         (rx_urb (rx_entry dev ((rx_start (rx_q dev) + k) mod N))) = true.

Definition free_buf_events (evs : list event) : list Z :=
  flat_map (fun e => match e with EvFreeBuf i => [i] | _ => [] end) evs.

(** The part of a log that concerns the receive path: resubmissions,
    delivered frames and released buffers. *)
Definition rx_trace (evs : list event) : list event :=
  filter (fun e => match e with
                   | EvSubmitBuf _ _ | EvRx _ | EvFreeBuf _ => true
                   | _ => false
                   end) evs.

(** The body of the loop of [mt7601u_submit_rx]. *)
Definition submit_rx_step (acc : Z * mt7601u_dev) (i : Z) : Z * mt7601u_dev :=
  let '(ret, dev) := acc in
  if ret =? 0 then mt7601u_usb_submit_buf dev i Complete_rx else acc.

(** A transmit queue whose indices are consistent: [used] slots from
    [start] on are occupied and [end] follows them. *)
Definition tx_inv (N : Z) (q : mt7601u_tx_queue) : Prop :=
  0 < N < 2 ^ 32
  /\ tx_entries q = N
  /\ Z.of_nat (List.length (tx_e q)) = N
  /\ 0 <= tx_start q < N
  /\ 0 <= tx_used q <= N
  /\ tx_end q = (tx_start q + tx_used q) mod N.

(** The frames a transmit queue holds, oldest first. *)
Definition tx_fifo (N : Z) (q : mt7601u_tx_queue) : list (option sk_buff) :=
  map (fun i => skb (tx_entry q i))
      (ring_walk N (tx_start q) (Z.to_nat (tx_used q))).




(** One turn of the loop of [mt7601u_free_tx_queue]: the urb of slot [i]
    is poisoned, then freed. *)
Definition free_tx_queue_step (x : collaborators) (ep : Z)
    (dev : mt7601u_dev) (i : Z) : mt7601u_dev :=
  let dev := usb_poison_urb_tx x dev ep i in
  add_log dev [EvFreeUrb (urb_id (tx_urb (tx_entry (tx_queue dev ep) i)))].

(* ===================================================================== *)
(** * Part II: properties                                                  *)
(* ===================================================================== *)

(** ** Integers and bytes *)

Lemma byte_val_range (b : byte) : 0 <= byte_val b < 256.
Proof. destruct b; vm_compute; split; congruence. Qed.

Lemma byte_at_range (data : list byte) (i : Z) : 0 <= byte_at data i < 256.
Proof.
  unfold byte_at. destruct (i <? 0); [lia | apply byte_val_range].
Qed.

Lemma land_shiftl_8 (a b : Z) : 0 <= a < 256 -> Z.land a (Z.shiftl b 8) = 0.
Proof.
  intros Ha.
  apply Z.bits_inj'; intros n Hn. rewrite Z.land_spec, Z.bits_0.
  destruct (Z.ltb_spec n 8) as [Hlt | Hge].
  - rewrite Z.shiftl_spec_low by lia. apply andb_false_r.
  - replace (Z.testbit a n) with false; [reflexivity | ].
    symmetry. destruct (Z.eq_dec a 0) as [-> | Hnz]; [apply Z.bits_0 | ].
    apply Z.bits_above_log2; [lia | ].
    apply Z.lt_le_trans with 8; [ | lia].
    apply Z.log2_lt_pow2; simpl; lia.
Qed.

Lemma lor_shiftl_8 (a b : Z) :
  0 <= a < 256 -> Z.lor a (Z.shiftl b 8) = a + 256 * b.
Proof.
  intros Ha.
  rewrite <- Z.lxor_lor by (apply land_shiftl_8; lia).
  rewrite <- Z.add_nocarry_lxor by (apply land_shiftl_8; lia).
  rewrite Z.shiftl_mul_pow2 by lia. change (2 ^ 8) with 256. lia.
Qed.

Lemma get_unaligned_le16_eq (data : list byte) :
  get_unaligned_le16 data = byte_at data 0 + 256 * byte_at data 1.
Proof.
  unfold get_unaligned_le16.
  pose proof (byte_at_range data 0). pose proof (byte_at_range data 1).
  apply lor_shiftl_8; lia.
Qed.

Lemma get_unaligned_le16_range (data : list byte) :
  0 <= get_unaligned_le16 data < 65536.
Proof.
  rewrite get_unaligned_le16_eq.
  pose proof (byte_at_range data 0). pose proof (byte_at_range data 1). lia.
Qed.

Lemma u16_range (z : Z) : 0 <= u16 z < 65536.
Proof. unfold u16. change (2 ^ 16) with 65536. apply Z.mod_pos_bound. lia. Qed.

Lemma u16_small (z : Z) : 0 <= z < 65536 -> u16 z = z.
Proof. intros. unfold u16. apply Z.mod_small. change (2 ^ 16) with 65536. lia. Qed.

Lemma u16_le (z : Z) : 0 <= z -> u16 z <= z.
Proof. intros. unfold u16. apply Z.mod_le; lia. Qed.

Lemma u32_range (z : Z) : 0 <= u32 z < 2 ^ 32.
Proof. unfold u32. apply Z.mod_pos_bound. lia. Qed.

Lemma u32_small (z : Z) : 0 <= z < 2 ^ 32 -> u32 z = z.
Proof. intros. unfold u32. apply Z.mod_small. lia. Qed.

Lemma land_3_mod_4 (z : Z) : Z.land z 3 = z mod 4.
Proof. change 3 with (Z.ones 2). rewrite Z.land_ones by lia. reflexivity. Qed.

(** ** The receive reassembler: segment lengths *)

Section ReassemblerProps.
Variable c : dma_consts.
Variable x : collaborators.

Lemma next_seg_len_rejected (data : list byte) (data_len : Z) :
  seg_rejected c data data_len -> mt7601u_rx_next_seg_len c data data_len = 0.
Proof.
  unfold seg_rejected, mt7601u_rx_next_seg_len. intros H.
  rewrite land_3_mod_4.
  destruct (Z.ltb_spec data_len (min_seg_len c)); [reflexivity | ].
  destruct (Z.eqb_spec (get_unaligned_le16 data) 0); [reflexivity | ].
  destruct (Z.gtb_spec (get_unaligned_le16 data + MT_DMA_HDRS c) data_len);
    [reflexivity | ].
  destruct (Z.eqb_spec (get_unaligned_le16 data mod 4) 0); [ | reflexivity].
  lia.
Qed.

Lemma next_seg_len_accepted (data : list byte) (data_len : Z) :
  ~ seg_rejected c data data_len ->
  mt7601u_rx_next_seg_len c data data_len
  = u16 (MT_DMA_HDRS c + get_unaligned_le16 data).
Proof.
  unfold seg_rejected, mt7601u_rx_next_seg_len. intros H.
  rewrite land_3_mod_4.
  destruct (Z.ltb_spec data_len (min_seg_len c)); [lia | ].
  destruct (Z.eqb_spec (get_unaligned_le16 data) 0); [lia | ].
  destruct (Z.gtb_spec (get_unaligned_le16 data + MT_DMA_HDRS c) data_len);
    [lia | ].
  destruct (Z.eqb_spec (get_unaligned_le16 data mod 4) 0); [ | lia].
  reflexivity.
Qed.

Lemma seg_rejected_dec (data : list byte) (data_len : Z) :
  seg_rejected c data data_len \/ ~ seg_rejected c data data_len.
Proof. unfold seg_rejected. lia. Qed.

(** A non-zero result is positive and within the remaining length, for
    every [data_len]: the truncation to [u16] can only shrink it. *)
Lemma next_seg_len_bounds (data : list byte) (data_len : Z) :
  0 <= MT_DMA_HDRS c ->
  mt7601u_rx_next_seg_len c data data_len <> 0 ->
  0 < mt7601u_rx_next_seg_len c data data_len <= data_len.
Proof.
  intros Hh Hnz.
  destruct (seg_rejected_dec data data_len) as [R | A].
  - rewrite next_seg_len_rejected in Hnz by exact R. congruence.
  - rewrite next_seg_len_accepted in * by exact A.
    pose proof (get_unaligned_le16_range data).
    pose proof (u16_range (MT_DMA_HDRS c + get_unaligned_le16 data)).
    pose proof (u16_le (MT_DMA_HDRS c + get_unaligned_le16 data)).
    unfold seg_rejected in A. lia.
Qed.

(** Below 64 KiB nothing is truncated. *)
Lemma next_seg_len_exact (data : list byte) (data_len : Z) :
  0 <= MT_DMA_HDRS c -> data_len < 2 ^ 16 ->
  ~ seg_rejected c data data_len ->
  mt7601u_rx_next_seg_len c data data_len
  = MT_DMA_HDRS c + get_unaligned_le16 data
  /\ MT_DMA_HDRS c + 4 <= MT_DMA_HDRS c + get_unaligned_le16 data <= data_len.
Proof.
  intros Hh Hlen A.
  rewrite next_seg_len_accepted by exact A.
  pose proof (get_unaligned_le16_range data).
  unfold seg_rejected in A.
  assert (get_unaligned_le16 data mod 4 = 0) as Hm by lia.
  apply Z.mod_divide in Hm; [ | lia]. destruct Hm as [k Hk].
  rewrite u16_small by (change (2 ^ 16) with 65536 in Hlen; lia).
  lia.
Qed.

Lemma u32_sub_lt (data_len seg : Z) :
  0 < seg <= data_len -> 0 <= u32 (data_len - seg) < data_len.
Proof.
  intros H. pose proof (u32_range (data_len - seg)).
  destruct (Z.lt_ge_cases (data_len - seg) (2 ^ 32)).
  - rewrite u32_small by lia. lia.
  - lia.
Qed.

Lemma rx_process_loop_fuel (fuel : nat) :
  0 <= MT_DMA_HDRS c ->
  forall buf off data_len cnt,
    (Z.to_nat data_len < fuel)%nat ->
    exists r, rx_process_loop c x fuel buf off data_len cnt = Some r.
Proof.
  intros Hh. induction fuel as [ | fuel IH]; intros buf off data_len cnt Hf.
  - lia.
  - cbn [rx_process_loop].
    destruct (Z.eqb_spec (mt7601u_rx_next_seg_len c (advance buf off) data_len) 0)
      as [E | NE].
    + eexists; reflexivity.
    + pose proof (next_seg_len_bounds _ _ Hh NE) as B.
      pose proof (u32_sub_lt data_len _ B) as L.
      destruct (IH buf (off + mt7601u_rx_next_seg_len c (advance buf off) data_len)
                   (u32 (data_len - mt7601u_rx_next_seg_len c (advance buf off) data_len))
                   (cnt + 1)) as [[[[evs off'] len'] cnt'] ->]; [lia | ].
      eexists; reflexivity.
Qed.

Lemma rx_process_entry_total (init : bool) (buf : list byte) (n : Z) :
  0 <= MT_DMA_HDRS c ->
  exists evs, mt7601u_rx_process_entry c x init buf n = Some evs.
Proof.
  intros Hh. unfold mt7601u_rx_process_entry.
  destruct init; cbn [negb]; [ | eexists; reflexivity].
  destruct (rx_process_loop_fuel (rx_fuel n) Hh buf 0 n 0)
    as [[[[evs off'] len'] cnt'] ->]; [unfold rx_fuel; lia | ].
  eexists; reflexivity.
Qed.

(** C3 (amended): for a receive buffer with fewer than 65536 bytes left,
    segment extraction stops, with no frame for the current or any later
    bytes, exactly when the remaining region is below the minimum segment
    size, or dma_len is 0, or dma_len is not a multiple of 4, or the header
    total plus dma_len exceeds the remaining region; an accepted segment
    has length header total plus dma_len, and the loop processes it and
    goes on with cursor and remaining length moved by exactly that
    amount. *)
Theorem rx_segment_extraction
    (buf : list byte) (off data_len cnt : Z) (fuel : nat) :
  0 <= MT_DMA_HDRS c ->
  0 <= data_len < 2 ^ 16 ->
  let data := advance buf off in
  let seg := MT_DMA_HDRS c + get_unaligned_le16 data in
  (mt7601u_rx_next_seg_len c data data_len = 0 <-> seg_rejected c data data_len)
  /\ (seg_rejected c data data_len ->
      rx_process_loop c x (S fuel) buf off data_len cnt
      = Some ([], off, data_len, cnt))
  /\ (~ seg_rejected c data data_len ->
      mt7601u_rx_next_seg_len c data data_len = seg
      /\ rx_process_loop c x (S fuel) buf off data_len cnt
         = loop_cons (mt7601u_rx_process_seg c x buf off seg)
             (rx_process_loop c x fuel buf (off + seg) (data_len - seg)
                              (cnt + 1))).
Proof.
  intros Hh Hlen data seg. subst data seg.
  split; [ | split].
  - split; [ | apply next_seg_len_rejected].
    intros E. destruct (seg_rejected_dec (advance buf off) data_len) as [R | A];
      [exact R | ].
    destruct (next_seg_len_exact _ _ Hh (proj2 Hlen) A) as [E' B]. lia.
  - intros R. cbn [rx_process_loop].
    rewrite (next_seg_len_rejected _ _ R). reflexivity.
  - intros A.
    destruct (next_seg_len_exact _ _ Hh (proj2 Hlen) A) as [E B].
    split; [exact E | ].
    cbn [rx_process_loop]. rewrite E.
    destruct (Z.eqb_spec (MT_DMA_HDRS c + get_unaligned_le16 (advance buf off)) 0);
      [lia | ].
    rewrite u32_small by lia. reflexivity.
Qed.

(** C10 (amended): the reassembly loop terminates for every buffer
    contents and every data_len: a non-zero next-segment length is strictly
    positive and does not exceed the remaining data_len, so the remaining
    length strictly decreases on every iteration; the result is moreover
    at least the header total plus 4 whenever data_len is below 65536. *)
Theorem rx_process_entry_terminates
    (init : bool) (buf : list byte) (data_len : Z) :
  0 <= MT_DMA_HDRS c ->
  (forall data len,
      mt7601u_rx_next_seg_len c data len <> 0 ->
      0 < mt7601u_rx_next_seg_len c data len <= len
      /\ 0 <= u32 (len - mt7601u_rx_next_seg_len c data len) < len
      /\ (len < 2 ^ 16 ->
          MT_DMA_HDRS c + 4 <= mt7601u_rx_next_seg_len c data len))
  /\ (forall off cnt, exists r,
        rx_process_loop c x (rx_fuel data_len) buf off data_len cnt = Some r)
  /\ (exists evs, mt7601u_rx_process_entry c x init buf data_len = Some evs).
Proof.
  intros Hh. split; [ | split].
  - intros data len NE.
    pose proof (next_seg_len_bounds _ _ Hh NE) as B.
    split; [exact B | split; [apply u32_sub_lt; exact B | ]].
    intros Hl.
    destruct (seg_rejected_dec data len) as [R | A].
    + rewrite (next_seg_len_rejected _ _ R) in NE. congruence.
    + destruct (next_seg_len_exact _ _ Hh Hl A) as [E B']. lia.
  - intros off cnt. apply rx_process_loop_fuel; [exact Hh | unfold rx_fuel; lia].
  - apply rx_process_entry_total. exact Hh.
Qed.

End ReassemblerProps.

(** ** The receive reassembler: frames *)

Section FrameProps.
Variable c : dma_consts.
Variable x : collaborators.

Lemma bytes_of_app (a b : list byte) :
  bytes_of (a ++ b) (Z.of_nat (List.length a)) = a.
Proof.
  unfold bytes_of. rewrite Nat2Z.id.
  rewrite firstn_app, Nat.sub_diag, firstn_all. cbn. apply app_nil_r.
Qed.

Lemma advance_app (a b : list byte) :
  advance (a ++ b) (Z.of_nat (List.length a)) = b.
Proof.
  unfold advance. rewrite Nat2Z.id.
  rewrite skipn_app, Nat.sub_diag, skipn_all. reflexivity.
Qed.

Lemma hdrlen_from_buf_spec (data : list byte) (len : Z) :
  ieee80211_get_hdrlen_from_buf x data len
  = if (len <? 10) || (ieee80211_hdrlen x (frame_control data) >? len)
    then 0 else ieee80211_hdrlen x (frame_control data).
Proof.
  unfold ieee80211_get_hdrlen_from_buf.
  destruct (len <? 10); reflexivity.
Qed.

(** C4: L2-padding round trip.  A payload made of a link-layer header of
    the length H that [ieee80211_get_hdrlen_from_buf] computes (0 when
    fewer than 10 bytes are available or the header length read from the
    frame-control field exceeds them), 2 pad bytes and the remaining bytes
    is reassembled, when the L2-pad flag is set, into the header followed
    by the remaining bytes, in a buffer allocated to exactly that length;
    with the flag clear the payload is copied verbatim. *)
Theorem rx_skb_from_seg_l2pad_roundtrip
    (rxwi : mt7601u_rxwi) (hdr pad rest tail : list byte) :
  let payload := hdr ++ pad ++ rest in
  let data := payload ++ tail in
  let P := Z.of_nat (List.length payload) in
  List.length pad = 2%nat ->
  P < 2 ^ 32 ->
  ieee80211_get_hdrlen_from_buf x data (P - 2) = Z.of_nat (List.length hdr) ->
  alloc_ok x (P - 2) = true ->
  alloc_ok x P = true ->
  (forall d len,
      ieee80211_get_hdrlen_from_buf x d len
      = if (len <? 10) || (ieee80211_hdrlen x (frame_control d) >? len)
        then 0 else ieee80211_hdrlen x (frame_control d))
  /\ (l2pad c rxwi = true ->
      exists s,
        mt7601u_rx_skb_from_seg c x rxwi data P = Some s
        /\ skb_data s = hdr ++ rest
        /\ skb_size s = Z.of_nat (List.length (hdr ++ rest))
        /\ skb_size s = P - 2)
  /\ (l2pad c rxwi = false ->
      exists s,
        mt7601u_rx_skb_from_seg c x rxwi data P = Some s
        /\ skb_data s = payload
        /\ skb_size s = P).
Proof.
  intros payload data P Hpad HP HH Ha2 Ha.
  assert (P = Z.of_nat (List.length hdr) + 2 + Z.of_nat (List.length rest)) as HPeq.
  { subst P payload. rewrite !length_app, Hpad. lia. }
  split; [exact hdrlen_from_buf_spec | split].
  - intros Hf. unfold mt7601u_rx_skb_from_seg. rewrite Hf.
    rewrite (u32_small (P - 2)) by lia.
    unfold alloc_skb. rewrite Ha2, HH.
    eexists. split; [reflexivity | ].
    cbn [skb_put_data skb_memset_cb new_skb skb_data skb_size app].
    rewrite u32_small by lia.
    replace (P - 2 - Z.of_nat (List.length hdr))
      with (Z.of_nat (List.length rest)) by lia.
    subst data payload.
    rewrite <- app_assoc, bytes_of_app.
    replace (Z.of_nat (List.length hdr) + 2)
      with (Z.of_nat (List.length (hdr ++ pad)))
      by (rewrite length_app, Hpad; lia).
    rewrite <- (app_assoc pad), (app_assoc hdr pad), advance_app, bytes_of_app.
    split; [reflexivity | ]. rewrite length_app. lia.
  - intros Hf. unfold mt7601u_rx_skb_from_seg. rewrite Hf.
    unfold alloc_skb. rewrite Ha.
    eexists. split; [reflexivity | ].
    cbn [skb_put_data skb_memset_cb new_skb skb_data skb_size app].
    subst data P. rewrite bytes_of_app. split; reflexivity.
Qed.

End FrameProps.

(** ** Arrays *)

Lemma length_set_nth {A} (l : list A) (n : nat) (v : A) :
  List.length (set_nth l n v) = List.length l.
Proof.
  revert n; induction l as [ | h t IH]; intros [ | n]; cbn; auto.
Qed.

Lemma nth_set_nth_eq {A} (l : list A) (n : nat) (v d : A) :
  (n < List.length l)%nat -> nth n (set_nth l n v) d = v.
Proof.
  revert n; induction l as [ | h t IH]; intros [ | n] H; cbn in *;
    try lia; auto. apply IH. lia.
Qed.

Lemma nth_set_nth_neq {A} (l : list A) (n m : nat) (v d : A) :
  n <> m -> nth m (set_nth l n v) d = nth m l d.
Proof.
  revert n m; induction l as [ | h t IH]; intros [ | n] [ | m] H; cbn;
    try congruence; auto.
Qed.

Lemma set_nth_out {A} (l : list A) (n : nat) (v : A) :
  (List.length l <= n)%nat -> set_nth l n v = l.
Proof.
  revert n; induction l as [ | h t IH]; intros [ | n] H; cbn in *;
    try lia; auto. f_equal. apply IH. lia.
Qed.

Lemma length_zset {A} (l : list A) (i : Z) (v : A) :
  List.length (zset l i v) = List.length l.
Proof. unfold zset. destruct (i <? 0); [reflexivity | apply length_set_nth]. Qed.

Lemma zth_zset_eq {A} (l : list A) (i : Z) (v d : A) :
  0 <= i < Z.of_nat (List.length l) -> zth (zset l i v) i d = v.
Proof.
  intros H. unfold zth, zset.
  destruct (Z.ltb_spec i 0); [lia | ]. apply nth_set_nth_eq. lia.
Qed.

Lemma zth_zset_neq {A} (l : list A) (i j : Z) (v d : A) :
  0 <= j -> i <> j -> zth (zset l i v) j d = zth l j d.
Proof.
  intros Hj H. unfold zth, zset.
  destruct (Z.ltb_spec i 0); [reflexivity | ]. apply nth_set_nth_neq. lia.
Qed.

Lemma zset_out {A} (l : list A) (i : Z) (v : A) :
  ~ (0 <= i < Z.of_nat (List.length l)) -> zset l i v = l.
Proof.
  intros H. unfold zset.
  destruct (Z.ltb_spec i 0); [reflexivity | ]. apply set_nth_out. lia.
Qed.

Lemma tx_queue_set_eq (dev : mt7601u_dev) (ep : Z) (q : mt7601u_tx_queue) :
  0 <= ep < Z.of_nat (List.length (tx_q dev)) ->
  tx_queue (set_tx_queue dev ep q) ep = q.
Proof. intros H. unfold tx_queue, set_tx_queue. cbn. apply zth_zset_eq. exact H. Qed.

Lemma tx_queue_set_neq (dev : mt7601u_dev) (ep ep' : Z) (q : mt7601u_tx_queue) :
  0 <= ep' -> ep <> ep' ->
  tx_queue (set_tx_queue dev ep q) ep' = tx_queue dev ep'.
Proof. intros. unfold tx_queue, set_tx_queue. cbn. apply zth_zset_neq; assumption. Qed.

(** Writing a queue back either installs it or, for an index outside the
    array, leaves the array alone. *)
Lemma tx_queue_set_cases (dev : mt7601u_dev) (ep : Z) (q : mt7601u_tx_queue) :
  tx_queue (set_tx_queue dev ep q) ep = q
  \/ tx_q (set_tx_queue dev ep q) = tx_q dev.
Proof.
  destruct (Z.le_gt_cases 0 ep) as [H0 | H0];
    [destruct (Z.lt_ge_cases ep (Z.of_nat (List.length (tx_q dev)))) as [H1 | H1] | ].
  - left. apply tx_queue_set_eq. lia.
  - right. cbn. apply zset_out. lia.
  - right. cbn. apply zset_out. lia.
Qed.

(** ** Transmit queues *)

Section TxProps.
Variable c : dma_consts.
Variable x : collaborators.

Lemma tx_queue_add_log dev evs ep : tx_queue (add_log dev evs) ep = tx_queue dev ep.
Proof. reflexivity. Qed.
Lemma tx_queue_set_state dev st ep : tx_queue (set_state dev st) ep = tx_queue dev ep.
Proof. reflexivity. Qed.

Theorem dma_submit_tx_admission
    (dev : mt7601u_dev) (s : sk_buff) (ep usb_ret : Z) :
  0 <= ep < Z.of_nat (List.length (tx_q dev)) ->
  let q := tx_queue dev ep in
  let r := mt7601u_dma_submit_tx dev s ep usb_ret in
  let q' := tx_queue (snd r) ep in
  (tx_used q = tx_entries q ->
     fst r = - ENOSPC
     /\ log (snd r) = log dev ++ [EvWarn "q->entries <= q->used"]
     /\ tx_q (snd r) = tx_q dev
     /\ state (snd r) = state dev)
  /\ (fst r <> 0 ->
      tx_used q' = tx_used q /\ tx_end q' = tx_end q
      /\ tx_start q' = tx_start q /\ tx_entries q' = tx_entries q)
  /\ (fst r = 0 ->
      usb_ret = 0
      /\ tx_used q < tx_entries q
      /\ tx_used q' = u32 (tx_used q + 1)
      /\ tx_end q' = u32 (tx_end q + 1) mod tx_entries q
      /\ submit_urb_events (log (snd r))
         = submit_urb_events (log dev)
             ++ [(zth (out_eps dev) ep 0,
                  urb_id (tx_urb (tx_entry q (tx_end q))), s)]).
Proof.
  intros Hep q r q'. subst q' r. unfold mt7601u_dma_submit_tx. fold q.
  destruct (Z.leb_spec (tx_entries q) (tx_used q)) as [Hfull | Hfree].
  - cbn [fst snd]. split; [ | split].
    + intros _. repeat split.
    + intros _. repeat split.
    + unfold ENOSPC. intros H. discriminate H.
  - destruct (Z.eqb_spec usb_ret 0) as [-> | Hret]; cbn [negb].
    + match goal with
      | |- context [if ?b then _ else _] => destruct b
      end; cbn [fst snd]; (split; [ | split]); try (intros H; lia).
      all: intros _.
      all: rewrite ?tx_queue_add_log.
      all: rewrite tx_queue_set_eq by (cbn; exact Hep).
      all: cbn [tx_used tx_end tx_entries set_tx_entry].
      all: cbn [log add_log set_tx_queue set_state].
      all: unfold submit_urb_events; rewrite ?flat_map_app; cbn [flat_map app].
      all: rewrite ?app_nil_r; repeat split; try lia.
    + destruct (Z.eqb_spec usb_ret (- ENODEV)); cbn [fst snd].
      all: split; [intros H; lia | split; [ | intros H; lia]].
      all: intros _.
      all: rewrite ?tx_queue_add_log, ?tx_queue_set_state.
      all: rewrite tx_queue_set_eq by (cbn; exact Hep).
      all: repeat split.
Qed.

Lemma cons_neq_self {A} (a : A) (l : list A) : a :: l <> l.
Proof.
  intros H. apply (f_equal (@List.length A)) in H. cbn in H. lia.
Qed.

(** C9: transmit enqueue wraps the caller's frame with the DMA-control
    word first: the capacity check and the submission work on the wrapped
    frame, so whenever the call fails (no space, or a submission error)
    the indices and the used count of the queue are as before while the
    caller's frame already carries the prepended DMA-control word. *)
Theorem dma_enqueue_tx_wraps_first
    (dev : mt7601u_dev) (s : sk_buff) (wcid : mt76_wcid) (hw_q usb_ret : Z) :
  let ep := q2ep (u8 hw_q) in
  let flags :=
    if hw_key_idx wcid =? 255
    then Z.lor (MT_TXD_PKT_INFO_80211 c) (MT_TXD_PKT_INFO_WIV c)
    else MT_TXD_PKT_INFO_80211 c in
  let q := tx_queue dev ep in
  let r := mt7601u_dma_enqueue_tx c dev s wcid hw_q usb_ret in
  let ret := fst (fst r) in
  let s' := snd (fst r) in
  let q' := tx_queue (snd r) ep in
  skb_txd s' = mk_txd (ep2dmaq ep) flags :: skb_txd s
  /\ skb_data s' = skb_data s
  /\ s' <> s
  /\ (ret, snd r) = mt7601u_dma_submit_tx dev s' ep usb_ret
  /\ (ret <> 0 ->
      tx_used q' = tx_used q /\ tx_end q' = tx_end q
      /\ tx_start q' = tx_start q /\ tx_entries q' = tx_entries q)
  /\ (tx_entries q <= tx_used q ->
      ret = - ENOSPC /\ tx_q (snd r) = tx_q dev
      /\ submit_urb_events (log (snd r)) = submit_urb_events (log dev))
  /\ (tx_used q < tx_entries q -> usb_ret <> 0 ->
      ret = usb_ret
      /\ submit_urb_events (log (snd r))
         = submit_urb_events (log dev)
             ++ [(zth (out_eps dev) ep 0,
                  urb_id (tx_urb (tx_entry q (tx_end q))), s')]).
Proof.
  intros ep flags q r ret s' q'. subst q' s' ret r.
  unfold mt7601u_dma_enqueue_tx. fold ep. fold flags.
  set (w := mt7601u_dma_skb_wrap_pkt s (ep2dmaq ep) flags).
  destruct (mt7601u_dma_submit_tx dev w ep usb_ret) as [ret dev'] eqn:E.
  cbn [fst snd].
  split; [reflexivity | split; [reflexivity | split; [ | split; [symmetry; exact E | ]]]].
  { intros H. apply (f_equal skb_txd) in H. cbn in H.
    exact (cons_neq_self _ _ H). }
  unfold mt7601u_dma_submit_tx in E. fold q in E.
  destruct (Z.leb_spec (tx_entries q) (tx_used q)) as [Hfull | Hfree].
  - injection E as <- <-. split; [ | split].
    + intros _. repeat split.
    + intros _. cbn [log add_log tx_q]. unfold submit_urb_events.
      rewrite flat_map_app. cbn. rewrite app_nil_r. repeat split.
    + intros H. lia.
  - destruct (Z.eqb_spec usb_ret 0) as [-> | Hret]; cbn [negb] in E.
    + assert (ret = 0) as ->.
      { destruct (_ >=? _) in E; injection E as <- _; reflexivity. }
      split; [intros H; lia | split; intros; lia].
    + assert (ret = usb_ret
              /\ log dev' = (log dev ++ [EvSubmitUrb (zth (out_eps dev) ep 0)
                                 (urb_id (tx_urb (tx_entry q (tx_end q)))) w])
                            ++ (if usb_ret =? - ENODEV then []
                                else [EvDevErr "Error: TX urb submit failed"])
              /\ tx_q dev'
                 = zset (tx_q dev) ep
                     (set_tx_entry q (tx_end q)
                        (mk_dma_buf_tx (tx_urb (tx_entry q (tx_end q))) (Some w))))
        as (-> & Hlog & Htx).
      { destruct (usb_ret =? - ENODEV); injection E as <- <-; cbn;
          rewrite ?app_nil_r; repeat split. }
      split; [ | split; [intros H; lia | ]].
      * intros _. change (tx_queue dev' ep) with (zth (tx_q dev') ep null_tx_queue).
        rewrite Htx.
        destruct (Z.le_gt_cases 0 ep) as [H0 | H0];
          [destruct (Z.lt_ge_cases ep (Z.of_nat (List.length (tx_q dev))))
            as [H1 | H1] | ].
        -- rewrite zth_zset_eq by lia. repeat split.
        -- rewrite zset_out by lia. repeat split.
        -- rewrite zset_out by lia. repeat split.
      * intros _ _. split; [reflexivity | ]. rewrite Hlog.
        unfold submit_urb_events. rewrite !flat_map_app. cbn [flat_map app].
        destruct (usb_ret =? - ENODEV); cbn; rewrite ?app_nil_r; reflexivity.
Qed.

Lemma q2ep_u8 (hw_q : Z) : q2ep (u8 hw_q) = (hw_q mod 256 + 1) mod 256.
Proof. reflexivity. Qed.

Lemma q2ep_small (hw_q : Z) : 0 <= hw_q < 255 -> q2ep (u8 hw_q) = hw_q + 1.
Proof.
  intros H. rewrite q2ep_u8.
  rewrite (Z.mod_small hw_q) by lia. apply Z.mod_small. lia.
Qed.

(** C8 (amended): for every frame and hardware queue id passed to
    transmit enqueue, the endpoint is queue_id + 1 computed in 8 bits (so
    queue_id + 1 for ids 0..254); the frame is submitted on that endpoint's
    queue whatever the tag; the descriptor selector in the DMA-control word
    is the management tag exactly when the endpoint is 5 and the contention
    tag otherwise; and the no-software-encryption flag is set in the
    DMA-control word exactly when the peer's hardware-key index is 0xFF. *)
Theorem dma_enqueue_tx_endpoint_and_flags
    (dev : mt7601u_dev) (s : sk_buff) (wcid : mt76_wcid) (hw_q usb_ret : Z) :
  Z.land (MT_TXD_PKT_INFO_80211 c) (MT_TXD_PKT_INFO_WIV c) = 0 ->
  MT_TXD_PKT_INFO_WIV c <> 0 ->
  let ep := q2ep (u8 hw_q) in
  let r := mt7601u_dma_enqueue_tx c dev s wcid hw_q usb_ret in
  let s' := snd (fst r) in
  ep = (hw_q mod 256 + 1) mod 256
  /\ (0 <= hw_q < 255 -> ep = hw_q + 1)
  /\ (fst (fst r), snd r) = mt7601u_dma_submit_tx dev s' ep usb_ret
  /\ exists w,
      skb_txd s' = w :: skb_txd s
      /\ (txd_qsel w = MT_QSEL_MGMT <-> ep = 5)
      /\ (txd_qsel w = MT_QSEL_EDCA <-> ep <> 5)
      /\ (Z.land (txd_flags w) (MT_TXD_PKT_INFO_WIV c) = MT_TXD_PKT_INFO_WIV c
          <-> hw_key_idx wcid = 255)
      /\ Z.land (txd_flags w) (MT_TXD_PKT_INFO_80211 c) = MT_TXD_PKT_INFO_80211 c.
Proof.
  intros Hdisj Hwiv ep r s'. subst s' r.
  split; [apply q2ep_u8 | split; [apply q2ep_small | ]].
  unfold mt7601u_dma_enqueue_tx. fold ep.
  destruct (mt7601u_dma_submit_tx dev _ ep usb_ret) as [ret dev'] eqn:E.
  cbn [fst snd]. split; [symmetry; exact E | ].
  eexists. split; [reflexivity | ]. cbn [txd_qsel txd_flags].
  split; [ | split; [ | split]].
  - unfold ep2dmaq. destruct (Z.eqb_spec ep 5); split; intros; congruence.
  - unfold ep2dmaq. destruct (Z.eqb_spec ep 5); split; intros; congruence.
  - destruct (Z.eqb_spec (hw_key_idx wcid) 255) as [K | K].
    + split; [intros _; exact K | intros _].
      rewrite Z.land_lor_distr_l, Hdisj, Z.land_diag. reflexivity.
    + split; [ | intros; congruence]. rewrite Hdisj. intros H. congruence.
  - destruct (hw_key_idx wcid =? 255).
    + rewrite Z.land_lor_distr_l, Z.land_diag.
      rewrite (Z.land_comm (MT_TXD_PKT_INFO_WIV c)), Hdisj. apply Z.lor_0_r.
    + apply Z.land_diag.
Qed.

(** C2 (amended): a transmit completion handled at the expected slot
    issues the queue-wake signal exactly when the used count it finds,
    before reclaiming its slot, equals capacity - capacity/8: that
    completion issues exactly one wake, for the frame's mapped queue, and
    brings used down to capacity - capacity/8 - 1; completions at other
    used values issue none. *)
Theorem complete_tx_wake (dev : mt7601u_dev) (ep : Z) (u : urb) :
  let q := tx_queue dev ep in
  let dev' := mt7601u_complete_tx x dev ep u in
  0 <= ep < Z.of_nat (List.length (tx_q dev)) ->
  0 <= tx_entries q < 2 ^ 32 ->
  urb_id (tx_urb (tx_entry q (tx_start q))) = urb_id u ->
  tx_used (tx_queue dev' ep) = u32 (tx_used q - 1)
  /\ (0 < tx_used q < 2 ^ 32 -> tx_used (tx_queue dev' ep) = tx_used q - 1)
  /\ exists evs,
      log dev' = log dev ++ evs
      /\ wake_events evs
         = if tx_used q =? tx_entries q - tx_entries q / 8
           then [slot_queue_mapping (skb (tx_entry q (tx_start q)))]
           else [].
Proof.
  intros q dev' Hep Hent Hurb. subst dev'.
  unfold mt7601u_complete_tx. fold q. rewrite Hurb, Z.eqb_refl. cbn [negb].
  assert (u32 (tx_entries q - tx_entries q / 8) = tx_entries q - tx_entries q / 8)
    as ->.
  { apply u32_small.
    pose proof (Z.div_le_upper_bound (tx_entries q) 8 (tx_entries q)).
    pose proof (Z.div_pos (tx_entries q) 8). lia. }
  destruct (mt7601u_urb_has_error x u);
    destruct (tx_used q =? tx_entries q - tx_entries q / 8);
    destruct (Z.eqb_spec (status u) 0); cbn [negb];
    try destruct (MT7601U_STATE_READING_STATS (state _)) eqn:RS.
  all: rewrite ?tx_queue_add_log, ?tx_queue_set_state.
  all: rewrite tx_queue_set_eq by (cbn; exact Hep); cbn [tx_used].
  all: (split; [reflexivity | split; [intros; apply u32_small; lia | ]]).
  all: cbn [log add_log set_tx_queue set_state]; rewrite <- ?app_assoc.
  all: eexists; (split; [reflexivity | reflexivity]).
Qed.

End TxProps.
(** ** The receive ring *)

Lemma ring_mod (a b N : Z) :
  0 <= a < N -> 0 <= b <= N ->
  (a + b) mod N = if a + b <? N then a + b else a + b - N.
Proof.
  intros Ha Hb. destruct (Z.ltb_spec (a + b) N).
  - apply Z.mod_small. lia.
  - replace ((a + b) mod N) with ((a + b - N + 1 * N) mod N) by (f_equal; lia).
    rewrite Z.mod_add by lia. apply Z.mod_small. lia.
Qed.

Lemma ring_end_range (a b N : Z) :
  0 <= a < N -> 0 <= b <= N -> 0 <= (a + b) mod N < N.
Proof. intros. apply Z.mod_pos_bound. lia. Qed.

Section RingProps.
Variable c : dma_consts.
Variable x : collaborators.

Lemma complete_rx_spec (dev : mt7601u_dev) (u : urb) :
  let q := rx_q dev in
  let q' := rx_q (mt7601u_complete_rx x dev u) in
  rx_e q' = rx_e q /\ rx_start q' = rx_start q /\ rx_entries q' = rx_entries q
  /\ ((urb_id (rx_urb (rx_entry dev (rx_end q))) <> urb_id u
       /\ rx_end q' = rx_end q /\ rx_pending q' = rx_pending q)
      \/ (urb_id (rx_urb (rx_entry dev (rx_end q))) = urb_id u
          /\ rx_end q' = u32 (rx_end q + 1) mod rx_entries q
          /\ rx_pending q' = u32 (rx_pending q + 1))).
Proof.
  intros q q'. subst q q'. unfold mt7601u_complete_rx, rx_entry.
  destruct (Z.eqb_spec
              (urb_id (rx_urb (zth (rx_e (rx_q dev)) (rx_end (rx_q dev)) null_dma_buf)))
              (urb_id u)) as [E | NE];
    destruct (mt7601u_urb_has_error x u); cbn;
    repeat split; auto.
Qed.

Lemma get_pending_entry_spec (dev : mt7601u_dev) :
  let q := rx_q dev in
  let r := mt7601u_rx_get_pending_entry dev in
  let q' := rx_q (snd r) in
  rx_e q' = rx_e q /\ rx_end q' = rx_end q /\ rx_entries q' = rx_entries q
  /\ log (snd r) = log dev
  /\ (rx_pending q = 0 -> fst r = None /\ snd r = dev)
  /\ (rx_pending q <> 0 ->
      fst r = Some (rx_start q)
      /\ rx_start q' = u32 (rx_start q + 1) mod rx_entries q
      /\ rx_pending q' = u32 (rx_pending q - 1)).
Proof.
  intros q r q'. subst q q' r. unfold mt7601u_rx_get_pending_entry.
  destruct (Z.eqb_spec (rx_pending (rx_q dev)) 0) as [E | NE]; cbn;
    repeat split; auto; intros; congruence.
Qed.

(** Handling a popped entry touches neither index nor the pending count,
    and no urb other than the entry's own. *)
Lemma rx_tasklet_body_spec (dev dev' : mt7601u_dev) (e : Z) :
  rx_tasklet_body c x dev e = Some dev' ->
  rx_start (rx_q dev') = rx_start (rx_q dev)
  /\ rx_end (rx_q dev') = rx_end (rx_q dev)
  /\ rx_pending (rx_q dev') = rx_pending (rx_q dev)
  /\ rx_entries (rx_q dev') = rx_entries (rx_q dev)
  /\ List.length (rx_e (rx_q dev')) = List.length (rx_e (rx_q dev))
  /\ (forall j, 0 <= j -> j <> e -> rx_entry dev' j = rx_entry dev j)
  /\ (forall j, 0 <= j ->
        urb_id (rx_urb (rx_entry dev' j)) = urb_id (rx_urb (rx_entry dev j))).
Proof.
  unfold rx_tasklet_body.
  destruct (Z.eqb_spec (status (rx_urb (rx_entry dev e))) 0) as [E | NE]; cbn [negb].
  2:{ intros H; injection H as <-. repeat split. }
  destruct (mt7601u_rx_process_entry c x _ _ _) as [evs | ]; [ | discriminate].
  intros H; injection H as <-.
  unfold mt7601u_usb_submit_buf.
  change (rx_entry (add_log (add_log dev evs) [EvSubmitBuf e Complete_rx]) e)
    with (rx_entry dev e).
  destruct (reject (rx_urb (rx_entry dev e))) eqn:R; cbn [snd].
  { repeat split. }
  unfold set_rx_urb, rx_entry. cbn.
  repeat split.
  - apply length_zset.
  - intros j Hj Hne. apply zth_zset_neq; auto.
  - intros j H0. destruct (Z.eq_dec e j) as [-> | Hne].
    + destruct (Z.lt_ge_cases j (Z.of_nat (List.length (rx_e (rx_q dev)))))
        as [H1 | H1].
      * rewrite zth_zset_eq by lia. reflexivity.
      * rewrite zset_out by lia. reflexivity.
    + rewrite zth_zset_neq by auto. reflexivity.
Qed.

Lemma rx_entry_eq (dev dev' : mt7601u_dev) (j : Z) :
  rx_e (rx_q dev') = rx_e (rx_q dev) -> rx_entry dev' j = rx_entry dev j.
Proof. unfold rx_entry. intros ->. reflexivity. Qed.

(** The state in which the handler runs when entry [i] is given back. *)
Lemma giveback_rx_unfold (dev : mt7601u_dev) (i st n : Z) (data : list byte) :
  exists dev1 u,
    usb_giveback_rx x dev i st n data = mt7601u_complete_rx x dev1 u
    /\ urb_id u = urb_id (rx_urb (rx_entry dev i))
    /\ rx_start (rx_q dev1) = rx_start (rx_q dev)
    /\ rx_end (rx_q dev1) = rx_end (rx_q dev)
    /\ rx_pending (rx_q dev1) = rx_pending (rx_q dev)
    /\ rx_entries (rx_q dev1) = rx_entries (rx_q dev)
    /\ List.length (rx_e (rx_q dev1)) = List.length (rx_e (rx_q dev))
    /\ (forall j, 0 <= j -> j <> i -> rx_entry dev1 j = rx_entry dev j)
    /\ (0 <= i < Z.of_nat (List.length (rx_e (rx_q dev))) ->
        rx_urb (rx_entry dev1 i) = u /\ in_flight u = false).
Proof.
  unfold usb_giveback_rx.
  eexists. eexists. split; [reflexivity | ].
  cbn [urb_id rx_q set_rx_q rx_start rx_end rx_pending rx_entries rx_e in_flight].
  repeat split.
  - apply length_zset.
  - intros j Hj Hne. unfold rx_entry. cbn [rx_q set_rx_q rx_e].
    apply zth_zset_neq; auto.
  - unfold rx_entry at 1. cbn [rx_q set_rx_q rx_e].
    rewrite zth_zset_eq by assumption. reflexivity.
Qed.

Lemma ring_inv_complete (N : Z) (dev : mt7601u_dev) (i st n : Z)
    (data : list byte) :
  ring_inv N dev ->
  0 <= i < N ->
  in_flight (rx_urb (rx_entry dev i)) = true ->
  let dev' := usb_giveback_rx x dev i st n data in
  ring_inv N dev'
  /\ rx_start (rx_q dev') = rx_start (rx_q dev)
  /\ ((i <> rx_end (rx_q dev)
       /\ rx_end (rx_q dev') = rx_end (rx_q dev)
       /\ rx_pending (rx_q dev') = rx_pending (rx_q dev))
      \/ (i = rx_end (rx_q dev)
          /\ rx_pending (rx_q dev) < N
          /\ rx_end (rx_q dev') = (rx_end (rx_q dev) + 1) mod N
          /\ rx_pending (rx_q dev') = rx_pending (rx_q dev) + 1)).
Proof.
  intros (HN & Hent & Hlen & Hst & Hp & Hend & Hfl & Hid) Hi Hin dev'.
  subst dev'.
  destruct (giveback_rx_unfold dev i st n data)
    as (dev1 & u & -> & Hu & S1 & E1 & P1 & N1 & L1 & O1 & I1).
  specialize (I1 ltac:(lia)). destruct I1 as [I1 I2].
  pose proof (complete_rx_spec dev1 u) as C. cbv zeta in C.
  destruct C as (Ce & Cs & Cn & C).
  assert (forall j, rx_entry (mt7601u_complete_rx x dev1 u) j = rx_entry dev1 j)
    as Hent'.
  { intros j. apply rx_entry_eq. exact Ce. }
  assert (0 <= rx_end (rx_q dev) < N) as Hendr.
  { rewrite Hend. apply Z.mod_pos_bound. lia. }
  assert (forall j, 0 <= j < N ->
            urb_id (rx_urb (rx_entry dev1 j)) = urb_id (rx_urb (rx_entry dev j)))
    as Hid1.
  { intros j Hj. destruct (Z.eq_dec j i) as [-> | Hne].
    - rewrite I1. exact Hu.
    - rewrite O1 by lia. reflexivity. }
  assert (forall j, 0 <= j < N ->
            in_flight (rx_urb (rx_entry dev j)) = false ->
            in_flight (rx_urb (rx_entry dev1 j)) = false) as Hfl1.
  { intros j Hj Hf. destruct (Z.eq_dec j i) as [-> | Hne].
    - rewrite I1. exact I2.
    - rewrite O1 by lia. exact Hf. }
  assert (forall i0 j, 0 <= i0 < N -> 0 <= j < N ->
            urb_id (rx_urb (rx_entry (mt7601u_complete_rx x dev1 u) i0))
            = urb_id (rx_urb (rx_entry (mt7601u_complete_rx x dev1 u) j)) ->
            i0 = j) as Hid'.
  { intros i0 j Hi0 Hj. rewrite !Hent', !Hid1 by assumption. apply Hid; assumption. }
  rewrite Cs, S1.
  destruct C as [(Cne & Cend & Cp) | (Ceq & Cend & Cp)].
  - (* mismatch: the ring does not move *)
    assert (i <> rx_end (rx_q dev)) as Hne.
    { intros ->. apply Cne. rewrite E1, I1. reflexivity. }
    split; [ | split; [reflexivity | left; rewrite Cend, Cp, E1, P1; auto]].
    unfold ring_inv. rewrite Cn, Ce, Cs, Cend, Cp, N1, L1, S1, E1, P1.
    repeat split; try assumption; try lia.
    intros k Hk. rewrite Hent'. apply Hfl1; [apply Z.mod_pos_bound; lia | ].
    apply Hfl. exact Hk.
  - (* the expected urb *)
    assert (i = rx_end (rx_q dev)) as Hie.
    { apply Hid; [lia | lia | ]. rewrite <- Hu, <- Ceq, E1, Hid1 by lia.
      reflexivity. }
    assert (rx_pending (rx_q dev) < N) as Hlt.
    { destruct (Z.eq_dec (rx_pending (rx_q dev)) N) as [HpN | ]; [ | lia].
      exfalso.
      specialize (Hfl 0 ltac:(lia)).
      rewrite Z.add_0_r, Z.mod_small in Hfl by lia.
      rewrite Hend, HpN, ring_mod in Hie by lia.
      destruct (Z.ltb_spec (rx_start (rx_q dev) + N) N); [lia | ].
      replace i with (rx_start (rx_q dev)) in Hin by lia. congruence. }
    rewrite E1, N1, Hent in Cend. rewrite P1 in Cp.
    rewrite (u32_small (rx_end (rx_q dev) + 1)) in Cend by lia.
    rewrite (u32_small (rx_pending (rx_q dev) + 1)) in Cp by lia.
    split; [ | split; [reflexivity | right; auto]].
    unfold ring_inv. rewrite Cn, Ce, Cs, Cend, Cp, N1, L1, S1.
    repeat split; try assumption; try lia.
    + rewrite Hend. rewrite Z.add_mod_idemp_l by lia. f_equal. lia.
    + intros k Hk. rewrite Hent'.
      destruct (Z.eq_dec k (rx_pending (rx_q dev))) as [-> | Hkne].
      * rewrite <- Hend, <- Hie, I1. exact I2.
      * apply Hfl1; [apply Z.mod_pos_bound; lia | ]. apply Hfl. lia.
Qed.

Lemma ring_inv_pop (N : Z) (dev : mt7601u_dev) :
  ring_inv N dev ->
  let r := mt7601u_rx_get_pending_entry dev in
  ring_inv N (snd r)
  /\ rx_end (rx_q (snd r)) = rx_end (rx_q dev)
  /\ (rx_pending (rx_q dev) = 0 -> fst r = None /\ snd r = dev)
  /\ (rx_pending (rx_q dev) <> 0 ->
      fst r = Some (rx_start (rx_q dev))
      /\ rx_start (rx_q (snd r)) = (rx_start (rx_q dev) + 1) mod N
      /\ rx_pending (rx_q (snd r)) = rx_pending (rx_q dev) - 1).
Proof.
  intros (HN & Hent & Hlen & Hst & Hp & Hend & Hfl & Hid) r. subst r.
  pose proof (get_pending_entry_spec dev) as G. cbv zeta in G.
  destruct G as (Ge & Gend & Gn & _ & G0 & G1).
  destruct (Z.eq_dec (rx_pending (rx_q dev)) 0) as [Z0 | NZ].
  - destruct (G0 Z0) as [-> E]. rewrite E.
    repeat split; try assumption; try lia.
  - destruct (G1 NZ) as (Gf & Gs & Gp).
    rewrite Hent, (u32_small (rx_start (rx_q dev) + 1)) in Gs by lia.
    rewrite (u32_small (rx_pending (rx_q dev) - 1)) in Gp by lia.
    split; [ | split; [exact Gend | split; [intros; lia | intros _; auto]]].
    unfold ring_inv. rewrite Gn, Ge, Gs, Gp, Gend.
    repeat split; try assumption; try lia.
    + apply Z.mod_pos_bound. lia.
    + apply Z.mod_pos_bound. lia.
    + rewrite Hend, Z.add_mod_idemp_l by lia. f_equal. lia.
    + intros k Hk. rewrite (rx_entry_eq dev) by exact Ge.
      rewrite Z.add_mod_idemp_l by lia.
      replace (rx_start (rx_q dev) + 1 + k)
        with (rx_start (rx_q dev) + (k + 1)) by lia.
      apply Hfl. lia.
    + intros i j Hi Hj.
      rewrite (rx_entry_eq dev _ i Ge), (rx_entry_eq dev _ j Ge).
      intros E. exact (Hid i j Hi Hj E).
Qed.

Lemma ring_inv_process (N : Z) (dev dev' : mt7601u_dev) (e : Z) :
  ring_inv N dev ->
  fst (mt7601u_rx_get_pending_entry dev) = Some e ->
  rx_tasklet_body c x (snd (mt7601u_rx_get_pending_entry dev)) e = Some dev' ->
  ring_inv N dev'
  /\ rx_end (rx_q dev') = rx_end (rx_q dev)
  /\ rx_start (rx_q dev') = (rx_start (rx_q dev) + 1) mod N
  /\ rx_pending (rx_q dev') = rx_pending (rx_q dev) - 1.
Proof.
  intros I Hf Hb.
  pose proof (ring_inv_pop N dev I) as P. cbv zeta in P.
  destruct P as (I' & Pend & P0 & P1).
  destruct (Z.eq_dec (rx_pending (rx_q dev)) 0) as [Z0 | NZ].
  { destruct (P0 Z0) as [Hn _]. congruence. }
  destruct (P1 NZ) as (Pf & Ps & Pp).
  assert (e = rx_start (rx_q dev)) as -> by congruence.
  destruct I as (HN & Hent & Hlen & Hst & Hp & Hend & Hfl & Hid).
  destruct I' as (_ & Hent' & Hlen' & Hst' & Hp' & Hend' & Hfl' & Hid').
  destruct (rx_tasklet_body_spec _ _ _ Hb) as (Bs & Be & Bp & Bn & Bl & Bo & Bi).
  split; [ | rewrite Be, Bs, Bp; auto].
  unfold ring_inv. rewrite Bs, Be, Bp, Bn, Bl.
  repeat split; try assumption; try lia.
  - intros k Hk. rewrite Bo.
    + apply Hfl'. exact Hk.
    + apply Z.mod_pos_bound. lia.
    + rewrite Ps, Z.add_mod_idemp_l by lia.
      replace (rx_start (rx_q dev) + 1 + k)
        with (rx_start (rx_q dev) + (k + 1)) by lia.
      rewrite ring_mod by lia.
      destruct (Z.ltb_spec (rx_start (rx_q dev) + (k + 1)) N); lia.
  - intros i j Hi Hj. rewrite (Bi i), (Bi j) by lia.
    intros E. exact (Hid' i j Hi Hj E).
Qed.

Lemma ring_inv_rx_q (N : Z) (dev dev' : mt7601u_dev) :
  rx_q dev' = rx_q dev -> ring_inv N dev -> ring_inv N dev'.
Proof.
  intros E. unfold ring_inv, rx_entry. rewrite E. exact (fun H => H).
Qed.

Lemma ring_inv_tasklet_loop (N : Z) (fuel : nat) :
  forall dev dev',
    ring_inv N dev -> rx_tasklet_loop c x fuel dev = Some dev' ->
    ring_inv N dev'.
Proof.
  induction fuel as [ | fuel IH]; intros dev dev' I H; [discriminate H | ].
  cbn [rx_tasklet_loop] in H.
  pose proof (ring_inv_pop N dev I) as P. cbv zeta in P.
  destruct P as (I' & _).
  destruct (mt7601u_rx_get_pending_entry dev) as [[e | ] d] eqn:E;
    cbn [fst snd] in *.
  - destruct (rx_tasklet_body c x d e) as [d' | ] eqn:Hb; [ | discriminate H].
    apply (IH d' dev'); [ | exact H].
    apply (ring_inv_process N dev d' e I); rewrite E; [reflexivity | exact Hb].
  - injection H as <-. exact I'.
Qed.

Lemma ring_inv_run_tasklet (N : Z) (dev dev' : mt7601u_dev) :
  ring_inv N dev -> run_rx_tasklet c x dev = Some dev' -> ring_inv N dev'.
Proof.
  unfold run_rx_tasklet, mt7601u_rx_tasklet. intros I H.
  destruct (rx_tasklet dev).
  - apply (ring_inv_tasklet_loop N _ (set_rx_tasklet dev false) dev'
             (ring_inv_rx_q N dev _ eq_refl I) H).
  - injection H as <-. exact I.
Qed.

Lemma ring_inv_init (N : Z) (dev : mt7601u_dev) :
  rx_all_submitted N dev -> ring_inv N dev.
Proof.
  intros (HN & Hent & Hlen & Hs & He & Hp & Hfl & Hid).
  unfold ring_inv. rewrite Hs, He, Hp.
  repeat split; try assumption; try lia.
Qed.

Lemma ring_inv_step (N : Z) (dev dev' : mt7601u_dev) :
  ring_inv N dev -> rx_step c x dev dev' -> ring_inv N dev'.
Proof.
  intros I S.
  destruct S as [dev i st n data Hi Hin | dev | dev dev' e Hf Hb | dev dev' Hr].
  - pose proof I as (_ & E & _). rewrite E in Hi.
    apply (ring_inv_complete N dev i st n data I Hi Hin).
  - apply (ring_inv_pop N dev I).
  - apply (ring_inv_process N dev dev' e I Hf Hb).
  - apply (ring_inv_run_tasklet N dev dev' I Hr).
Qed.

Lemma ring_inv_run (N : Z) (dev0 dev : mt7601u_dev) :
  ring_inv N dev0 -> rx_run c x dev0 dev -> ring_inv N dev.
Proof.
  intros I R. induction R as [ | dev dev' R IH S]; [exact I | ].
  apply (ring_inv_step N dev dev' IH S).
Qed.

Lemma giveback_rx_other (dev : mt7601u_dev) (i st n : Z) (data : list byte)
    (j : Z) :
  0 <= j -> j <> i ->
  rx_entry (usb_giveback_rx x dev i st n data) j = rx_entry dev j.
Proof.
  intros Hj Hne.
  destruct (giveback_rx_unfold dev i st n data)
    as (dev1 & u & -> & _ & _ & _ & _ & _ & _ & O1 & _).
  pose proof (complete_rx_spec dev1 u) as C. cbv zeta in C.
  destruct C as (Ce & _).
  rewrite (rx_entry_eq dev1 _ j Ce). apply O1; assumption.
Qed.

(** [k] completions at the expected slot from the all-submitted state. *)
Lemma complete_expected_count (N : Z) (dev0 : mt7601u_dev)
    (results : list (Z * Z * list byte)) :
  rx_all_submitted N dev0 ->
  Z.of_nat (List.length results) <= N ->
  let dev := complete_expected x results dev0 in
  rx_run c x dev0 dev
  /\ ring_inv N dev
  /\ rx_start (rx_q dev) = 0
  /\ rx_pending (rx_q dev) = Z.of_nat (List.length results)
  /\ (forall i, Z.of_nat (List.length results) <= i < N ->
        in_flight (rx_urb (rx_entry dev i)) = true).
Proof.
  intros A. induction results as [ | r results IH] using rev_ind; intros Hl dev.
  - subst dev. cbn. pose proof A as (HN & Hent & Hlen & Hs & He & Hp & Hfl & Hid).
    split; [constructor | split; [apply ring_inv_init; exact A | ]].
    split; [exact Hs | split; [exact Hp | ]]. intros i Hi. apply Hfl. lia.
  - subst dev. rewrite length_app in Hl. cbn [List.length] in Hl.
    unfold complete_expected. rewrite fold_left_app. cbn [fold_left].
    fold (complete_expected x results dev0).
    set (d := complete_expected x results dev0) in *.
    destruct (IH ltac:(lia)) as (R & I & Hs & Hp & Hfl).
    pose proof I as (HN & Hent & _ & _ & _ & Hend & _ & _).
    assert (rx_end (rx_q d) = Z.of_nat (List.length results)) as He.
    { rewrite Hend, Hs, Hp. apply Z.mod_small. lia. }
    assert (in_flight (rx_urb (rx_entry d (rx_end (rx_q d)))) = true) as Hin.
    { apply Hfl. lia. }
    pose proof (ring_inv_complete N d (rx_end (rx_q d)) (fst (fst r))
                  (snd (fst r)) (snd r) I ltac:(lia) Hin) as C.
    cbv zeta in C. destruct C as (I' & Cs & [(Cne & _) | (_ & _ & _ & Cp)]);
      [congruence | ].
    split; [ | split; [exact I' | split; [congruence | split]]].
    + eapply rx_run_step; [exact R | ].
      apply rx_step_complete; [lia | exact Hin].
    + rewrite Cp, Hp, length_app. cbn [List.length]. lia.
    + intros i Hi. rewrite length_app in Hi. cbn [List.length] in Hi.
      rewrite giveback_rx_other by lia. apply Hfl. lia.
Qed.

(** C6: the receive-ring invariant.  From an all-submitted initial state,
    every interleaving of completions and processor steps keeps
    0 <= pending <= N; a completion leaves start alone and either is
    ignored (urb mismatch) or advances end and increments pending; the pop
    leaves end alone, returns nil when pending is 0 and otherwise advances
    start and decrements pending; handling the popped entry moves
    nothing; and N completions at the expected slot with no processing in
    between give pending = N. *)
Theorem rx_ring_invariant (N : Z) (dev0 : mt7601u_dev) :
  rx_all_submitted N dev0 ->
  (forall dev,
      rx_run c x dev0 dev ->
      0 <= rx_pending (rx_q dev) <= N
      /\ (forall i st n data,
            0 <= i < N ->
            in_flight (rx_urb (rx_entry dev i)) = true ->
            let dev' := usb_giveback_rx x dev i st n data in
            rx_start (rx_q dev') = rx_start (rx_q dev)
            /\ ((rx_end (rx_q dev') = rx_end (rx_q dev)
                 /\ rx_pending (rx_q dev') = rx_pending (rx_q dev))
                \/ (rx_end (rx_q dev') = (rx_end (rx_q dev) + 1) mod N
                    /\ rx_pending (rx_q dev') = rx_pending (rx_q dev) + 1)))
      /\ (let r := mt7601u_rx_get_pending_entry dev in
          rx_end (rx_q (snd r)) = rx_end (rx_q dev)
          /\ (rx_pending (rx_q dev) = 0 -> fst r = None /\ snd r = dev)
          /\ (rx_pending (rx_q dev) <> 0 ->
              fst r = Some (rx_start (rx_q dev))
              /\ rx_start (rx_q (snd r)) = (rx_start (rx_q dev) + 1) mod N
              /\ rx_pending (rx_q (snd r)) = rx_pending (rx_q dev) - 1))
      /\ (forall e dev',
            rx_tasklet_body c x dev e = Some dev' ->
            rx_start (rx_q dev') = rx_start (rx_q dev)
            /\ rx_end (rx_q dev') = rx_end (rx_q dev)
            /\ rx_pending (rx_q dev') = rx_pending (rx_q dev)))
  /\ (forall results,
        Z.of_nat (List.length results) = N ->
        rx_run c x dev0 (complete_expected x results dev0)
        /\ rx_pending (rx_q (complete_expected x results dev0)) = N).
Proof.
  intros A. split.
  - intros dev R.
    pose proof (ring_inv_run N dev0 dev (ring_inv_init N dev0 A) R) as I.
    split; [apply I | split; [ | split]].
    + intros i st n data Hi Hin dev'. subst dev'.
      pose proof (ring_inv_complete N dev i st n data I Hi Hin) as C.
      cbv zeta in C. destruct C as (_ & Cs & [(_ & Ce & Cp) | (_ & _ & Ce & Cp)]).
      * split; [exact Cs | left; auto].
      * split; [exact Cs | right; auto].
    + apply (ring_inv_pop N dev I).
    + intros e dev' Hb.
      destruct (rx_tasklet_body_spec _ _ _ Hb) as (Bs & Be & Bp & _).
      auto.
  - intros results Hl.
    pose proof (complete_expected_count N dev0 results A ltac:(lia)) as C.
    cbv zeta in C. destruct C as (R & _ & _ & Hp & _).
    split; [exact R | lia].
Qed.

End RingProps.
(** ** The deferred RX processor *)

Section TaskletProps.
Variable c : dma_consts.
Variable x : collaborators.

Lemma rx_tasklet_body_total (dev : mt7601u_dev) (e : Z) :
  0 <= MT_DMA_HDRS c ->
  exists dev', rx_tasklet_body c x dev e = Some dev'.
Proof.
  intros Hh. unfold rx_tasklet_body.
  destruct (negb _); [eexists; reflexivity | ].
  destruct (rx_process_entry_total c x
              (MT7601U_STATE_INITIALIZED (state dev))
              (buf (rx_entry dev e)) (actual_length (rx_urb (rx_entry dev e))) Hh)
    as [evs ->].
  eexists; reflexivity.
Qed.

Lemma rx_tasklet_loop_total (fuel : nat) :
  0 <= MT_DMA_HDRS c ->
  forall dev,
    0 <= rx_pending (rx_q dev) ->
    (Z.to_nat (rx_pending (rx_q dev)) < fuel)%nat ->
    exists dev',
      rx_tasklet_loop c x fuel dev = Some dev' /\ rx_pending (rx_q dev') = 0.
Proof.
  intros Hh. induction fuel as [ | fuel IH]; intros dev Hp Hf; [lia | ].
  cbn [rx_tasklet_loop].
  pose proof (get_pending_entry_spec dev) as G. cbv zeta in G.
  destruct G as (_ & _ & _ & _ & G0 & G1).
  destruct (mt7601u_rx_get_pending_entry dev) as [[e | ] d] eqn:E;
    cbn [fst snd] in *.
  - destruct (Z.eq_dec (rx_pending (rx_q dev)) 0) as [Z0 | NZ].
    { destruct (G0 Z0) as [H _]. discriminate H. }
    destruct (G1 NZ) as (_ & _ & Gp).
    destruct (rx_tasklet_body_total d e Hh) as [d' Hb]. rewrite Hb.
    destruct (rx_tasklet_body_spec _ _ _ _ _ Hb) as (_ & _ & Bp & _).
    pose proof (u32_range (rx_pending (rx_q dev) - 1)).
    apply IH; rewrite Bp, Gp; [lia | ].
    destruct (Z.lt_ge_cases (rx_pending (rx_q dev) - 1) (2 ^ 32)).
    + rewrite u32_small by lia. lia.
    + lia.
  - destruct (Z.eq_dec (rx_pending (rx_q dev)) 0) as [Z0 | NZ].
    + destruct (G0 Z0) as [_ ->]. eexists; split; [reflexivity | exact Z0].
    + destruct (G1 NZ) as (H & _). discriminate H.
Qed.

(** C1 (amended): for every pending receive entry the deferred RX
    processor pops, if the transport reported a failure status for the
    entry's transfer the processor skips both the reassembly and the
    resubmission of that buffer and goes on to the next entry; otherwise
    it reassembles the filled bytes and then resubmits the buffer for a
    fresh inbound transfer with the RX completion handler.  The processor
    runs until no entry is pending. *)
Theorem rx_tasklet_entry (dev : mt7601u_dev) (e : Z) :
  0 <= MT_DMA_HDRS c ->
  let ent := rx_entry dev e in
  (status (rx_urb ent) <> 0 -> rx_tasklet_body c x dev e = Some dev)
  /\ (status (rx_urb ent) = 0 ->
      exists evs dev',
        mt7601u_rx_process_entry c x (MT7601U_STATE_INITIALIZED (state dev))
          (buf ent) (actual_length (rx_urb ent)) = Some evs
        /\ rx_tasklet_body c x dev e = Some dev'
        /\ log dev' = log dev ++ evs ++ [EvSubmitBuf e Complete_rx])
  /\ (forall fuel,
        rx_tasklet_loop c x (S fuel) dev
        = match mt7601u_rx_get_pending_entry dev with
          | (None, d) => Some d
          | (Some p, d) =>
            match rx_tasklet_body c x d p with
            | None => None
            | Some d' => rx_tasklet_loop c x fuel d'
            end
          end)
  /\ (0 <= rx_pending (rx_q dev) ->
      exists dev',
        mt7601u_rx_tasklet c x dev = Some dev' /\ rx_pending (rx_q dev') = 0).
Proof.
  intros Hh ent. subst ent. split; [ | split; [ | split]].
  - intros Hs. unfold rx_tasklet_body.
    destruct (Z.eqb_spec (status (rx_urb (rx_entry dev e))) 0); [lia | ].
    reflexivity.
  - intros Hs. unfold rx_tasklet_body. rewrite Hs. cbn [Z.eqb negb].
    destruct (rx_process_entry_total c x
                (MT7601U_STATE_INITIALIZED (state dev))
                (buf (rx_entry dev e)) (actual_length (rx_urb (rx_entry dev e))) Hh)
      as [evs Hev].
    rewrite Hev. exists evs. eexists. split; [reflexivity | split; [reflexivity | ]].
    unfold mt7601u_usb_submit_buf.
    destruct (reject _); cbn; rewrite <- app_assoc; reflexivity.
  - intros fuel. reflexivity.
  - intros Hp. apply rx_tasklet_loop_total; [exact Hh | exact Hp | lia].
Qed.

End TaskletProps.

(** ** Evaluations on concrete inputs *)

(** Closed comparisons and equations between evaluated terms. *)
Ltac evaluated :=
  vm_compute; repeat split;
  try reflexivity; try discriminate; try (intros H; discriminate H).

(** The end-to-end scenario: two segments, the second L2-padded, give two
    frames with byte-exact payloads. *)
Example rx_two_segments :
  option_map (fun evs => map skb_data (rx_events evs))
    (mt7601u_rx_process_entry mt7601u_hw std_collab true example_rx_buf 112)
  = Some [example_payload; example_hdr ++ example_rest].
Proof. vm_compute. reflexivity. Qed.

(** C3, as stated, fails once 65536 bytes or more remain: with dma_len =
    0xfff8 none of the four conditions holds and yet extraction stops, and
    with dma_len = 0xfffc the accepted segment has length 4, not header
    total plus dma_len. *)
Lemma rx_next_seg_len_truncates :
  let buf0 := xf8 :: xff :: repeat x00 (Z.to_nat 65534) in
  let buf4 := xfc :: xff :: repeat x00 (Z.to_nat 65538) in
  (~ seg_rejected mt7601u_hw buf0 65536
   /\ mt7601u_rx_next_seg_len mt7601u_hw buf0 65536 = 0
   /\ rx_segments mt7601u_hw (rx_fuel 65536) buf0 0 65536 = [])
  /\ (~ seg_rejected mt7601u_hw buf4 65540
      /\ mt7601u_rx_next_seg_len mt7601u_hw buf4 65540 = 4
      /\ MT_DMA_HDRS mt7601u_hw + get_unaligned_le16 buf4 = 65540).
Proof.
  intros buf0 buf4. split; (split; [ | split]).
  - intros [H | [H | [H | H]]]; vm_compute in H;
      try discriminate H; apply H; reflexivity.
  - vm_compute. reflexivity.
  - vm_compute. reflexivity.
  - intros [H | [H | [H | H]]]; vm_compute in H;
      try discriminate H; apply H; reflexivity.
  - vm_compute. reflexivity.
  - vm_compute. reflexivity.
Qed.

(** C10, as stated, fails on the bound: the non-zero result 4 is below the
    header total plus 4. *)
Lemma rx_next_seg_len_below_header_total :
  let buf := xfc :: xff :: repeat x00 (Z.to_nat 65538) in
  mt7601u_rx_next_seg_len mt7601u_hw buf 65540 <> 0
  /\ ~ (MT_DMA_HDRS mt7601u_hw + 4 <= mt7601u_rx_next_seg_len mt7601u_hw buf 65540).
Proof.
  intros buf. split.
  - vm_compute. intros H; discriminate H.
  - intros H. vm_compute in H. apply H. reflexivity.
Qed.

(** C1, as stated, fails: a popped entry whose transfer failed is not
    resubmitted. *)
Lemma rx_tasklet_drops_failed_entry :
  run_rx_tasklet mt7601u_hw std_collab example_rx_failed = Some example_rx_dropped
  /\ status (rx_urb (rx_entry example_rx_failed 0)) <> 0
  /\ fst (mt7601u_rx_get_pending_entry example_rx_failed) = Some 0
  /\ rx_pending (rx_q example_rx_dropped) = 0
  /\ submit_buf_events (log example_rx_dropped)
     = submit_buf_events (log example_rx_failed)
  /\ in_flight (rx_urb (rx_entry example_rx_dropped 0)) = false.
Proof. evaluated. Qed.

Lemma complete_tx_no_wake_at_mark :
  let dev57 := example_dev (rx_queue_alloc 2 8) (example_tx_queue 64 0 57) in
  let dev56 := example_dev (rx_queue_alloc 2 8) (example_tx_queue 64 0 56) in
  let after57 := usb_giveback_tx std_collab dev57 0 0 0 in
  let after56 := usb_giveback_tx std_collab dev56 0 0 0 in
  (tx_used (tx_queue after57 0) = 64 - 64 / 8 /\ wake_events (log after57) = [])
  /\ (tx_used (tx_queue after56 0) <> 64 - 64 / 8
      /\ wake_events (log after56) = [2]).
Proof.
  vm_compute. repeat split. intros H; discriminate H.
Qed.

Lemma q2ep_wraps_at_255 :
  let dev := example_dev (rx_queue_alloc 2 8) (example_tx_queue 64 0 0) in
  let r := mt7601u_dma_enqueue_tx mt7601u_hw dev example_frame (mk_wcid 0) 255 0 in
  q2ep (u8 255) <> 255 + 1
  /\ q2ep (u8 255) = 0
  /\ fst (fst r) = 0
  /\ map (fun e => fst (fst e)) (submit_urb_events (log (snd r))) = [4]
  /\ tx_used (tx_queue (snd r) 0) = 1.
Proof.
  vm_compute. repeat split. intros H; discriminate H.
Qed.

Lemma dma_submit_tx_admission_witness :
  let dev := example_dev (rx_queue_alloc 2 8) (example_tx_queue 4 0 4) in
  0 <= 1 < Z.of_nat (List.length (tx_q dev))
  /\ fst (mt7601u_dma_submit_tx dev example_frame 1 0) = - ENOSPC
  /\ tx_q (snd (mt7601u_dma_submit_tx dev example_frame 1 0)) = tx_q dev.
Proof.
  intros dev.
  assert (0 <= 1 < Z.of_nat (List.length (tx_q dev))) as H by evaluated.
  split; [exact H | ].
  destruct (proj1 (dma_submit_tx_admission dev example_frame 1 0 H) eq_refl)
    as (R & _ & Q & _).
  split; [exact R | exact Q].
Defined.

Lemma dma_enqueue_tx_endpoint_and_flags_witness :
  let dev := example_dev (rx_queue_alloc 2 8) (example_tx_queue 4 0 0) in
  let r := mt7601u_dma_enqueue_tx mt7601u_hw dev example_frame (mk_wcid 255) 4 0 in
  Z.land (MT_TXD_PKT_INFO_80211 mt7601u_hw) (MT_TXD_PKT_INFO_WIV mt7601u_hw) = 0
  /\ MT_TXD_PKT_INFO_WIV mt7601u_hw <> 0
  /\ q2ep (u8 4) = 5
  /\ exists w, skb_txd (snd (fst r)) = w :: skb_txd example_frame
               /\ txd_qsel w = MT_QSEL_MGMT.
Proof.
  intros dev r.
  assert (Z.land (MT_TXD_PKT_INFO_80211 mt7601u_hw) (MT_TXD_PKT_INFO_WIV mt7601u_hw) = 0)
    as H1 by reflexivity.
  assert (MT_TXD_PKT_INFO_WIV mt7601u_hw <> 0) as H2 by evaluated.
  split; [exact H1 | split; [exact H2 | ]].
  destruct (dma_enqueue_tx_endpoint_and_flags mt7601u_hw dev example_frame
              (mk_wcid 255) 4 0 H1 H2) as (E & _ & _ & w & Hw & Hm & _).
  split; [reflexivity | ].
  exists w. split; [exact Hw | apply Hm; reflexivity].
Defined.

Lemma complete_tx_wake_witness :
  let dev := example_dev (rx_queue_alloc 2 8) (example_tx_queue 64 0 56) in
  let q := tx_queue dev 0 in
  let u := mk_urb 100 0 0 false false in
  (0 <= 0 < Z.of_nat (List.length (tx_q dev)))
  /\ 0 <= tx_entries q < 2 ^ 32
  /\ urb_id (tx_urb (tx_entry q (tx_start q))) = urb_id u
  /\ tx_used (tx_queue (mt7601u_complete_tx std_collab dev 0 u) 0) = 55.
Proof.
  intros dev q u.
  assert (0 <= 0 < Z.of_nat (List.length (tx_q dev))) as H1 by evaluated.
  assert (0 <= tx_entries q < 2 ^ 32) as H2 by evaluated.
  assert (urb_id (tx_urb (tx_entry q (tx_start q))) = urb_id u) as H3 by reflexivity.
  split; [exact H1 | split; [exact H2 | split; [exact H3 | ]]].
  destruct (complete_tx_wake std_collab dev 0 u H1 H2 H3) as (_ & E & _).
  apply E. evaluated.
Defined.

Lemma rx_segment_extraction_witness :
  0 <= MT_DMA_HDRS mt7601u_hw
  /\ 0 <= 112 < 2 ^ 16
  /\ (mt7601u_rx_next_seg_len mt7601u_hw (advance example_rx_buf 56) 56 = 0
      <-> seg_rejected mt7601u_hw (advance example_rx_buf 56) 56).
Proof.
  assert (0 <= MT_DMA_HDRS mt7601u_hw) as H1 by evaluated.
  assert (0 <= 56 < 2 ^ 16) as H2 by evaluated.
  split; [exact H1 | split; [lia | ]].
  exact (proj1 (rx_segment_extraction mt7601u_hw std_collab
                  example_rx_buf 56 56 1 2%nat H1 H2)).
Defined.

Lemma rx_process_entry_terminates_witness :
  0 <= MT_DMA_HDRS mt7601u_hw
  /\ exists evs,
      mt7601u_rx_process_entry mt7601u_hw std_collab true example_rx_buf 112
      = Some evs.
Proof.
  assert (0 <= MT_DMA_HDRS mt7601u_hw) as H1 by evaluated.
  split; [exact H1 | ].
  exact (proj2 (proj2 (rx_process_entry_terminates mt7601u_hw std_collab true
                         example_rx_buf 112 H1))).
Defined.

Lemma rx_skb_from_seg_l2pad_roundtrip_witness :
  let rxwi := mk_rxwi (2 ^ 14) [0; 0; 0] in
  let tail := le32_bytes 0 in
  let data := (example_hdr ++ example_pad ++ example_rest) ++ tail in
  List.length example_pad = 2%nat
  /\ ieee80211_get_hdrlen_from_buf std_collab data 18 = 10
  /\ exists s,
      mt7601u_rx_skb_from_seg mt7601u_hw std_collab rxwi data 20 = Some s
      /\ skb_data s = example_hdr ++ example_rest.
Proof.
  intros rxwi tail data.
  assert (List.length example_pad = 2%nat) as H1 by reflexivity.
  assert (Z.of_nat (List.length (example_hdr ++ example_pad ++ example_rest)) < 2 ^ 32)
    as H2 by evaluated.
  assert (ieee80211_get_hdrlen_from_buf std_collab data
            (Z.of_nat (List.length (example_hdr ++ example_pad ++ example_rest)) - 2)
          = Z.of_nat (List.length example_hdr)) as H3 by reflexivity.
  split; [exact H1 | split; [exact H3 | ]].
  destruct (rx_skb_from_seg_l2pad_roundtrip mt7601u_hw std_collab rxwi
              example_hdr example_pad example_rest tail H1 H2 H3 eq_refl eq_refl)
    as (_ & L & _).
  destruct (L eq_refl) as (s & Hs & Hd & _).
  exists s. split; [exact Hs | exact Hd].
Defined.

Lemma example_rx_dev_all_submitted : rx_all_submitted 2 example_rx_dev.
Proof.
  unfold rx_all_submitted.
  repeat split; try reflexivity; try (evaluated; fail).
  - intros i Hi. assert (i = 0 \/ i = 1) as [-> | ->] by lia; reflexivity.
  - intros i j Hi Hj.
    assert (i = 0 \/ i = 1) as [-> | ->] by lia;
      assert (j = 0 \/ j = 1) as [-> | ->] by lia;
      vm_compute; intros H; congruence.
Defined.

Lemma rx_ring_invariant_witness :
  rx_all_submitted 2 example_rx_dev
  /\ rx_pending
       (rx_q (complete_expected std_collab
                [(0, 8, repeat x00 8); (0, 8, repeat x00 8)] example_rx_dev)) = 2.
Proof.
  split; [exact example_rx_dev_all_submitted | ].
  exact (proj2 (proj2 (rx_ring_invariant mt7601u_hw std_collab 2 example_rx_dev
                         example_rx_dev_all_submitted)
                  [(0, 8, repeat x00 8); (0, 8, repeat x00 8)] eq_refl)).
Defined.

Lemma rx_tasklet_entry_witness :
  0 <= MT_DMA_HDRS mt7601u_hw
  /\ exists dev',
      mt7601u_rx_tasklet mt7601u_hw std_collab
        (usb_giveback_rx std_collab example_rx_dev 0 0 8 (repeat x00 8)) = Some dev'
      /\ rx_pending (rx_q dev') = 0.
Proof.
  assert (0 <= MT_DMA_HDRS mt7601u_hw) as H1 by evaluated.
  split; [exact H1 | ].
  refine (proj2 (proj2 (proj2 (rx_tasklet_entry mt7601u_hw std_collab
            (usb_giveback_rx std_collab example_rx_dev 0 0 8 (repeat x00 8)) 0 H1))) _).
  evaluated.
Defined.

Lemma example_rx_desynced_reachable :
  rx_run mt7601u_hw std_collab example_rx_dev example_rx_desynced.
Proof.
  apply rx_run_step with example_rx_given_back;
    [apply rx_run_step with example_rx_dropped;
     [apply rx_run_step with example_rx_failed;
      [apply rx_run_step with example_rx_dev; [apply rx_run_refl | ] | ] | ] | ].
  - apply (rx_step_complete mt7601u_hw std_collab example_rx_dev 0 (- 71) 0
             (repeat x00 8)); evaluated.
  - apply rx_step_tasklet. evaluated.
  - apply (rx_step_complete mt7601u_hw std_collab example_rx_dropped 1 0 0
             (repeat x00 8)); evaluated.
  - apply rx_step_tasklet. evaluated.
Qed.

(** C7 at a state reachable from initialisation: after one failed and one
    successful transfer on a two-entry ring, entry 1 is in flight and the
    ring's end index rests on entry 0, which is idle.  Teardown then poisons
    urb 0 twice and urb 1 never: the buffer of entry 1 is released while its
    transfer is still in flight and not poisoned. *)
Theorem dma_cleanup_misses_in_flight_transfer :
  rx_all_submitted 2 example_rx_dev
  /\ rx_run mt7601u_hw std_collab example_rx_dev example_rx_desynced
  /\ in_flight (rx_urb (rx_entry example_rx_desynced 1)) = true
  /\ map (fun e => urb_id (rx_urb e)) (rx_e (rx_q example_rx_desynced)) = [0; 1]
  /\ poison_events (log (mt7601u_kill_rx std_collab example_rx_desynced))
     = poison_events (log example_rx_desynced) ++ [0; 0]
  /\ exists d5,
      mt7601u_dma_cleanup mt7601u_hw std_collab example_rx_desynced = Some d5
      /\ in_flight (rx_urb (rx_entry d5 1)) = true
      /\ reject (rx_urb (rx_entry d5 1)) = false
      /\ existsb (fun e => match e with EvFreeBuf 1 => true | _ => false end)
                 (log d5) = true.
Proof.
  split; [exact example_rx_dev_all_submitted | ].
  split; [exact example_rx_desynced_reachable | ].
  split; [evaluated | split; [evaluated | split; [evaluated | ]]].
  eexists. split; [vm_compute; reflexivity | ]. evaluated.
Qed.

(* ===================================================================== *)
(** * Part III: further properties of the code                             *)
(* ===================================================================== *)

(** ** The reassembly loop as a whole *)

Section LoopProps.
Variable c : dma_consts.
Variable x : collaborators.

Lemma rx_loop_segments (fuel : nat) :
  forall buf off len cnt evs off' len' cnt',
    rx_process_loop c x fuel buf off len cnt = Some (evs, off', len', cnt') ->
    evs = flat_map (fun s => mt7601u_rx_process_seg c x buf (fst s) (snd s))
                   (rx_segments c fuel buf off len)
    /\ cnt' = cnt + Z.of_nat (List.length (rx_segments c fuel buf off len))
    /\ mt7601u_rx_next_seg_len c (advance buf off') len' = 0.
Proof.
  induction fuel as [ | fuel IH]; intros buf off len cnt evs off' len' cnt' H;
    [discriminate H | ].
  cbn [rx_process_loop rx_segments] in *.
  destruct (Z.eqb_spec (mt7601u_rx_next_seg_len c (advance buf off) len) 0)
    as [E | NE].
  - injection H as <- <- <- <-. cbn. repeat split; [lia | exact E].
  - destruct (rx_process_loop c x fuel buf _ _ _) as [[[[evs1 off1] len1] cnt1] | ]
      eqn:L; [ | discriminate H].
    injection H as <- <- <- <-.
    destruct (IH _ _ _ _ _ _ _ _ L) as (-> & -> & Hz).
    cbn [flat_map fst snd List.length]. repeat split; [lia | exact Hz].
Qed.

Lemma rx_segments_chain (fuel : nat) :
  0 <= MT_DMA_HDRS c ->
  forall buf off len,
    0 <= len < 2 ^ 32 ->
    let segs := rx_segments c fuel buf off len in
    map fst segs = offsets off (map snd segs)
    /\ Forall (fun l => 0 < l) (map snd segs)
    /\ zsum (map snd segs) <= len.
Proof.
  intros Hh. induction fuel as [ | fuel IH]; intros buf off len Hl segs; subst segs.
  - cbn. repeat split; [constructor | lia].
  - cbn [rx_segments].
    destruct (Z.eqb_spec (mt7601u_rx_next_seg_len c (advance buf off) len) 0)
      as [E | NE].
    + cbn. repeat split; [constructor | lia].
    + pose proof (next_seg_len_bounds c _ _ Hh NE) as B.
      set (seg := mt7601u_rx_next_seg_len c (advance buf off) len) in *.
      rewrite (u32_small (len - seg)) by lia.
      destruct (IH buf (off + seg) (len - seg) ltac:(lia)) as (Ho & Hp & Hs).
      cbn [map fst snd offsets zsum fold_right].
      repeat split.
      * f_equal. exact Ho.
      * constructor; [lia | exact Hp].
      * fold (zsum (map snd (rx_segments c fuel buf (off + seg) (len - seg)))). lia.
Qed.

Lemma rx_loop_cursor (fuel : nat) :
  0 <= MT_DMA_HDRS c ->
  forall buf off len cnt evs off' len' cnt',
    0 <= len < 2 ^ 32 ->
    rx_process_loop c x fuel buf off len cnt = Some (evs, off', len', cnt') ->
    off' = off + zsum (map snd (rx_segments c fuel buf off len))
    /\ len' = len - zsum (map snd (rx_segments c fuel buf off len)).
Proof.
  intros Hh. induction fuel as [ | fuel IH];
    intros buf off len cnt evs off' len' cnt' Hl H; [discriminate H | ].
  cbn [rx_process_loop rx_segments] in *.
  destruct (Z.eqb_spec (mt7601u_rx_next_seg_len c (advance buf off) len) 0)
    as [E | NE].
  - injection H as <- <- <- <-. cbn. lia.
  - pose proof (next_seg_len_bounds c _ _ Hh NE) as B.
    set (seg := mt7601u_rx_next_seg_len c (advance buf off) len) in *.
    rewrite (u32_small (len - seg)) in H |- * by lia.
    destruct (rx_process_loop c x fuel buf _ _ _) as [[[[evs1 off1] len1] cnt1] | ]
      eqn:L; [ | discriminate H].
    injection H as <- <- <- <-.
    destruct (IH buf (off + seg) (len - seg) (cnt + 1) evs1 off1 len1 cnt1
                ltac:(lia) L) as (-> & ->).
    cbn [map snd zsum fold_right].
    fold (zsum (map snd (rx_segments c fuel buf (off + seg) (len - seg)))). lia.
Qed.

(** X1: the reassembly loop walks the filled bytes once, front to back.
    The segments it hands to [mt7601u_rx_process_seg] are non-empty, start
    where the previous one ended and together stay within [data_len]; the
    log is the concatenation of their logs, [cnt] counts them, and the loop
    stops at the first region [mt7601u_rx_next_seg_len] turns down, with
    cursor plus remaining length unchanged. *)
Theorem rx_loop_consumes (buf : list byte) (off data_len cnt : Z) :
  0 <= MT_DMA_HDRS c ->
  0 <= data_len < 2 ^ 32 ->
  let segs := rx_segments c (rx_fuel data_len) buf off data_len in
  exists evs off' len' cnt',
    rx_process_loop c x (rx_fuel data_len) buf off data_len cnt
    = Some (evs, off', len', cnt')
    /\ evs = flat_map (fun s => mt7601u_rx_process_seg c x buf (fst s) (snd s)) segs
    /\ cnt' = cnt + Z.of_nat (List.length segs)
    /\ map fst segs = offsets off (map snd segs)
    /\ Forall (fun l => 0 < l) (map snd segs)
    /\ off' = off + zsum (map snd segs)
    /\ len' = data_len - zsum (map snd segs)
    /\ 0 <= len'
    /\ mt7601u_rx_next_seg_len c (advance buf off') len' = 0.
Proof.
  intros Hh Hl segs. subst segs.
  destruct (rx_process_loop_fuel c x (rx_fuel data_len) Hh buf off data_len cnt)
    as [[[[evs off'] len'] cnt'] L]; [unfold rx_fuel; lia | ].
  exists evs, off', len', cnt'.
  destruct (rx_loop_segments _ _ _ _ _ _ _ _ _ L) as (He & Hc & Hz).
  destruct (rx_segments_chain (rx_fuel data_len) Hh buf off data_len Hl)
    as (Ho & Hp & Hs).
  destruct (rx_loop_cursor _ Hh _ _ _ _ _ _ _ _ Hl L) as (Hoff & Hlen).
  repeat split; try assumption. lia.
Qed.

End LoopProps.
(** ** Frames *)

Lemma u32_sub_u32 (a b : Z) : u32 (u32 a - b) = u32 (a - b).
Proof. unfold u32. apply Zminus_mod_idemp_l. Qed.

Lemma firstn_bytes_of (data : list byte) (h n : Z) :
  0 <= h <= n -> bytes_of (bytes_of data n) h = bytes_of data h.
Proof.
  intros H. unfold bytes_of. rewrite firstn_firstn. f_equal. lia.
Qed.

Lemma advance_bytes_of (data : list byte) (k n : Z) :
  0 <= k <= n ->
  advance (bytes_of data n) k = bytes_of (advance data k) (n - k).
Proof.
  intros H. unfold advance, bytes_of.
  rewrite firstn_skipn_comm. f_equal. f_equal. lia.
Qed.

Lemma length_bytes_of (data : list byte) (n : Z) :
  0 <= n <= Z.of_nat (List.length data) ->
  Z.of_nat (List.length (bytes_of data n)) = n.
Proof. intros H. unfold bytes_of. rewrite length_firstn. lia. Qed.

Lemma length_advance (data : list byte) (n : Z) :
  0 <= n <= Z.of_nat (List.length data) ->
  Z.of_nat (List.length (advance data n)) = Z.of_nat (List.length data) - n.
Proof. intros H. unfold advance. rewrite length_skipn. lia. Qed.

Section FrameBytes.
Variable c : dma_consts.
Variable x : collaborators.

Lemma hdrlen_from_buf_range (data : list byte) (len : Z) :
  (forall fc, 0 <= ieee80211_hdrlen x fc) ->
  0 <= len ->
  0 <= ieee80211_get_hdrlen_from_buf x data len <= len.
Proof.
  intros Hh Hl. unfold ieee80211_get_hdrlen_from_buf.
  destruct (Z.ltb_spec len 10); [lia | ].
  destruct (Z.gtb_spec (ieee80211_hdrlen x (frame_control data)) len); [lia | ].
  pose proof (Hh (frame_control data)). lia.
Qed.

Lemma l2_unpad_split (data : list byte) (h seg_len : Z) :
  0 <= h <= seg_len - 2 ->
  l2_unpad h (bytes_of data seg_len)
  = bytes_of data h ++ bytes_of (advance data (h + 2)) (seg_len - 2 - h).
Proof.
  intros H. unfold l2_unpad. rewrite firstn_bytes_of by lia.
  rewrite advance_bytes_of by lia. do 2 f_equal. lia.
Qed.

Lemma skb_from_seg_result (rxwi : mt7601u_rxwi) (data : list byte) (seg_len : Z) :
  (forall fc, 0 <= ieee80211_hdrlen x fc) ->
  0 <= seg_len < 2 ^ 32 ->
  (l2pad c rxwi = true -> 2 <= seg_len) ->
  mt7601u_rx_skb_from_seg c x rxwi data seg_len
  = (if alloc_ok x (skb_size (seg_frame c x rxwi data seg_len))
     then Some (seg_frame c x rxwi data seg_len) else None).
Proof.
  intros Hh Hl Hp.
  unfold mt7601u_rx_skb_from_seg, seg_frame, alloc_skb.
  destruct (l2pad c rxwi) eqn:P; cbn [skb_size skb_data].
  - specialize (Hp eq_refl).
    rewrite (u32_small (seg_len - 2)) by lia.
    pose proof (hdrlen_from_buf_range data (seg_len - 2) Hh ltac:(lia)) as HH.
    set (h := ieee80211_get_hdrlen_from_buf x data (seg_len - 2)) in *.
    rewrite (u32_small (seg_len - 2 - h)) by lia.
    rewrite l2_unpad_split by lia.
    destruct (alloc_ok x (seg_len - 2)); reflexivity.
  - destruct (alloc_ok x seg_len); reflexivity.
Qed.

(** X2: what [mt7601u_rx_skb_from_seg] returns.  NULL exactly when the
    allocation fails; otherwise a frame allocated to the length of its data,
    made of the first [seg_len] bytes of the payload and nothing beyond
    them: all of them without the L2-pad flag, and with it all but the two
    bytes that follow the link-layer header. *)
Theorem rx_skb_from_seg_frame
    (rxwi : mt7601u_rxwi) (data : list byte) (seg_len : Z) :
  (forall fc, 0 <= ieee80211_hdrlen x fc) ->
  0 <= seg_len < 2 ^ 32 ->
  seg_len <= Z.of_nat (List.length data) ->
  (l2pad c rxwi = true -> 2 <= seg_len) ->
  let s := seg_frame c x rxwi data seg_len in
  mt7601u_rx_skb_from_seg c x rxwi data seg_len
  = (if alloc_ok x (skb_size s) then Some s else None)
  /\ Z.of_nat (List.length (skb_data s)) = skb_size s
  /\ skb_size s = (if l2pad c rxwi then seg_len - 2 else seg_len).
Proof.
  intros Hh Hl Hd Hp s. subst s.
  split; [apply skb_from_seg_result; assumption | ].
  unfold seg_frame.
  destruct (l2pad c rxwi) eqn:P; cbn [skb_size skb_data].
  - specialize (Hp eq_refl).
    pose proof (hdrlen_from_buf_range data (seg_len - 2) Hh ltac:(lia)) as HH.
    set (h := ieee80211_get_hdrlen_from_buf x data (seg_len - 2)) in *.
    rewrite l2_unpad_split by lia.
    split; [ | reflexivity].
    rewrite length_app, Nat2Z.inj_add.
    rewrite length_bytes_of by lia.
    rewrite length_bytes_of; [lia | ].
    rewrite length_advance by lia. lia.
  - split; [ | reflexivity]. apply length_bytes_of. lia.
Qed.

(** Offsets of the pieces of a segment. *)
Lemma process_seg_unfold (buf : list byte) (off seg_len : Z) :
  let rxwi := rxwi_of_buf x (advance buf (off + MT_DMA_HDR_LEN c)) in
  let payload_len :=
    u32 (seg_len - (MT_FCE_INFO_LEN c + MT_DMA_HDR_LEN c + sizeof_rxwi c)) in
  let r := mt7601u_rx_skb_from_seg c x rxwi
             (advance buf (off + MT_DMA_HDR_LEN c + sizeof_rxwi c)) payload_len in
  rx_events (mt7601u_rx_process_seg c x buf off seg_len)
  = match r with
    | Some s => if mt76_mac_process_rx x s rxwi =? 0 then [s] else []
    | None => []
    end
  /\ kfree_events (mt7601u_rx_process_seg c x buf off seg_len)
     = match r with
       | Some s => if mt76_mac_process_rx x s rxwi =? 0 then [] else [s]
       | None => []
       end
  /\ aggr_events (mt7601u_rx_process_seg c x buf off seg_len) = []
  /\ submit_buf_events (mt7601u_rx_process_seg c x buf off seg_len) = [].
Proof.
  intros rxwi payload_len r. subst r payload_len rxwi.
  unfold mt7601u_rx_process_seg.
  replace (u32 (u32 (u32 (seg_len - MT_FCE_INFO_LEN c) - MT_DMA_HDR_LEN c)
                - sizeof_rxwi c))
    with (u32 (seg_len - (MT_FCE_INFO_LEN c + MT_DMA_HDR_LEN c + sizeof_rxwi c))).
  2:{ rewrite (u32_sub_u32 (seg_len - MT_FCE_INFO_LEN c) (MT_DMA_HDR_LEN c)).
      rewrite u32_sub_u32. f_equal. lia. }
  unfold rx_events, kfree_events, aggr_events, submit_buf_events.
  rewrite !flat_map_app.
  destruct (existsb _ _); destruct (MT76_GET_nonzero _ _);
    destruct (mt7601u_rx_skb_from_seg _ _ _ _ _) as [s | ];
    try destruct (mt76_mac_process_rx x s _ =? 0); cbn; repeat split.
Qed.

(** X3: where the frame of a segment comes from.  For a segment at least
    as long as its fixed parts, the frame is built from the bytes between
    the RXWI and the FCE descriptor; it is delivered exactly when the
    allocation succeeds and [mt76_mac_process_rx] accepts it, freed when the
    MAC layer rejects it, and no second frame ever comes out of the same
    segment. *)
Theorem rx_process_seg_frame (buf : list byte) (off seg_len : Z) :
  (forall fc, 0 <= ieee80211_hdrlen x fc) ->
  0 <= MT_FCE_INFO_LEN c -> 0 <= MT_DMA_HDR_LEN c -> 0 <= sizeof_rxwi c ->
  let fixed := MT_FCE_INFO_LEN c + MT_DMA_HDR_LEN c + sizeof_rxwi c in
  let rxwi := rxwi_of_buf x (advance buf (off + MT_DMA_HDR_LEN c)) in
  0 <= off ->
  fixed <= seg_len < 2 ^ 32 ->
  off + seg_len <= Z.of_nat (List.length buf) ->
  (l2pad c rxwi = true -> fixed + 2 <= seg_len) ->
  let s := seg_frame c x rxwi
             (advance buf (off + MT_DMA_HDR_LEN c + sizeof_rxwi c))
             (seg_len - fixed) in
  let accepted := alloc_ok x (skb_size s) && (mt76_mac_process_rx x s rxwi =? 0) in
  let rejected :=
    alloc_ok x (skb_size s) && negb (mt76_mac_process_rx x s rxwi =? 0) in
  rx_events (mt7601u_rx_process_seg c x buf off seg_len)
  = (if accepted then [s] else [])
  /\ kfree_events (mt7601u_rx_process_seg c x buf off seg_len)
     = (if rejected then [s] else [])
  /\ skb_data s
     = (if l2pad c rxwi
        then l2_unpad
               (ieee80211_get_hdrlen_from_buf x
                  (advance buf (off + MT_DMA_HDR_LEN c + sizeof_rxwi c))
                  (seg_len - fixed - 2))
               (bytes_of (advance buf (off + MT_DMA_HDR_LEN c + sizeof_rxwi c))
                         (seg_len - fixed))
        else bytes_of (advance buf (off + MT_DMA_HDR_LEN c + sizeof_rxwi c))
                      (seg_len - fixed)).
Proof.
  intros Hh Hf Hd Hr fixed rxwi Hoff Hseg Hbuf Hpad s accepted rejected.
  subst accepted rejected.
  pose proof (process_seg_unfold buf off seg_len) as U. cbv zeta in U.
  destruct U as (Urx & Ukf & _ & _).
  fold fixed in Urx, Ukf. fold rxwi in Urx, Ukf.
  rewrite (u32_small (seg_len - fixed)) in Urx, Ukf by lia.
  pose proof (skb_from_seg_result rxwi
                (advance buf (off + MT_DMA_HDR_LEN c + sizeof_rxwi c))
                (seg_len - fixed) Hh ltac:(lia)
                ltac:(intros P; specialize (Hpad P); lia)) as F.
  fold s in F.
  rewrite F in Urx, Ukf. rewrite Urx, Ukf.
  split; [ | split].
  - destruct (alloc_ok x (skb_size s)); cbn [andb]; reflexivity.
  - destruct (alloc_ok x (skb_size s)); cbn [andb negb]; [ | reflexivity].
    destruct (mt76_mac_process_rx x s rxwi =? 0); reflexivity.
  - subst s. unfold seg_frame. destruct (l2pad c rxwi); reflexivity.
Qed.

(** X4: a segment shorter than its own fixed parts.  The unsigned payload
    length wraps around, so the allocation asked for is within
    [fixed + 2] bytes of 4 GiB; when such allocations fail, no frame is
    delivered or freed for the segment. *)
Theorem rx_process_seg_short (buf : list byte) (off seg_len : Z) :
  0 <= MT_FCE_INFO_LEN c -> 0 <= MT_DMA_HDR_LEN c -> 0 <= sizeof_rxwi c ->
  let fixed := MT_FCE_INFO_LEN c + MT_DMA_HDR_LEN c + sizeof_rxwi c in
  fixed + 2 <= 2 ^ 32 ->
  0 <= seg_len < fixed ->
  (forall size, 2 ^ 32 - fixed - 2 <= size -> alloc_ok x size = false) ->
  rx_events (mt7601u_rx_process_seg c x buf off seg_len) = []
  /\ kfree_events (mt7601u_rx_process_seg c x buf off seg_len) = []
  /\ (alloc_skb x (u32 (seg_len - fixed)) = None
      /\ 2 ^ 32 - fixed <= u32 (seg_len - fixed)).
Proof.
  intros Hf Hd Hr fixed Hk Hseg Hal.
  pose proof (process_seg_unfold buf off seg_len) as U. cbv zeta in U.
  destruct U as (Urx & Ukf & _ & _). fold fixed in Urx, Ukf.
  assert (u32 (seg_len - fixed) = seg_len - fixed + 2 ^ 32) as E.
  { unfold u32.
    replace ((seg_len - fixed) mod 2 ^ 32)
      with ((seg_len - fixed + 2 ^ 32 + (-1) * 2 ^ 32) mod 2 ^ 32)
      by (f_equal; lia).
    rewrite Z.mod_add by lia. apply Z.mod_small. lia. }
  rewrite E in *.
  assert (forall rxwi data,
             mt7601u_rx_skb_from_seg c x rxwi data (seg_len - fixed + 2 ^ 32) = None)
    as N.
  { intros rxwi data. unfold mt7601u_rx_skb_from_seg, alloc_skb.
    destruct (l2pad c rxwi).
    - rewrite u32_small by lia. rewrite Hal by lia. reflexivity.
    - rewrite Hal by lia. reflexivity. }
  rewrite N in Urx, Ukf.
  split; [exact Urx | split; [exact Ukf | split; [ | lia]]].
  unfold alloc_skb. rewrite Hal by lia. reflexivity.
Qed.

Lemma process_seg_one_frame (buf : list byte) (off seg_len : Z) :
  (List.length (rx_events (mt7601u_rx_process_seg c x buf off seg_len))
   + List.length (kfree_events (mt7601u_rx_process_seg c x buf off seg_len))
   <= 1)%nat.
Proof.
  pose proof (process_seg_unfold buf off seg_len) as U. cbv zeta in U.
  destruct U as (-> & -> & _).
  destruct (mt7601u_rx_skb_from_seg _ _ _ _ _) as [s | ]; [ | cbn; lia].
  destruct (mt76_mac_process_rx x s _ =? 0); cbn; lia.
Qed.

Lemma segs_frames (buf : list byte) (segs : list (Z * Z)) :
  let evs :=
    flat_map (fun s => mt7601u_rx_process_seg c x buf (fst s) (snd s)) segs in
  (List.length (rx_events evs) + List.length (kfree_events evs)
   <= List.length segs)%nat
  /\ aggr_events evs = []
  /\ submit_buf_events evs = [].
Proof.
  induction segs as [ | s segs IH]; cbn [flat_map].
  - cbn. repeat split. lia.
  - destruct IH as (IH1 & IH2 & IH3).
    unfold rx_events, kfree_events, aggr_events, submit_buf_events in *.
    rewrite !flat_map_app, !length_app.
    pose proof (process_seg_one_frame buf (fst s) (snd s)) as P.
    pose proof (process_seg_unfold buf (fst s) (snd s)) as U. cbv zeta in U.
    destruct U as (_ & _ & Ua & Us).
    unfold rx_events, kfree_events, aggr_events, submit_buf_events in *.
    rewrite Ua, Us, IH2, IH3. cbn [List.length app]. repeat split. lia.
Qed.

Lemma segs_no_free_buf (buf : list byte) (segs : list (Z * Z)) :
  free_buf_events
    (flat_map (fun s => mt7601u_rx_process_seg c x buf (fst s) (snd s)) segs) = [].
Proof.
  induction segs as [ | s segs IH]; cbn [flat_map]; [reflexivity | ].
  unfold free_buf_events in *. rewrite flat_map_app, IH, app_nil_r.
  unfold mt7601u_rx_process_seg. rewrite !flat_map_app.
  destruct (existsb _ _); destruct (MT76_GET_nonzero _ _);
    destruct (mt7601u_rx_skb_from_seg _ _ _ _ _) as [f | ];
    try destruct (mt76_mac_process_rx x f _ =? 0); reflexivity.
Qed.

(** The reassembly of a buffer neither resubmits nor releases it. *)
Lemma process_entry_events
    (init : bool) (buf : list byte) (n : Z) (evs : list event) :
  mt7601u_rx_process_entry c x init buf n = Some evs ->
  submit_buf_events evs = []
  /\ free_buf_events evs = []
  /\ (init = false -> evs = []).
Proof.
  intros H. unfold mt7601u_rx_process_entry in H.
  destruct init; cbn [negb] in *.
  2:{ injection H as <-. repeat split. }
  destruct (rx_process_loop c x (rx_fuel n) buf 0 n 0)
    as [[[[evs0 off'] len'] cnt'] | ] eqn:L; [ | discriminate H].
  injection H as <-.
  destruct (rx_loop_segments c x _ _ _ _ _ _ _ _ _ L) as (-> & _ & _).
  pose proof (segs_frames buf (rx_segments c (rx_fuel n) buf 0 n)) as F.
  cbv zeta in F. destruct F as (_ & _ & F3).
  pose proof (segs_no_free_buf buf (rx_segments c (rx_fuel n) buf 0 n)) as F4.
  unfold submit_buf_events, free_buf_events in *.
  rewrite !flat_map_app, F3, F4.
  destruct (cnt' >? 1); cbn; repeat split; intros; discriminate.
Qed.

(** X5: what one completed buffer can produce.  Every accepted segment
    yields at most one frame, delivered or freed; nothing at all is processed
    while the device is not initialized; the aggregation trace point fires
    exactly when more than one segment was found, with their number; and the
    reassembly itself never resubmits a buffer. *)
Theorem rx_process_entry_frames
    (init : bool) (buf : list byte) (n : Z) (evs : list event) :
  mt7601u_rx_process_entry c x init buf n = Some evs ->
  let segs := rx_segments c (rx_fuel n) buf 0 n in
  (List.length (rx_events evs) + List.length (kfree_events evs)
   <= List.length segs)%nat
  /\ (init = false -> evs = [])
  /\ aggr_events evs
     = (if init && (Z.of_nat (List.length segs) >? 1)
        then [Z.of_nat (List.length segs)] else [])
  /\ submit_buf_events evs = [].
Proof.
  intros H segs. subst segs. unfold mt7601u_rx_process_entry in H.
  destruct init; cbn [negb andb] in *.
  2:{ injection H as <-. cbn. repeat split. lia. }
  destruct (rx_process_loop c x (rx_fuel n) buf 0 n 0)
    as [[[[evs0 off'] len'] cnt'] | ] eqn:L; [ | discriminate H].
  injection H as <-.
  destruct (rx_loop_segments c x _ _ _ _ _ _ _ _ _ L) as (-> & -> & _).
  pose proof (segs_frames buf (rx_segments c (rx_fuel n) buf 0 n)) as F.
  cbv zeta in F. destruct F as (F1 & F2 & F3).
  rewrite Z.add_0_l.
  unfold rx_events, kfree_events, aggr_events, submit_buf_events in *.
  rewrite !flat_map_app, !length_app, F2, F3.
  destruct (Z.of_nat (List.length (rx_segments c (rx_fuel n) buf 0 n)) >? 1);
    cbn [flat_map app List.length]; rewrite ?Nat.add_0_r;
    repeat split; try lia; try congruence.
Qed.

End FrameBytes.
(** ** The tasklet as a whole *)

Lemma ring_walk_in (N : Z) (n : nat) :
  0 < N ->
  forall s i,
    0 <= s < N ->
    In i (ring_walk N s n) ->
    exists k, 0 <= k < Z.of_nat n /\ i = (s + k) mod N.
Proof.
  intros HN. induction n as [ | n IH]; intros s i Hs Hin; [destruct Hin | ].
  cbn [ring_walk] in Hin. destruct Hin as [<- | Hin].
  - exists 0. split; [lia | ]. rewrite Z.add_0_r, Z.mod_small; lia.
  - destruct (IH ((s + 1) mod N) i (Z.mod_pos_bound _ _ HN) Hin) as (k & Hk & ->).
    exists (k + 1). split; [lia | ].
    rewrite Z.add_mod_idemp_l by lia. f_equal. lia.
Qed.


Section TaskletRun.
Variable c : dma_consts.
Variable x : collaborators.

Lemma rx_tasklet_body_log (dev dev' : mt7601u_dev) (e : Z) :
  0 <= e ->
  rx_tasklet_body c x dev e = Some dev' ->
  state dev' = state dev
  /\ rx_tasklet dev' = rx_tasklet dev
  /\ tx_q dev' = tx_q dev
  /\ (forall j, 0 <= j ->
        status (rx_urb (rx_entry dev' j)) = status (rx_urb (rx_entry dev j)))
  /\ submit_buf_events (log dev')
     = submit_buf_events (log dev)
         ++ (if status (rx_urb (rx_entry dev e)) =? 0
             then [(e, Complete_rx)] else [])
  /\ (MT7601U_STATE_INITIALIZED (state dev) = false ->
      rx_events (log dev') = rx_events (log dev)).
Proof.
  intros He. unfold rx_tasklet_body.
  destruct (Z.eqb_spec (status (rx_urb (rx_entry dev e))) 0) as [E | NE];
    cbn [negb].
  2:{ intros H; injection H as <-. rewrite app_nil_r. repeat split. }
  destruct (mt7601u_rx_process_entry c x _ _ _) as [evs | ] eqn:P; [ | discriminate].
  intros H; injection H as <-.
  destruct (process_entry_events c x _ _ _ _ P) as (Fs & _ & Fi).
  unfold mt7601u_usb_submit_buf.
  change (rx_entry (add_log (add_log dev evs) [EvSubmitBuf e Complete_rx]) e)
    with (rx_entry dev e).
  assert (submit_buf_events ((log dev ++ evs) ++ [EvSubmitBuf e Complete_rx])
          = submit_buf_events (log dev) ++ [(e, Complete_rx)]) as Hs.
  { unfold submit_buf_events in *. rewrite !flat_map_app, Fs. cbn.
    rewrite app_nil_r. reflexivity. }
  assert (MT7601U_STATE_INITIALIZED (state dev) = false ->
          rx_events ((log dev ++ evs) ++ [EvSubmitBuf e Complete_rx])
          = rx_events (log dev)) as Hr.
  { intros I. rewrite (Fi I). unfold rx_events. rewrite !flat_map_app. cbn.
    rewrite !app_nil_r. reflexivity. }
  destruct (reject (rx_urb (rx_entry dev e))) eqn:R; cbn [snd].
  { repeat split; assumption. }
  split; [reflexivity | split; [reflexivity | split; [reflexivity | ]]].
  split; [ | split; assumption].
  intros j Hj. unfold set_rx_urb, rx_entry.
  cbn [rx_q set_rx_q rx_e add_log].
  destruct (Z.eq_dec e j) as [-> | Hne].
  - destruct (Z.lt_ge_cases j (Z.of_nat (List.length (rx_e (rx_q dev)))))
      as [H1 | H1].
    + rewrite zth_zset_eq by lia. reflexivity.
    + rewrite zset_out by lia. reflexivity.
  - rewrite zth_zset_neq by auto. reflexivity.
Qed.

Lemma rx_tasklet_loop_drains (N : Z) (fuel : nat) :
  0 <= MT_DMA_HDRS c ->
  forall dev,
    ring_inv N dev ->
    (Z.to_nat (rx_pending (rx_q dev)) < fuel)%nat ->
    exists dev',
      rx_tasklet_loop c x fuel dev = Some dev'
      /\ ring_inv N dev'
      /\ rx_pending (rx_q dev') = 0
      /\ rx_start (rx_q dev') = rx_end (rx_q dev)
      /\ rx_end (rx_q dev') = rx_end (rx_q dev)
      /\ state dev' = state dev
      /\ submit_buf_events (log dev')
         = submit_buf_events (log dev)
             ++ map (fun i => (i, Complete_rx))
                  (filter (fun i => status (rx_urb (rx_entry dev i)) =? 0)
                     (ring_walk N (rx_start (rx_q dev))
                        (Z.to_nat (rx_pending (rx_q dev)))))
      /\ (MT7601U_STATE_INITIALIZED (state dev) = false ->
          rx_events (log dev') = rx_events (log dev)).
Proof.
  intros Hh. induction fuel as [ | fuel IH]; intros dev I Hf; [lia | ].
  cbn [rx_tasklet_loop].
  pose proof (ring_inv_pop N dev I) as P. cbv zeta in P.
  destruct P as (I1 & Pend & P0 & P1).
  pose proof (get_pending_entry_spec dev) as G. cbv zeta in G.
  destruct G as (Ge & _ & _ & Gl & _ & _).
  pose proof I as (HN & Hent & Hlen & Hst & Hp & Hend & Hfl & Hid).
  destruct (Z.eq_dec (rx_pending (rx_q dev)) 0) as [Z0 | NZ].
  - destruct (P0 Z0) as [Pf Pd].
    destruct (mt7601u_rx_get_pending_entry dev) as [o d]. cbn [fst snd] in *.
    subst o d. exists dev. rewrite Z0. cbn [Z.to_nat ring_walk filter map].
    rewrite app_nil_r.
    split; [reflexivity | split; [exact I | split; [reflexivity | ]]].
    split; [rewrite Hend, Z0, Z.add_0_r, Z.mod_small; lia | ].
    repeat split.
  - destruct (P1 NZ) as (Pf & Ps & Pp).
    destruct (mt7601u_rx_get_pending_entry dev) as [o d] eqn:E.
    cbn [fst snd] in *. subst o.
    destruct (rx_tasklet_body_total c x d (rx_start (rx_q dev)) Hh) as [d2 Hb].
    rewrite Hb.
    assert (ring_inv N d2) as I2.
    { apply (ring_inv_process c x N dev d2 (rx_start (rx_q dev)) I);
        rewrite E; [reflexivity | exact Hb]. }
    destruct (rx_tasklet_body_spec c x _ _ _ Hb) as (Bs & Be & Bp & Bn & Bl & Bo & Bi).
    destruct (rx_tasklet_body_log d d2 (rx_start (rx_q dev)) ltac:(lia) Hb)
      as (Bst & _ & _ & Bstat & Bsub & Brx).
    destruct (IH d2 I2 ltac:(rewrite Bp, Pp; lia))
      as (dev' & L & I' & Lp & Ls & Le & Lst & Lsub & Lrx).
    exists dev'. split; [exact L | split; [exact I' | split; [exact Lp | ]]].
    assert (state d = state dev) as Sd.
    { pose proof (f_equal snd E) as E2. cbn [snd] in E2. rewrite <- E2.
      unfold mt7601u_rx_get_pending_entry.
      destruct (rx_pending (rx_q dev) =? 0); reflexivity. }
    split; [rewrite Ls, Be; exact Pend | ].
    split; [rewrite Le, Be; exact Pend | ].
    split; [rewrite Lst, Bst; exact Sd | ].
    assert (rx_entry d (rx_start (rx_q dev)) = rx_entry dev (rx_start (rx_q dev)))
      as Ed by (apply rx_entry_eq; exact Ge).
    split.
    + rewrite Lsub, Bsub, Gl, Ed, Bs, Bp, Ps, Pp.
      replace (Z.to_nat (rx_pending (rx_q dev)))
        with (S (Z.to_nat (rx_pending (rx_q dev) - 1))) by lia.
      cbn [ring_walk filter].
      rewrite <- app_assoc. f_equal.
      assert (filter (fun i => status (rx_urb (rx_entry d2 i)) =? 0)
                (ring_walk N ((rx_start (rx_q dev) + 1) mod N)
                   (Z.to_nat (rx_pending (rx_q dev) - 1)))
              = filter (fun i => status (rx_urb (rx_entry dev i)) =? 0)
                  (ring_walk N ((rx_start (rx_q dev) + 1) mod N)
                     (Z.to_nat (rx_pending (rx_q dev) - 1)))) as ->.
      { apply filter_ext_in. intros i Hin.
        assert (0 < N) as HN0 by lia.
        destruct (ring_walk_in N (Z.to_nat (rx_pending (rx_q dev) - 1)) HN0
                    ((rx_start (rx_q dev) + 1) mod N) i
                    (Z.mod_pos_bound _ _ HN0) Hin) as (k & Hk & ->).
        rewrite Z.add_mod_idemp_l by lia.
        assert (0 <= (rx_start (rx_q dev) + 1 + k) mod N < N) as Hr
          by (apply Z.mod_pos_bound; lia).
        rewrite Bstat by lia.
        rewrite (rx_entry_eq dev d _ Ge). reflexivity. }
      destruct (status (rx_urb (rx_entry dev (rx_start (rx_q dev)))) =? 0);
        reflexivity.
    + intros Hi. rewrite Lrx by (rewrite Bst, Sd; exact Hi).
      rewrite Brx by (rewrite Sd; exact Hi). rewrite Gl. reflexivity.
Qed.

(** X6: one run of the tasklet drains the ring in FIFO order.  It ends with
    no entry pending and start caught up with end; the buffers it resubmits
    are exactly the pending entries whose transfer succeeded, in ring order,
    each with the RX completion handler; and while the device is not
    initialized the run delivers no frame. *)
Theorem rx_tasklet_drains (N : Z) (dev : mt7601u_dev) :
  0 <= MT_DMA_HDRS c ->
  ring_inv N dev ->
  exists dev',
    mt7601u_rx_tasklet c x dev = Some dev'
    /\ ring_inv N dev'
    /\ rx_pending (rx_q dev') = 0
    /\ rx_start (rx_q dev') = rx_end (rx_q dev)
    /\ rx_end (rx_q dev') = rx_end (rx_q dev)
    /\ submit_buf_events (log dev')
       = submit_buf_events (log dev)
           ++ map (fun i => (i, Complete_rx))
                (filter (fun i => status (rx_urb (rx_entry dev i)) =? 0)
                   (ring_walk N (rx_start (rx_q dev))
                      (Z.to_nat (rx_pending (rx_q dev)))))
    /\ (MT7601U_STATE_INITIALIZED (state dev) = false ->
        rx_events (log dev') = rx_events (log dev)).
Proof.
  intros Hh I.
  destruct (rx_tasklet_loop_drains N (S (Z.to_nat (rx_pending (rx_q dev)))) Hh
              dev I ltac:(lia))
    as (dev' & L & I' & Lp & Ls & Le & _ & Lsub & Lrx).
  exists dev'.
  split; [exact L | split; [exact I' | ]]. repeat split; assumption.
Qed.

End TaskletRun.
(** ** Teardown of the receive ring *)

Lemma ring_walk_length (N s : Z) (n : nat) : List.length (ring_walk N s n) = n.
Proof. revert s; induction n as [ | n IH]; intros s; cbn; auto. Qed.

Section KillRx.
Variable c : dma_consts.
Variable x : collaborators.

Lemma complete_rx_effects (dev : mt7601u_dev) (u : urb) :
  let dev' := mt7601u_complete_rx x dev u in
  state dev' = state dev
  /\ tx_q dev' = tx_q dev
  /\ poison_events (log dev') = poison_events (log dev)
  /\ rx_trace (log dev') = rx_trace (log dev)
  /\ (urb_id (rx_urb (rx_entry dev (rx_end (rx_q dev)))) = urb_id u ->
      rx_tasklet dev' = true)
  /\ (urb_id (rx_urb (rx_entry dev (rx_end (rx_q dev)))) <> urb_id u ->
      rx_tasklet dev' = rx_tasklet dev).
Proof.
  intros dev'. subst dev'. unfold mt7601u_complete_rx, rx_entry.
  destruct (Z.eqb_spec
              (urb_id (rx_urb (zth (rx_e (rx_q dev)) (rx_end (rx_q dev)) null_dma_buf)))
              (urb_id u)) as [E | NE];
    destruct (mt7601u_urb_has_error x u);
    unfold tasklet_schedule, poison_events, rx_trace;
    cbn [negb state tx_q log add_log set_rx_q set_rx_tasklet rx_tasklet];
    rewrite ?flat_map_app, ?filter_app; cbn [flat_map filter app];
    rewrite ?app_nil_r;
    repeat split; intros; congruence.
Qed.


Lemma ring_pos_inj (N s k p : Z) :
  0 <= s < N -> 0 <= k < N -> 0 <= p < N ->
  (s + k) mod N = (s + p) mod N -> k = p.
Proof.
  intros Hs Hk Hp. rewrite !ring_mod by lia.
  destruct (Z.ltb_spec (s + k) N); destruct (Z.ltb_spec (s + p) N); lia.
Qed.

Lemma ring_cover (N s j : Z) :
  0 <= s < N -> 0 <= j < N ->
  exists k, 0 <= k < N /\ j = (s + k) mod N.
Proof.
  intros Hs Hj. exists ((j - s) mod N).
  split; [apply Z.mod_pos_bound; lia | ].
  rewrite Z.add_mod_idemp_r by lia.
  replace (s + (j - s)) with j by lia. rewrite Z.mod_small; lia.
Qed.








End KillRx.
(** ** Teardown as a whole *)

Section Cleanup.
Variable c : dma_consts.
Variable x : collaborators.

Lemma complete_tx_rx_side (dev : mt7601u_dev) (ep : Z) (u : urb) :
  let dev' := mt7601u_complete_tx x dev ep u in
  rx_q dev' = rx_q dev
  /\ rx_tasklet dev' = rx_tasklet dev
  /\ rx_trace (log dev') = rx_trace (log dev).
Proof.
  intros dev'. subst dev'. unfold mt7601u_complete_tx.
  destruct (mt7601u_urb_has_error x u);
    destruct (negb _);
    try destruct (tx_used _ =? _);
    try destruct (negb (status u =? 0));
    try destruct (MT7601U_STATE_READING_STATS _);
    unfold rx_trace;
    cbn [rx_q rx_tasklet log add_log set_tx_queue set_state];
    rewrite ?filter_app; cbn [filter]; rewrite ?app_nil_r; repeat split.
Qed.

Lemma poison_tx_rx_side (dev : mt7601u_dev) (ep i : Z) :
  let dev' := usb_poison_urb_tx x dev ep i in
  rx_q dev' = rx_q dev
  /\ rx_tasklet dev' = rx_tasklet dev
  /\ rx_trace (log dev') = rx_trace (log dev).
Proof.
  intros dev'. subst dev'. unfold usb_poison_urb_tx.
  destruct (in_flight _).
  - match goal with
    | |- context [mt7601u_complete_tx x ?d ?e ?u] =>
      pose proof (complete_tx_rx_side d e u) as C
    end.
    cbv zeta in C. destruct C as (-> & -> & ->).
    unfold rx_trace. cbn [rx_q rx_tasklet log add_log set_tx_queue].
    rewrite filter_app. cbn [filter]. rewrite app_nil_r. repeat split.
  - unfold rx_trace. cbn [rx_q rx_tasklet log add_log set_tx_queue].
    rewrite filter_app. cbn [filter]. rewrite app_nil_r. repeat split.
Qed.

Lemma fold_left_rx_side {A} (f : mt7601u_dev -> A -> mt7601u_dev) :
  (forall d a,
      rx_q (f d a) = rx_q d
      /\ rx_tasklet (f d a) = rx_tasklet d
      /\ rx_trace (log (f d a)) = rx_trace (log d)) ->
  forall l d,
    rx_q (fold_left f l d) = rx_q d
    /\ rx_tasklet (fold_left f l d) = rx_tasklet d
    /\ rx_trace (log (fold_left f l d)) = rx_trace (log d).
Proof.
  intros Hf l. induction l as [ | a l IH]; intros d; cbn [fold_left].
  - repeat split.
  - destruct (IH (f d a)) as (I1 & I2 & I3).
    destruct (Hf d a) as (F1 & F2 & F3). repeat split; congruence.
Qed.

Lemma free_tx_queue_rx_side (dev : mt7601u_dev) (ep : Z) :
  let dev' := mt7601u_free_tx_queue x dev ep in
  rx_q dev' = rx_q dev
  /\ rx_tasklet dev' = rx_tasklet dev
  /\ rx_trace (log dev') = rx_trace (log dev).
Proof.
  intros dev'. subst dev'. unfold mt7601u_free_tx_queue.
  match goal with
  | |- context [fold_left ?f ?l ?d] =>
    assert (rx_q d = rx_q dev /\ rx_tasklet d = rx_tasklet dev
            /\ rx_trace (log d) = rx_trace (log dev)) as (H1 & H2 & H3);
      [ | assert (forall d0 a, rx_q (f d0 a) = rx_q d0
                   /\ rx_tasklet (f d0 a) = rx_tasklet d0
                   /\ rx_trace (log (f d0 a)) = rx_trace (log d0)) as Hf;
          [ | destruct (fold_left_rx_side f Hf l d) as (F1 & F2 & F3) ] ]
  end.
  - destruct (negb _); [ | repeat split].
    unfold rx_trace. cbn [rx_q rx_tasklet log add_log].
    rewrite filter_app. cbn [filter]. rewrite app_nil_r. repeat split.
  - intros d i.
    pose proof (poison_tx_rx_side d ep i) as P. cbv zeta in P.
    destruct P as (P1 & P2 & P3).
    unfold rx_trace in *. cbn [rx_q rx_tasklet log add_log].
    rewrite filter_app. cbn [filter]. rewrite app_nil_r.
    repeat split; assumption.
  - repeat split; congruence.
Qed.

Lemma free_tx_rx_side (dev : mt7601u_dev) :
  let dev' := mt7601u_free_tx x dev in
  rx_q dev' = rx_q dev
  /\ rx_tasklet dev' = rx_tasklet dev
  /\ rx_trace (log dev') = rx_trace (log dev).
Proof.
  intros dev'. subst dev'. unfold mt7601u_free_tx.
  apply fold_left_rx_side. intros d ep. apply free_tx_queue_rx_side.
Qed.

End Cleanup.
Section CleanupRx.
Variable c : dma_consts.
Variable x : collaborators.




Lemma rx_trace_app (a b : list event) :
  rx_trace (a ++ b) = rx_trace a ++ rx_trace b.
Proof. apply filter_app. Qed.






End CleanupRx.
(** ** Bringing the receive ring up *)

Section SubmitRx.

Lemma submit_rx_unfold (dev : mt7601u_dev) :
  mt7601u_submit_rx dev
  = fold_left submit_rx_step (upto (rx_entries (rx_q dev))) (0, dev).
Proof. reflexivity. Qed.

Lemma submit_rx_stuck (l : list Z) (ret : Z) (dev : mt7601u_dev) :
  ret <> 0 -> fold_left submit_rx_step l (ret, dev) = (ret, dev).
Proof.
  intros H. induction l as [ | i l IH]; [reflexivity | ].
  cbn [fold_left submit_rx_step].
  destruct (Z.eqb_spec ret 0); [contradiction | exact IH].
Qed.

(** One submission: the urb goes in flight unless it is poisoned. *)
Lemma submit_buf_spec (dev : mt7601u_dev) (i : Z) (fn : completion_fn) :
  0 <= i < Z.of_nat (List.length (rx_e (rx_q dev))) ->
  let r := mt7601u_usb_submit_buf dev i fn in
  let u := rx_urb (rx_entry dev i) in
  log (snd r) = log dev ++ [EvSubmitBuf i fn]
  /\ rx_start (rx_q (snd r)) = rx_start (rx_q dev)
  /\ rx_end (rx_q (snd r)) = rx_end (rx_q dev)
  /\ rx_pending (rx_q (snd r)) = rx_pending (rx_q dev)
  /\ rx_entries (rx_q (snd r)) = rx_entries (rx_q dev)
  /\ List.length (rx_e (rx_q (snd r))) = List.length (rx_e (rx_q dev))
  /\ state (snd r) = state dev
  /\ tx_q (snd r) = tx_q dev
  /\ rx_tasklet (snd r) = rx_tasklet dev
  /\ (forall j, 0 <= j -> j <> i -> rx_entry (snd r) j = rx_entry dev j)
  /\ (reject u = true -> fst r <> 0 /\ rx_entry (snd r) i = rx_entry dev i)
  /\ (reject u = false ->
      fst r = 0
      /\ rx_entry (snd r) i
         = mk_dma_buf (mk_urb (urb_id u) (status u) (actual_length u) true false)
                      (buf (rx_entry dev i)) (len (rx_entry dev i))).
Proof.
  intros Hi r u. subst r u. unfold mt7601u_usb_submit_buf.
  change (rx_entry (add_log dev [EvSubmitBuf i fn]) i) with (rx_entry dev i).
  destruct (reject (rx_urb (rx_entry dev i))) eqn:R; cbn [fst snd].
  - repeat split; try reflexivity; try discriminate.
  - unfold set_rx_urb, rx_entry.
    cbn [log rx_q rx_e rx_start rx_end rx_pending rx_entries state tx_q
         rx_tasklet set_rx_q add_log].
    repeat split; try reflexivity; try discriminate.
    + apply length_zset.
    + intros j Hj Hne. apply zth_zset_neq; auto.
    + apply zth_zset_eq. exact Hi.
Qed.

(** The loop of [mt7601u_submit_rx] over the entries [a .. a + m - 1], none
    of which is poisoned. *)
Lemma submit_rx_fold_ok (m : nat) :
  forall (a : nat) (dev : mt7601u_dev),
    (a + m <= List.length (rx_e (rx_q dev)))%nat ->
    (forall j, Z.of_nat a <= j < Z.of_nat (a + m) ->
       reject (rx_urb (rx_entry dev j)) = false) ->
    let r := fold_left submit_rx_step (map Z.of_nat (seq a m)) (0, dev) in
    fst r = 0
    /\ log (snd r)
       = log dev ++ map (fun i => EvSubmitBuf i Complete_rx)
                        (map Z.of_nat (seq a m))
    /\ rx_start (rx_q (snd r)) = rx_start (rx_q dev)
    /\ rx_end (rx_q (snd r)) = rx_end (rx_q dev)
    /\ rx_pending (rx_q (snd r)) = rx_pending (rx_q dev)
    /\ rx_entries (rx_q (snd r)) = rx_entries (rx_q dev)
    /\ List.length (rx_e (rx_q (snd r))) = List.length (rx_e (rx_q dev))
    /\ state (snd r) = state dev
    /\ tx_q (snd r) = tx_q dev
    /\ rx_tasklet (snd r) = rx_tasklet dev
    /\ (forall j, 0 <= j -> ~ Z.of_nat a <= j < Z.of_nat (a + m) ->
          rx_entry (snd r) j = rx_entry dev j)
    /\ (forall j, Z.of_nat a <= j < Z.of_nat (a + m) ->
          rx_entry (snd r) j
          = mk_dma_buf (mk_urb (urb_id (rx_urb (rx_entry dev j)))
                               (status (rx_urb (rx_entry dev j)))
                               (actual_length (rx_urb (rx_entry dev j)))
                               true false)
                       (buf (rx_entry dev j)) (len (rx_entry dev j))).
Proof.
  induction m as [ | m IH]; intros a dev Hlen Hrej r; subst r.
  - cbn [seq map fold_left fst snd]. rewrite app_nil_r.
    repeat split; try reflexivity; intros; lia.
  - cbn [seq map fold_left submit_rx_step]. cbn [Z.eqb].
    pose proof (submit_buf_spec dev (Z.of_nat a) Complete_rx ltac:(lia)) as S.
    cbv zeta in S.
    destruct S as (Sl & Ss & Se & Sp & Sn & Sln & Sst & Stx & Stk & So & _ & Sok).
    destruct (Sok (Hrej (Z.of_nat a) ltac:(lia))) as [Sr Si].
    destruct (mt7601u_usb_submit_buf dev (Z.of_nat a) Complete_rx) as [ret d1].
    cbn [fst snd] in *. subst ret.
    specialize (IH (S a) d1 ltac:(lia)). cbv zeta in IH.
    destruct IH as (I1 & Il & Is & Ie & Ip & In' & Iln & Ist & Itx & Itk & Io & Ii).
    { intros j Hj. rewrite So by lia. apply Hrej. lia. }
    split; [exact I1 | ].
    split; [rewrite Il, Sl, <- app_assoc; reflexivity | ].
    split; [congruence | ]. split; [congruence | ]. split; [congruence | ].
    split; [congruence | ]. split; [congruence | ]. split; [congruence | ].
    split; [congruence | ]. split; [congruence | ].
    split.
    + intros j Hj Hout. rewrite Io by lia. apply So; lia.
    + intros j Hj. destruct (Z.eq_dec j (Z.of_nat a)) as [-> | Hne].
      * rewrite Io by lia. exact Si.
      * rewrite Ii by lia. rewrite So by lia. reflexivity.
Qed.

Lemma upto_split (N k : Z) :
  0 <= k < N ->
  upto N
  = upto k ++ k :: map Z.of_nat (seq (S (Z.to_nat k)) (Z.to_nat (N - k - 1))).
Proof.
  intros H. unfold upto.
  replace (Z.to_nat N) with (Z.to_nat k + S (Z.to_nat (N - k - 1)))%nat by lia.
  rewrite seq_app, map_app. cbn [seq map Nat.add]. rewrite Z2Nat.id by lia.
  reflexivity.
Qed.

(** X9: [mt7601u_submit_rx] hands the entries to the transport in index
    order and stops at the first refusal.  If no urb is poisoned, all [N]
    are in flight afterwards, with the RX completion handler, and 0 is
    returned; if entry [k] is the first poisoned one, the error is returned
    after exactly [k + 1] attempts, the entries before [k] stay in flight
    and those from [k] on are untouched.  The ring indices are not
    moved. *)
Theorem submit_rx_in_order (N k : Z) (dev : mt7601u_dev) :
  rx_entries (rx_q dev) = N ->
  Z.of_nat (List.length (rx_e (rx_q dev))) = N ->
  0 <= k <= N ->
  (forall j, 0 <= j < k -> reject (rx_urb (rx_entry dev j)) = false) ->
  (k < N -> reject (rx_urb (rx_entry dev k)) = true) ->
  let r := mt7601u_submit_rx dev in
  (fst r = 0 <-> k = N)
  /\ submit_buf_events (log (snd r))
     = submit_buf_events (log dev)
         ++ map (fun i => (i, Complete_rx)) (upto (Z.min (k + 1) N))
  /\ (forall j, 0 <= j < k ->
        rx_entry (snd r) j
        = mk_dma_buf (mk_urb (urb_id (rx_urb (rx_entry dev j)))
                             (status (rx_urb (rx_entry dev j)))
                             (actual_length (rx_urb (rx_entry dev j)))
                             true false)
                     (buf (rx_entry dev j)) (len (rx_entry dev j)))
  /\ (forall j, k <= j -> rx_entry (snd r) j = rx_entry dev j)
  /\ rx_start (rx_q (snd r)) = rx_start (rx_q dev)
  /\ rx_end (rx_q (snd r)) = rx_end (rx_q dev)
  /\ rx_pending (rx_q (snd r)) = rx_pending (rx_q dev)
  /\ rx_tasklet (snd r) = rx_tasklet dev.
Proof.
  intros Hent Hlen Hk Hok Hrej r. subst r.
  rewrite submit_rx_unfold, Hent.
  pose proof (submit_rx_fold_ok (Z.to_nat k) 0 dev ltac:(lia)) as P.
  cbv zeta in P. fold (upto k) in P.
  specialize (P ltac:(intros j Hj; apply Hok; lia)).
  destruct P as (P1 & Pl & Ps & Pe & Pp & Pn & Pln & Pst & Ptx & Ptk & Po & Pi).
  assert (forall l,
             submit_buf_events (map (fun i => EvSubmitBuf i Complete_rx) l)
             = map (fun i => (i, Complete_rx)) l) as Hmap.
  { induction l as [ | a l IHl]; [reflexivity | ].
    cbn [map]. rewrite <- IHl. reflexivity. }
  destruct (Z.eq_dec k N) as [-> | Hne].
  - replace (Z.min (N + 1) N) with N by lia.
    split; [split; [reflexivity | intros _; exact P1] | ].
    split.
    { rewrite Pl. unfold submit_buf_events at 1. rewrite flat_map_app.
      fold (submit_buf_events (log dev)). f_equal. apply Hmap. }
    split; [intros j Hj; apply Pi; lia | ].
    split; [intros j Hj; apply Po; lia | ].
    repeat split; assumption.
  - specialize (Hrej ltac:(lia)).
    replace (Z.min (k + 1) N) with (k + 1) by lia.
    rewrite (upto_split N k) by lia. rewrite fold_left_app.
    destruct (fold_left submit_rx_step (upto k) (0, dev)) as [ret d1].
    cbn [fst snd] in *. subst ret.
    cbn [fold_left submit_rx_step Z.eqb].
    pose proof (submit_buf_spec d1 k Complete_rx ltac:(lia)) as S.
    cbv zeta in S.
    destruct S as (Sl & Ss & Se & Sp & Sn & Sln & Sst & Stx & Stk & So & Sr & _).
    destruct Sr as [Sr Si]; [rewrite Po by lia; exact Hrej | ].
    destruct (mt7601u_usb_submit_buf d1 k Complete_rx) as [ret d2].
    cbn [fst snd] in *.
    rewrite submit_rx_stuck by exact Sr. cbn [fst snd].
    split; [split; [intros E; contradiction | intros E; lia] | ].
    split.
    { rewrite Sl, Pl. unfold submit_buf_events at 1. rewrite !flat_map_app.
      fold (submit_buf_events (log dev)). rewrite <- app_assoc. f_equal.
      rewrite (upto_split (k + 1) k) by lia.
      replace (Z.to_nat (k + 1 - k - 1)) with 0%nat by lia.
      cbn [seq map]. rewrite map_app. f_equal. apply Hmap. }
    split.
    { intros j Hj. rewrite So by lia. apply Pi. lia. }
    split.
    { intros j Hj. destruct (Z.eq_dec j k) as [-> | Hjk].
      - rewrite Si. apply Po; lia.
      - rewrite So by lia. apply Po; lia. }
    repeat split; congruence.
Qed.

End SubmitRx.
(** ** From initialisation to teardown *)

Section InitCleanup.
Variable c : dma_consts.
Variable x : collaborators.

Lemma length_upto (n : Z) : 0 <= n -> Z.of_nat (List.length (upto n)) = n.
Proof. intros H. unfold upto. rewrite length_map, length_seq. lia. Qed.

Lemma zth_upto (n j d : Z) : 0 <= j < n -> zth (upto n) j d = j.
Proof.
  intros H. unfold zth, upto.
  rewrite (nth_indep _ d (Z.of_nat 0)) by (rewrite length_map, length_seq; lia).
  rewrite map_nth, seq_nth by lia. lia.
Qed.

Lemma zth_map {A B} (f : A -> B) (l : list A) (j : Z) (da : A) (db : B) :
  0 <= j < Z.of_nat (List.length l) ->
  zth (map f l) j db = f (zth l j da).
Proof.
  intros H. unfold zth.
  rewrite (nth_indep _ db (f da)) by (rewrite length_map; lia).
  apply map_nth.
Qed.

Lemma rx_queue_alloc_entry (dev : mt7601u_dev) (n size j : Z) :
  rx_q dev = rx_queue_alloc n size ->
  0 <= j < n ->
  rx_entry dev j
  = mk_dma_buf (mk_urb j 0 0 false false) (repeat x00 (Z.to_nat size)) size.
Proof.
  intros E Hj. unfold rx_entry. rewrite E. unfold rx_queue_alloc. cbn [rx_e].
  rewrite (zth_map _ _ _ 0) by (rewrite length_upto; lia).
  rewrite zth_upto by lia. reflexivity.
Qed.

Lemma ring_full_init (N : Z) (dev : mt7601u_dev) :
  rx_all_submitted N dev -> ring_full N dev.
Proof.
  intros A. split; [apply ring_inv_init; exact A | ].
  destruct A as (HN & Hent & Hlen & Hs & He & Hp & Hfl & Hid).
  intros k Hk. apply Hfl. apply Z.mod_pos_bound. lia.
Qed.


Lemma submit_buf_events_submits (l : list Z) :
  submit_buf_events (map (fun i => EvSubmitBuf i Complete_rx) l)
  = map (fun i => (i, Complete_rx)) l.
Proof.
  induction l as [ | a l IH]; [reflexivity | ].
  cbn [map]. rewrite <- IH. reflexivity.
Qed.

Lemma rx_events_submits (l : list Z) :
  rx_events (map (fun i => EvSubmitBuf i Complete_rx) l) = [].
Proof. induction l as [ | a l IH]; [reflexivity | exact IH]. Qed.



(** The state [mt7601u_submit_rx] reaches from the queue
    [mt7601u_alloc_rx] leaves when its allocations succeed. *)
Lemma submit_rx_fresh (N size : Z) (dev : mt7601u_dev) :
  0 < N < 2 ^ 32 ->
  rx_q dev = rx_queue_alloc N size ->
  let r := mt7601u_submit_rx dev in
  fst r = 0
  /\ rx_all_submitted N (snd r)
  /\ (forall j, 0 <= j < N ->
        rx_entry (snd r) j
        = mk_dma_buf (mk_urb j 0 0 true false) (repeat x00 (Z.to_nat size)) size)
  /\ log (snd r)
     = log dev ++ map (fun i => EvSubmitBuf i Complete_rx) (upto N)
  /\ state (snd r) = state dev
  /\ tx_q (snd r) = tx_q dev
  /\ rx_tasklet (snd r) = rx_tasklet dev.
Proof.
  intros HN E r. subst r.
  assert (rx_entries (rx_q dev) = N) as Hent by (rewrite E; reflexivity).
  assert (Z.of_nat (List.length (rx_e (rx_q dev))) = N) as Hlen.
  { rewrite E. unfold rx_queue_alloc. cbn [rx_e]. rewrite length_map.
    apply length_upto. lia. }
  rewrite submit_rx_unfold, Hent.
  pose proof (submit_rx_fold_ok (Z.to_nat N) 0 dev ltac:(lia)) as P.
  cbv zeta in P. fold (upto N) in P.
  destruct P as (P1 & Pl & Ps & Pe & Pp & Pn & Pln & Pst & Ptx & Ptk & Po & Pi).
  { intros j Hj. rewrite (rx_queue_alloc_entry dev N size j E) by lia.
    reflexivity. }
  assert (forall j, 0 <= j < N ->
            rx_entry (snd (fold_left submit_rx_step (upto N) (0, dev))) j
            = mk_dma_buf (mk_urb j 0 0 true false)
                         (repeat x00 (Z.to_nat size)) size) as Hj.
  { intros j Hj. rewrite Pi by lia.
    rewrite (rx_queue_alloc_entry dev N size j E) by lia. reflexivity. }
  split; [exact P1 | ].
  split.
  { unfold rx_all_submitted. rewrite Pn, Pln, Ps, Pe, Pp, Hent, Hlen, E.
    cbn [rx_queue_alloc rx_start rx_end rx_pending].
    split; [exact HN | ].
    split; [reflexivity | ]. split; [reflexivity | ].
    split; [reflexivity | ]. split; [reflexivity | ]. split; [reflexivity | ].
    split.
    - intros i Hi. rewrite Hj by lia. reflexivity.
    - intros i j Hi Hjj. rewrite !Hj by lia. cbn [rx_urb urb_id]. auto. }
  split; [exact Hj | ].
  split; [exact Pl | ].
  split; [exact Pst | split; [exact Ptx | exact Ptk]].
Qed.

(** X10: the receive ring after a successful bring-up.  From the queue
    [mt7601u_alloc_rx] leaves when its allocations succeed,
    [mt7601u_submit_rx] returns 0 with all [N] transfers in flight and the
    indices still zero, which is the state the ring invariant starts
    from; it submits the buffers once each, in index order. *)
Theorem dma_init_rx_ring (N size : Z) (dev : mt7601u_dev) :
  0 < N < 2 ^ 32 ->
  rx_q dev = rx_queue_alloc N size ->
  let r := mt7601u_submit_rx dev in
  fst r = 0
  /\ rx_all_submitted N (snd r)
  /\ ring_inv N (snd r)
  /\ rx_pending (rx_q (snd r)) = 0
  /\ submit_buf_events (log (snd r))
     = submit_buf_events (log dev) ++ map (fun i => (i, Complete_rx)) (upto N)
  /\ rx_events (log (snd r)) = rx_events (log dev).
Proof.
  intros HN E r. subst r.
  pose proof (submit_rx_fresh N size dev HN E) as S. cbv zeta in S.
  destruct S as (S1 & SA & Sj & Sl & _).
  split; [exact S1 | ].
  split; [exact SA | ].
  split; [apply ring_inv_init; exact SA | ].
  split; [destruct SA as (_ & _ & _ & _ & _ & Hp & _); exact Hp | ].
  rewrite Sl. unfold submit_buf_events, rx_events. rewrite !flat_map_app.
  fold (submit_buf_events (log dev)) (rx_events (log dev)).
  fold (submit_buf_events (map (fun i => EvSubmitBuf i Complete_rx) (upto N))).
  fold (rx_events (map (fun i => EvSubmitBuf i Complete_rx) (upto N))).
  rewrite submit_buf_events_submits, rx_events_submits, app_nil_r.
  split; reflexivity.
Qed.


End InitCleanup.
(** ** The transmit queue as a FIFO *)

Lemma ring_walk_snoc (N : Z) (n : nat) :
  0 < N ->
  forall s, 0 <= s < N ->
    ring_walk N s (S n) = ring_walk N s n ++ [(s + Z.of_nat n) mod N].
Proof.
  intros HN. induction n as [ | n IH]; intros s Hs.
  - cbn [ring_walk app]. change (Z.of_nat 0) with 0.
    rewrite Z.add_0_r, Z.mod_small by lia. reflexivity.
  - change (ring_walk N s (S (S n)))
      with (s :: ring_walk N ((s + 1) mod N) (S n)).
    rewrite (IH ((s + 1) mod N) (Z.mod_pos_bound _ _ HN)).
    cbn [ring_walk app]. do 2 f_equal.
    rewrite Z.add_mod_idemp_l by lia.
    replace (s + 1 + Z.of_nat n) with (s + Z.of_nat (S n)) by lia.
    reflexivity.
Qed.

Section TxFifo.
Variable x : collaborators.

Lemma tx_fifo_other_slot (N : Z) (q : mt7601u_tx_queue) (e : mt7601u_dma_buf_tx) :
  tx_inv N q ->
  tx_used q < N ->
  map (fun i => skb (tx_entry (set_tx_entry q (tx_end q) e) i))
      (ring_walk N (tx_start q) (Z.to_nat (tx_used q)))
  = tx_fifo N q.
Proof.
  intros (HN & Hent & Hlen & Hst & Hu & Hend) Hlt. unfold tx_fifo.
  apply map_ext_in. intros i Hin.
  destruct (ring_walk_in N (Z.to_nat (tx_used q)) ltac:(lia) (tx_start q) i
              Hst Hin) as (k & Hk & ->).
  unfold tx_entry, set_tx_entry. cbn [tx_e].
  rewrite zth_zset_neq; [reflexivity | apply Z.mod_pos_bound; lia | ].
  rewrite Hend. intros E. apply ring_pos_inj in E; lia.
Qed.

(** X12: [mt7601u_dma_submit_tx] appends to the queue.  On a consistent
    queue a successful call stores the frame behind the frames already
    queued and leaves those alone; a failed call, whatever the reason,
    leaves the queued frames as they were.  The queue stays consistent,
    the mac80211 queue is stopped exactly by the submission that fills the
    last free slot, and no other queue is touched. *)
Theorem dma_submit_tx_fifo
    (N : Z) (dev : mt7601u_dev) (s : sk_buff) (ep usb_ret : Z) :
  0 <= ep < Z.of_nat (List.length (tx_q dev)) ->
  tx_inv N (tx_queue dev ep) ->
  let q := tx_queue dev ep in
  let r := mt7601u_dma_submit_tx dev s ep usb_ret in
  let q' := tx_queue (snd r) ep in
  tx_inv N q'
  /\ (fst r = 0 ->
      tx_fifo N q' = tx_fifo N q ++ [Some s]
      /\ tx_used q' = tx_used q + 1
      /\ in_flight (tx_urb (tx_entry q' (tx_end q))) = true)
  /\ (fst r <> 0 -> tx_fifo N q' = tx_fifo N q /\ tx_used q' = tx_used q)
  /\ stop_events (log (snd r))
     = stop_events (log dev)
         ++ (if (fst r =? 0) && (tx_used q + 1 =? N)
             then [skb_get_queue_mapping s] else [])
  /\ (forall ep', 0 <= ep' -> ep' <> ep ->
        tx_queue (snd r) ep' = tx_queue dev ep')
  /\ rx_q (snd r) = rx_q dev.
Proof.
  intros Hep I q r q'. subst q' r.
  pose proof I as (HN & Hent & Hlen & Hst & Hu & Hend).
  fold q in Hent, Hlen, Hst, Hu, Hend.
  unfold mt7601u_dma_submit_tx. fold q. rewrite Hent.
  destruct (Z.leb_spec N (tx_used q)) as [Hfull | Hfree].
  - cbn [fst snd]. change (tx_queue (add_log dev _) ep) with q.
    assert (tx_used q = N) as HuN by lia.
    split; [exact I | ].
    split; [unfold ENOSPC; intros H; discriminate H | ].
    split; [intros _; split; reflexivity | ].
    split.
    { unfold stop_events. cbn [log add_log]. rewrite flat_map_app. cbn.
      reflexivity. }
    split; [intros; reflexivity | reflexivity].
  - destruct (Z.eqb_spec usb_ret 0) as [-> | Hret]; cbn [negb].
    + set (u' := mk_urb _ _ _ true _).
      set (q1 := set_tx_entry q (tx_end q) (mk_dma_buf_tx u' (Some s))).
      cbn [tx_entries tx_used tx_end tx_start tx_e q1 set_tx_entry].
      rewrite Hent.
      rewrite (u32_small (tx_used q + 1)) by lia.
      assert (0 <= tx_end q < N) as Hendr
        by (rewrite Hend; apply Z.mod_pos_bound; lia).
      rewrite (u32_small (tx_end q + 1)) by lia.
      set (q2 := mk_tx_queue _ _ _ _ _).
      assert (tx_queue
                (snd (if tx_used q + 1 >=? N
                      then (0, add_log (set_tx_queue
                                 (add_log dev [EvSubmitUrb (zth (out_eps dev) ep 0)
                                   (urb_id (tx_urb (tx_entry q (tx_end q)))) s])
                                 ep q2)
                                 [EvStopQueue (skb_get_queue_mapping s)])
                      else (0, set_tx_queue
                                 (add_log dev [EvSubmitUrb (zth (out_eps dev) ep 0)
                                   (urb_id (tx_urb (tx_entry q (tx_end q)))) s])
                                 ep q2))) ep = q2) as Eq.
      { destruct (tx_used q + 1 >=? N); cbn [snd];
          rewrite ?tx_queue_add_log; apply tx_queue_set_eq; exact Hep. }
      assert (fst (if tx_used q + 1 >=? N
                   then (0, add_log (set_tx_queue
                              (add_log dev [EvSubmitUrb (zth (out_eps dev) ep 0)
                                (urb_id (tx_urb (tx_entry q (tx_end q)))) s])
                              ep q2)
                              [EvStopQueue (skb_get_queue_mapping s)])
                   else (0, set_tx_queue
                              (add_log dev [EvSubmitUrb (zth (out_eps dev) ep 0)
                                (urb_id (tx_urb (tx_entry q (tx_end q)))) s])
                              ep q2)) = 0) as Er
        by (destruct (tx_used q + 1 >=? N); reflexivity).
      rewrite Eq, Er.
      split.
      { unfold tx_inv, q2. cbn [tx_entries tx_e tx_start tx_used tx_end].
        rewrite length_zset.
        repeat split; try assumption; try lia.
        rewrite Hend, Z.add_mod_idemp_l by lia. f_equal. lia. }
      split.
      { intros _. split; [ | split; [reflexivity | ]].
        - unfold tx_fifo at 1. unfold q2 at 2 3. cbn [tx_start tx_used].
          replace (Z.to_nat (tx_used q + 1)) with (S (Z.to_nat (tx_used q)))
            by lia.
          rewrite ring_walk_snoc by lia. rewrite map_app. f_equal.
          + change (map (fun i => skb (tx_entry q2 i))
                        (ring_walk N (tx_start q) (Z.to_nat (tx_used q))))
              with (map (fun i => skb (tx_entry q1 i))
                        (ring_walk N (tx_start q) (Z.to_nat (tx_used q)))).
            apply tx_fifo_other_slot; [exact I | lia].
          + cbn [map]. rewrite Z2Nat.id by lia. rewrite <- Hend.
            unfold tx_entry, q2. cbn [tx_e].
            rewrite zth_zset_eq by lia. reflexivity.
        - unfold tx_entry, q2. cbn [tx_e].
          rewrite zth_zset_eq by lia. reflexivity. }
      split; [intros H; contradiction H; reflexivity | ].
      split.
      { cbn [Z.eqb andb].
        destruct (Z.geb_spec (tx_used q + 1) N) as [Hge | Hlt'];
          destruct (Z.eqb_spec (tx_used q + 1) N) as [He | Hne]; try lia;
          cbn [snd log add_log set_tx_queue]; unfold stop_events;
          rewrite !flat_map_app; cbn; rewrite ?app_nil_r; reflexivity. }
      split.
      { intros ep' H0 Hne.
        destruct (tx_used q + 1 >=? N); cbn [snd];
          rewrite ?tx_queue_add_log; rewrite tx_queue_set_neq by auto;
          reflexivity. }
      destruct (tx_used q + 1 >=? N); reflexivity.
    + set (q1 := set_tx_entry q (tx_end q) _).
      assert (forall d, 0 <= ep < Z.of_nat (List.length (tx_q d)) ->
                tx_queue (set_tx_queue d ep q1) ep = q1) as Eq
        by (intros d Hd; apply tx_queue_set_eq; exact Hd).
      assert (tx_inv N q1) as I1.
      { unfold tx_inv, q1, set_tx_entry.
        cbn [tx_entries tx_e tx_start tx_used tx_end].
        rewrite length_zset. repeat split; try assumption; lia. }
      assert (tx_fifo N q1 = tx_fifo N q) as F1
        by exact (tx_fifo_other_slot N q _ I Hfree).
      destruct (Z.eqb_spec usb_ret (- ENODEV)) as [Hd | Hd]; cbn [fst snd].
      all: rewrite ?tx_queue_add_log, ?tx_queue_set_state.
      all: rewrite Eq by exact Hep.
      all: (split; [exact I1 | ]).
      all: (split; [intros H; contradiction | ]).
      all: (split; [intros _; split; [exact F1 | reflexivity] | ]).
      all: destruct (Z.eqb_spec usb_ret 0) as [H0 | _]; [contradiction | ].
      all: cbn [andb].
      all: (split; [unfold stop_events;
                    cbn [log add_log set_tx_queue set_state];
                    rewrite !flat_map_app; cbn; rewrite ?app_nil_r;
                    reflexivity | ]).
      all: (split; [ | reflexivity]).
      all: intros ep' H0 Hne.
      all: rewrite ?tx_queue_add_log, ?tx_queue_set_state.
      all: rewrite tx_queue_set_neq by auto; reflexivity.
Qed.

(** X13: [mt7601u_complete_tx] takes from the front of the queue.  A
    completion for the urb at [start] of a consistent, non-empty queue
    reports the status of the oldest frame, whatever the urb's status, and
    leaves the younger frames queued in order; a completion for any other
    urb reports nothing and releases no slot. *)
Theorem complete_tx_fifo (N : Z) (dev : mt7601u_dev) (ep : Z) (u : urb) :
  0 <= ep < Z.of_nat (List.length (tx_q dev)) ->
  tx_inv N (tx_queue dev ep) ->
  let q := tx_queue dev ep in
  let dev' := mt7601u_complete_tx x dev ep u in
  let q' := tx_queue dev' ep in
  (urb_id (tx_urb (tx_entry q (tx_start q))) = urb_id u ->
   0 < tx_used q ->
   tx_inv N q'
   /\ tx_fifo N q = skb (tx_entry q (tx_start q)) :: tx_fifo N q'
   /\ tx_used q' = tx_used q - 1
   /\ tx_status_events (log dev')
      = tx_status_events (log dev) ++ [skb (tx_entry q (tx_start q))])
  /\ (urb_id (tx_urb (tx_entry q (tx_start q))) <> urb_id u ->
      tx_q dev' = tx_q dev
      /\ state dev' = state dev
      /\ tx_status_events (log dev') = tx_status_events (log dev))
  /\ (forall ep', 0 <= ep' -> ep' <> ep -> tx_queue dev' ep' = tx_queue dev ep')
  /\ rx_q dev' = rx_q dev.
Proof.
  intros Hep I q dev' q'. subst q' dev'.
  pose proof I as (HN & Hent & Hlen & Hst & Hu & Hend).
  fold q in Hent, Hlen, Hst, Hu, Hend.
  unfold mt7601u_complete_tx. fold q.
  destruct (Z.eqb_spec (urb_id (tx_urb (tx_entry q (tx_start q)))) (urb_id u))
    as [Hid | Hid]; cbn [negb].
  - rewrite Hent. rewrite (u32_small (tx_start q + 1)) by lia.
    set (q2 := mk_tx_queue (tx_e q) ((tx_start q + 1) mod N) (tx_end q) N
                           (u32 (tx_used q - 1))).
    split; [ | split; [intros H; contradiction | ]].
    + intros _ Hpos.
      assert (u32 (tx_used q - 1) = tx_used q - 1) as Eu
        by (apply u32_small; lia).
      assert (tx_inv N q2 /\ tx_fifo N q
              = skb (tx_entry q (tx_start q)) :: tx_fifo N q2
              /\ tx_used q2 = tx_used q - 1) as (I2 & F2 & U2).
      { unfold tx_inv, tx_fifo, q2. cbn [tx_entries tx_e tx_start tx_used tx_end].
        rewrite Eu.
        split; [ | split; [ | reflexivity]].
        - repeat split; try assumption; try lia;
            try (apply Z.mod_pos_bound; lia).
          rewrite Hend, Z.add_mod_idemp_l by lia. f_equal. lia.
        - replace (Z.to_nat (tx_used q)) with (S (Z.to_nat (tx_used q - 1)))
            by lia.
          reflexivity. }
      destruct (mt7601u_urb_has_error x u);
        destruct (tx_used q =? u32 (N - N / 8));
        destruct (Z.eqb_spec (status u) 0); cbn [negb];
        try destruct (MT7601U_STATE_READING_STATS (state _)) eqn:RS.
      all: rewrite ?tx_queue_add_log, ?tx_queue_set_state.
      all: rewrite tx_queue_set_eq by (cbn; exact Hep).
      all: (split; [exact I2 | split; [exact F2 | split; [exact U2 | ]]]).
      all: unfold tx_status_events;
        cbn [log add_log set_tx_queue set_state];
        rewrite !flat_map_app; cbn; rewrite ?app_nil_r; reflexivity.
    + split.
      * intros ep' H0 Hne.
        destruct (mt7601u_urb_has_error x u);
          destruct (tx_used q =? u32 (N - N / 8));
          destruct (Z.eqb_spec (status u) 0); cbn [negb];
          try destruct (MT7601U_STATE_READING_STATS (state _)) eqn:RS.
        all: rewrite ?tx_queue_add_log, ?tx_queue_set_state.
        all: rewrite tx_queue_set_neq by auto; reflexivity.
      * destruct (mt7601u_urb_has_error x u);
          destruct (tx_used q =? u32 (N - N / 8));
          destruct (Z.eqb_spec (status u) 0); cbn [negb];
          try destruct (MT7601U_STATE_READING_STATS (state _)) eqn:RS;
          reflexivity.
  - split; [intros H; contradiction | ].
    split; [ | split; [intros; destruct (mt7601u_urb_has_error x u); reflexivity
                      | destruct (mt7601u_urb_has_error x u); reflexivity]].
    intros _.
    destruct (mt7601u_urb_has_error x u);
      unfold tx_status_events; cbn [log add_log tx_q state];
      rewrite !flat_map_app; cbn; rewrite ?app_nil_r; repeat split.
Qed.

End TxFifo.
(** ** Transmit errors and the statistics work *)

Section TxState.
Variable x : collaborators.

(** X14: a transmit submission the transport refuses.  The error code is
    passed on and the queue indices do not move, but the slot at [end]
    already holds the frame.  -ENODEV marks the device as removed and is
    not reported; any other error is reported once and leaves the state
    alone.  Either way the transport was asked exactly once and no queue
    is stopped. *)
Theorem dma_submit_tx_refused
    (dev : mt7601u_dev) (s : sk_buff) (ep usb_ret : Z) :
  0 <= ep < Z.of_nat (List.length (tx_q dev)) ->
  let q := tx_queue dev ep in
  tx_used q < tx_entries q ->
  0 <= tx_end q < Z.of_nat (List.length (tx_e q)) ->
  usb_ret <> 0 ->
  let r := mt7601u_dma_submit_tx dev s ep usb_ret in
  let q' := tx_queue (snd r) ep in
  fst r = usb_ret
  /\ tx_entry q' (tx_end q) = mk_dma_buf_tx (tx_urb (tx_entry q (tx_end q))) (Some s)
  /\ (forall j, 0 <= j -> j <> tx_end q -> tx_entry q' j = tx_entry q j)
  /\ submit_urb_events (log (snd r))
     = submit_urb_events (log dev)
         ++ [(zth (out_eps dev) ep 0, urb_id (tx_urb (tx_entry q (tx_end q))), s)]
  /\ stop_events (log (snd r)) = stop_events (log dev)
  /\ (usb_ret = - ENODEV ->
      MT7601U_STATE_REMOVED (state (snd r)) = true
      /\ MT7601U_STATE_INITIALIZED (state (snd r))
         = MT7601U_STATE_INITIALIZED (state dev)
      /\ MT7601U_STATE_READING_STATS (state (snd r))
         = MT7601U_STATE_READING_STATS (state dev)
      /\ MT7601U_STATE_MORE_STATS (state (snd r))
         = MT7601U_STATE_MORE_STATS (state dev)
      /\ dev_err_events (log (snd r)) = dev_err_events (log dev))
  /\ (usb_ret <> - ENODEV ->
      state (snd r) = state dev
      /\ dev_err_events (log (snd r))
         = dev_err_events (log dev) ++ ["Error: TX urb submit failed"%string]).
Proof.
  intros Hep q Hfree Hend Hret r q'. subst q' r.
  unfold mt7601u_dma_submit_tx. fold q.
  destruct (Z.leb_spec (tx_entries q) (tx_used q)) as [Hfull | _]; [lia | ].
  destruct (Z.eqb_spec usb_ret 0) as [H0 | _]; [contradiction | ]. cbn [negb].
  destruct (Z.eqb_spec usb_ret (- ENODEV)) as [Hd | Hd]; cbn [fst snd].
  all: rewrite ?tx_queue_add_log, ?tx_queue_set_state.
  all: rewrite tx_queue_set_eq by (cbn; exact Hep).
  all: (split; [reflexivity | ]).
  all: (split; [unfold tx_entry, set_tx_entry; cbn [tx_e];
                apply zth_zset_eq; exact Hend | ]).
  all: (split; [intros j Hj Hne; unfold tx_entry, set_tx_entry; cbn [tx_e];
                apply zth_zset_neq; auto | ]).
  all: unfold submit_urb_events, stop_events, dev_err_events.
  all: cbn [log state add_log set_tx_queue set_state
            MT7601U_STATE_REMOVED MT7601U_STATE_INITIALIZED
            MT7601U_STATE_READING_STATS MT7601U_STATE_MORE_STATS].
  all: rewrite ?flat_map_app; cbn [flat_map app]; rewrite ?app_nil_r.
  all: (split; [reflexivity | split; [reflexivity | ]]).
  all: split; intros H; try contradiction; repeat split.
Qed.



End TxState.
(** ** Teardown of a transmit queue *)

Section FreeTx.
Variable x : collaborators.

Lemma length_tx_q_set (dev : mt7601u_dev) (ep : Z) (q : mt7601u_tx_queue) :
  List.length (tx_q (set_tx_queue dev ep q)) = List.length (tx_q dev).
Proof. unfold set_tx_queue. cbn [tx_q]. apply length_zset. Qed.

(** The completion handler rewrites no slot of its queue. *)
Lemma complete_tx_slots (dev : mt7601u_dev) (ep : Z) (u : urb) :
  0 <= ep < Z.of_nat (List.length (tx_q dev)) ->
  let dev' := mt7601u_complete_tx x dev ep u in
  List.length (tx_q dev') = List.length (tx_q dev)
  /\ tx_e (tx_queue dev' ep) = tx_e (tx_queue dev ep)
  /\ tx_entries (tx_queue dev' ep) = tx_entries (tx_queue dev ep)
  /\ poison_events (log dev') = poison_events (log dev)
  /\ free_urb_events (log dev') = free_urb_events (log dev)
  /\ (exists evs, log dev' = log dev ++ evs)
  /\ (forall ep', 0 <= ep' -> ep' <> ep -> tx_queue dev' ep' = tx_queue dev ep').
Proof.
  intros Hep dev'. subst dev'. unfold mt7601u_complete_tx.
  destruct (mt7601u_urb_has_error x u);
    destruct (negb (_ =? urb_id u));
    try destruct (tx_used _ =? _);
    try destruct (negb (status u =? 0));
    try destruct (MT7601U_STATE_READING_STATS (state _)) eqn:RS.
  all: rewrite ?tx_queue_add_log, ?tx_queue_set_state.
  all: try rewrite tx_queue_set_eq by (cbn; exact Hep).
  all: unfold poison_events, free_urb_events.
  all: cbn [tx_q log add_log set_state tx_e tx_entries].
  all: rewrite ?length_tx_q_set.
  all: cbn [log set_tx_queue add_log].
  all: rewrite ?flat_map_app; cbn [flat_map app]; rewrite ?app_nil_r.
  all: rewrite <- ?app_assoc.
  all: (split; [reflexivity | ]).
  all: (split; [reflexivity | ]).
  all: (split; [reflexivity | ]).
  all: (split; [reflexivity | ]).
  all: (split; [reflexivity | ]).
  all: (split; [eexists; try reflexivity; symmetry; apply app_nil_r | ]).
  all: intros ep' H0 Hne.
  all: rewrite ?tx_queue_add_log, ?tx_queue_set_state.
  all: try rewrite tx_queue_set_neq by auto; reflexivity.
Qed.

Lemma free_tx_queue_step_spec (dev : mt7601u_dev) (ep i : Z) :
  0 <= ep < Z.of_nat (List.length (tx_q dev)) ->
  0 <= i < Z.of_nat (List.length (tx_e (tx_queue dev ep))) ->
  let q := tx_queue dev ep in
  let dev' := free_tx_queue_step x ep dev i in
  let q' := tx_queue dev' ep in
  let id := urb_id (tx_urb (tx_entry q i)) in
  List.length (tx_q dev') = List.length (tx_q dev)
  /\ tx_entries q' = tx_entries q
  /\ List.length (tx_e q') = List.length (tx_e q)
  /\ (in_flight (tx_urb (tx_entry q' i)) = false
      /\ reject (tx_urb (tx_entry q' i)) = true
      /\ urb_id (tx_urb (tx_entry q' i)) = id
      /\ skb (tx_entry q' i) = skb (tx_entry q i))
  /\ (forall j, 0 <= j -> j <> i -> tx_entry q' j = tx_entry q j)
  /\ poison_events (log dev') = poison_events (log dev) ++ [id]
  /\ free_urb_events (log dev') = free_urb_events (log dev) ++ [id]
  /\ (exists evs, log dev' = log dev ++ evs)
  /\ (in_flight (tx_urb (tx_entry q i)) = false ->
      log dev' = log dev ++ [EvPoisonUrb id; EvFreeUrb id]
      /\ tx_start q' = tx_start q /\ tx_end q' = tx_end q
      /\ tx_used q' = tx_used q
      /\ state dev' = state dev)
  /\ (forall ep', 0 <= ep' -> ep' <> ep -> tx_queue dev' ep' = tx_queue dev ep').
Proof.
  intros Hep Hi q dev' q' id. subst q' dev' id.
  unfold free_tx_queue_step, usb_poison_urb_tx. fold q.
  destruct (in_flight (tx_urb (tx_entry q i))) eqn:Fl.
  - set (u' := mk_urb (urb_id (tx_urb (tx_entry q i))) (- ENOENT) 0 false true).
    set (q1 := set_tx_entry q i (mk_dma_buf_tx u' (skb (tx_entry q i)))).
    set (d1 := set_tx_queue
                 (add_log dev [EvPoisonUrb (urb_id (tx_urb (tx_entry q i)))])
                 ep q1).
    assert (0 <= ep < Z.of_nat (List.length (tx_q d1))) as Hep1
      by (unfold d1; rewrite length_tx_q_set; exact Hep).
    assert (tx_queue d1 ep = q1) as Eq1
      by (apply tx_queue_set_eq; exact Hep).
    pose proof (complete_tx_slots d1 ep u' Hep1) as C. cbv zeta in C.
    destruct C as (Cl & Ce & Cn & Cp & Cf & (evs & Cv) & Co).
    rewrite Eq1 in Ce, Cn.
    set (d2 := mt7601u_complete_tx x d1 ep u') in *.
    rewrite tx_queue_add_log.
    assert (forall j, tx_entry (tx_queue d2 ep) j = tx_entry q1 j) as Ej
      by (intros j; unfold tx_entry; rewrite Ce; reflexivity).
    assert (tx_entry q1 i = mk_dma_buf_tx u' (skb (tx_entry q i))) as Ei
      by (unfold tx_entry, q1, set_tx_entry; cbn [tx_e];
          apply zth_zset_eq; exact Hi).
    cbn [tx_q log add_log].
    split; [rewrite Cl; unfold d1; rewrite length_tx_q_set; reflexivity | ].
    split; [rewrite Cn; reflexivity | ].
    split; [rewrite Ce; unfold q1, set_tx_entry; cbn [tx_e]; apply length_zset | ].
    split; [rewrite Ej, Ei; repeat split | ].
    split.
    { intros j Hj Hne. rewrite Ej. unfold tx_entry, q1, set_tx_entry.
      cbn [tx_e]. apply zth_zset_neq; auto. }
    rewrite Ej, Ei. cbn [tx_urb urb_id u'].
    split.
    { unfold poison_events at 1. rewrite flat_map_app.
      fold (poison_events (log d2)). rewrite Cp. cbn [flat_map app].
      rewrite app_nil_r. unfold d1, poison_events.
      cbn [log set_tx_queue add_log]. rewrite flat_map_app. reflexivity. }
    split.
    { unfold free_urb_events at 1. rewrite flat_map_app.
      fold (free_urb_events (log d2)). rewrite Cf. cbn [flat_map app].
      f_equal. unfold d1, free_urb_events.
      cbn [log set_tx_queue add_log]. rewrite flat_map_app. cbn.
      apply app_nil_r. }
    split.
    { rewrite Cv. unfold d1. cbn [log set_tx_queue add_log].
      rewrite <- !app_assoc. eexists. reflexivity. }
    split; [intros H; discriminate H | ].
    intros ep' H0 Hne. rewrite tx_queue_add_log, Co by auto. unfold d1.
    rewrite tx_queue_set_neq by auto. reflexivity.
  - set (u' := mk_urb (urb_id (tx_urb (tx_entry q i)))
                      (status (tx_urb (tx_entry q i)))
                      (actual_length (tx_urb (tx_entry q i))) false true).
    set (q1 := set_tx_entry q i (mk_dma_buf_tx u' (skb (tx_entry q i)))).
    rewrite tx_queue_add_log.
    rewrite !tx_queue_set_eq by (cbn; exact Hep).
    assert (tx_entry q1 i = mk_dma_buf_tx u' (skb (tx_entry q i))) as Ei
      by (unfold tx_entry, q1, set_tx_entry; cbn [tx_e];
          apply zth_zset_eq; exact Hi).
    rewrite Ei. cbn [tx_urb urb_id u' skb in_flight reject].
    unfold poison_events, free_urb_events.
    cbn [tx_q log state add_log set_tx_queue].
    rewrite !flat_map_app. cbn [flat_map app]. rewrite !app_nil_r.
    rewrite <- !app_assoc. cbn [app].
    split; [apply length_zset | ].
    split; [reflexivity | ].
    split; [unfold q1, set_tx_entry; cbn [tx_e]; apply length_zset | ].
    split; [repeat split | ].
    split.
    { intros j Hj Hne. unfold tx_entry, q1, set_tx_entry.
      cbn [tx_e]. apply zth_zset_neq; auto. }
    split; [reflexivity | ].
    split; [reflexivity | ].
    split; [eexists; reflexivity | ].
    split; [intros _; repeat split | ].
    intros ep' H0 Hne.
    change (tx_queue (set_tx_queue
                        (add_log dev [EvPoisonUrb (urb_id (tx_urb (tx_entry q i)))])
                        ep q1) ep'
            = tx_queue dev ep').
    rewrite tx_queue_set_neq by auto. reflexivity.
Qed.

Lemma free_tx_queue_fold (ep : Z) (m : nat) :
  forall (a : nat) (dev : mt7601u_dev),
    0 <= ep < Z.of_nat (List.length (tx_q dev)) ->
    (a + m <= List.length (tx_e (tx_queue dev ep)))%nat ->
    let q := tx_queue dev ep in
    let l := map Z.of_nat (seq a m) in
    let dev' := fold_left (free_tx_queue_step x ep) l dev in
    let q' := tx_queue dev' ep in
    let id := fun i => urb_id (tx_urb (tx_entry q i)) in
    List.length (tx_q dev') = List.length (tx_q dev)
    /\ tx_entries q' = tx_entries q
    /\ List.length (tx_e q') = List.length (tx_e q)
    /\ (forall j, Z.of_nat a <= j < Z.of_nat (a + m) ->
          in_flight (tx_urb (tx_entry q' j)) = false
          /\ reject (tx_urb (tx_entry q' j)) = true
          /\ urb_id (tx_urb (tx_entry q' j)) = id j
          /\ skb (tx_entry q' j) = skb (tx_entry q j))
    /\ (forall j, 0 <= j -> ~ Z.of_nat a <= j < Z.of_nat (a + m) ->
          tx_entry q' j = tx_entry q j)
    /\ poison_events (log dev') = poison_events (log dev) ++ map id l
    /\ free_urb_events (log dev') = free_urb_events (log dev) ++ map id l
    /\ (exists evs, log dev' = log dev ++ evs)
    /\ ((forall j, Z.of_nat a <= j < Z.of_nat (a + m) ->
           in_flight (tx_urb (tx_entry q j)) = false) ->
        log dev'
        = log dev ++ flat_map (fun i => [EvPoisonUrb (id i); EvFreeUrb (id i)]) l
        /\ tx_start q' = tx_start q /\ tx_end q' = tx_end q
        /\ tx_used q' = tx_used q
        /\ state dev' = state dev)
    /\ (forall ep', 0 <= ep' -> ep' <> ep ->
          tx_queue dev' ep' = tx_queue dev ep').
Proof.
  induction m as [ | m IH]; intros a dev Hep Hlen q l dev' q' id;
    subst q' dev' l.
  - cbn [seq map fold_left flat_map]. fold q. rewrite !app_nil_r.
    split; [reflexivity | ]. split; [reflexivity | ]. split; [reflexivity | ].
    split; [intros j Hj; lia | ].
    split; [intros; reflexivity | ].
    split; [reflexivity | ]. split; [reflexivity | ].
    split; [exists []; symmetry; apply app_nil_r | ].
    split; [intros _; repeat split | intros; reflexivity].
  - cbn [seq map fold_left flat_map].
    pose proof (free_tx_queue_step_spec dev ep (Z.of_nat a) Hep ltac:(lia)) as S.
    cbv zeta in S. fold q in S.
    set (d1 := free_tx_queue_step x ep dev (Z.of_nat a)) in *.
    destruct S as (Sl & Sn & Sle & (Sf & Sr & Si & Ss) & So & Sp & Sfr
                   & (ev1 & Sv) & Sq & Sx).
    assert (S a + m <= List.length (tx_e (tx_queue d1 ep)))%nat as Hlen1
      by (rewrite Sle; subst q; lia).
    specialize (IH (S a) d1 ltac:(rewrite Sl; exact Hep) Hlen1).
    cbv zeta in IH.
    set (d2 := fold_left (free_tx_queue_step x ep) (map Z.of_nat (seq (S a) m)) d1)
      in *.
    destruct IH as (Il & In' & Ile & Ij & Io & Ip & Ifr & (ev2 & Iv) & Iq & Ix).
    assert (map (fun i => urb_id (tx_urb (tx_entry (tx_queue d1 ep) i)))
                (map Z.of_nat (seq (S a) m))
            = map id (map Z.of_nat (seq (S a) m))) as Eid.
    { apply map_ext_in. intros j Hin. apply in_map_iff in Hin.
      destruct Hin as (k & <- & Hk). apply in_seq in Hk.
      unfold id. rewrite So by lia. reflexivity. }
    split; [congruence | ]. split; [congruence | ]. split; [congruence | ].
    split.
    { intros j Hj. destruct (Z.eq_dec j (Z.of_nat a)) as [-> | Hne].
      - rewrite Io by lia. auto.
      - destruct (Ij j ltac:(lia)) as (J1 & J2 & J3 & J4).
        rewrite J1, J2, J3, J4. unfold id. rewrite So by lia. auto. }
    split.
    { intros j Hj Hout. rewrite Io by lia. apply So; lia. }
    split; [rewrite Ip, Sp, Eid, <- app_assoc; reflexivity | ].
    split; [rewrite Ifr, Sfr, Eid, <- app_assoc; reflexivity | ].
    split; [exists (ev1 ++ ev2); rewrite Iv, Sv, app_assoc; reflexivity | ].
    split.
    { intros Hidle.
      destruct (Sq (Hidle (Z.of_nat a) ltac:(lia))) as (Q1 & Q2 & Q3 & Q4 & Q5).
      destruct Iq as (R1 & R2 & R3 & R4 & R5).
      { intros j Hj. rewrite So by lia. apply Hidle. lia. }
      split; [ | repeat split; congruence].
      rewrite R1, Q1, <- app_assoc. f_equal. cbn [app]. do 2 f_equal.
      clear - So. 
      assert (forall k, In k (seq (S a) m) -> (a < k)%nat) as Hk
        by (intros k Hk; apply in_seq in Hk; lia).
      induction (seq (S a) m) as [ | k t IHt]; [reflexivity | ].
      cbn [map flat_map app]. unfold id at 1 2.
      rewrite So by (specialize (Hk k (or_introl eq_refl)); lia).
      do 2 f_equal. apply IHt. intros k' Hk'. apply Hk. right. exact Hk'. }
    intros ep' H0 Hne. rewrite Ix, Sx by auto. reflexivity.
Qed.

(** X16: teardown of one transmit queue.  [mt7601u_free_tx_queue] warns
    first if frames are still queued, then visits every slot once, in index
    order, poisoning the slot's urb and freeing it before going on to the
    next.  Afterwards no urb of the queue is in flight and every one
    refuses submissions; the stored frames and the other queues are not
    touched.  If no transfer was in flight, nothing else happens: no
    completion handler runs and the indices stay as they were. *)
Theorem free_tx_queue_teardown (N : Z) (dev : mt7601u_dev) (ep : Z) :
  0 <= ep < Z.of_nat (List.length (tx_q dev)) ->
  let q := tx_queue dev ep in
  tx_entries q = N ->
  Z.of_nat (List.length (tx_e q)) = N ->
  let dev' := mt7601u_free_tx_queue x dev ep in
  let q' := tx_queue dev' ep in
  let id := fun i => urb_id (tx_urb (tx_entry q i)) in
  let warn := if tx_used q =? 0 then [] else [EvWarn "q->used"] in
  poison_events (log dev') = poison_events (log dev) ++ map id (upto N)
  /\ free_urb_events (log dev') = free_urb_events (log dev) ++ map id (upto N)
  /\ (forall j, 0 <= j < N ->
        in_flight (tx_urb (tx_entry q' j)) = false
        /\ reject (tx_urb (tx_entry q' j)) = true
        /\ urb_id (tx_urb (tx_entry q' j)) = id j
        /\ skb (tx_entry q' j) = skb (tx_entry q j))
  /\ (exists evs, log dev' = log dev ++ warn ++ evs)
  /\ ((forall j, 0 <= j < N -> in_flight (tx_urb (tx_entry q j)) = false) ->
      log dev'
      = log dev ++ warn
          ++ flat_map (fun i => [EvPoisonUrb (id i); EvFreeUrb (id i)]) (upto N)
      /\ tx_start q' = tx_start q /\ tx_end q' = tx_end q
      /\ tx_used q' = tx_used q
      /\ state dev' = state dev)
  /\ (forall ep', 0 <= ep' -> ep' <> ep -> tx_queue dev' ep' = tx_queue dev ep').
Proof.
  intros Hep q Hent Hlen dev' q' id warn. subst q' dev'.
  unfold mt7601u_free_tx_queue. fold q. rewrite Hent.
  change (fold_left _ (upto N) ?d)
    with (fold_left (free_tx_queue_step x ep) (map Z.of_nat (seq 0 (Z.to_nat N))) d).
  set (d0 := if negb (tx_used q =? 0) then add_log dev [EvWarn "q->used"] else dev).
  assert (tx_q d0 = tx_q dev /\ state d0 = state dev
          /\ log d0 = log dev ++ warn) as (T0 & S0 & L0).
  { subst d0 warn. destruct (tx_used q =? 0); cbn [negb].
    - rewrite app_nil_r. repeat split.
    - repeat split. }
  assert (forall e, tx_queue d0 e = tx_queue dev e) as Q0
    by (intros e; unfold tx_queue; rewrite T0; reflexivity).
  pose proof (free_tx_queue_fold ep (Z.to_nat N) 0 d0
                ltac:(rewrite T0; exact Hep)
                ltac:(rewrite Q0; fold q; lia)) as F.
  cbv zeta in F. rewrite Q0 in F. fold q in F. fold id in F.
  fold (upto N) in F |- *.
  set (d' := fold_left (free_tx_queue_step x ep) (upto N) d0) in *.
  destruct F as (_ & _ & _ & Fj & _ & Fp & Ff & (evs & Fv) & Fq & Fx).
  assert (poison_events (log d0) = poison_events (log dev)
          /\ free_urb_events (log d0) = free_urb_events (log dev)) as [P0 F0].
  { rewrite L0. unfold poison_events, free_urb_events. rewrite !flat_map_app.
    subst warn. destruct (tx_used q =? 0); cbn; rewrite !app_nil_r; auto. }
  split; [rewrite Fp, P0; reflexivity | ].
  split; [rewrite Ff, F0; reflexivity | ].
  split; [intros j Hj; apply Fj; lia | ].
  split; [exists evs; rewrite Fv, L0, app_assoc; reflexivity | ].
  split.
  - intros Hidle.
    destruct Fq as (R1 & R2 & R3 & R4 & R5); [intros j Hj; apply Hidle; lia | ].
    rewrite R1, L0, app_assoc.
    repeat split; try assumption; try congruence.
  - intros ep' H0 Hne. rewrite Fx, Q0 by auto. reflexivity.
Qed.

(** What [mt7601u_free_tx_queue] leaves of its queue and of the others. *)
Lemma free_tx_queue_slots (dev : mt7601u_dev) (ep : Z) :
  0 <= ep < Z.of_nat (List.length (tx_q dev)) ->
  tx_entries (tx_queue dev ep)
  = Z.of_nat (List.length (tx_e (tx_queue dev ep))) ->
  let q := tx_queue dev ep in
  let dev' := mt7601u_free_tx_queue x dev ep in
  let q' := tx_queue dev' ep in
  List.length (tx_q dev') = List.length (tx_q dev)
  /\ tx_entries q' = tx_entries q
  /\ List.length (tx_e q') = List.length (tx_e q)
  /\ (forall j, 0 <= j < tx_entries q ->
        in_flight (tx_urb (tx_entry q' j)) = false
        /\ reject (tx_urb (tx_entry q' j)) = true
        /\ urb_id (tx_urb (tx_entry q' j)) = urb_id (tx_urb (tx_entry q j))
        /\ skb (tx_entry q' j) = skb (tx_entry q j))
  /\ (forall ep', 0 <= ep' -> ep' <> ep -> tx_queue dev' ep' = tx_queue dev ep').
Proof.
  intros Hep Hent q dev' q'. subst q' dev'. fold q in Hent.
  unfold mt7601u_free_tx_queue. fold q.
  change (fold_left _ (upto (tx_entries q)) ?d)
    with (fold_left (free_tx_queue_step x ep)
            (map Z.of_nat (seq 0 (Z.to_nat (tx_entries q)))) d).
  set (d0 := if negb (tx_used q =? 0) then add_log dev [EvWarn "q->used"] else dev).
  assert (tx_q d0 = tx_q dev) as T0
    by (subst d0; destruct (negb (tx_used q =? 0)); reflexivity).
  assert (forall e, tx_queue d0 e = tx_queue dev e) as Q0
    by (intros e; unfold tx_queue; rewrite T0; reflexivity).
  pose proof (free_tx_queue_fold ep (Z.to_nat (tx_entries q)) 0 d0
                ltac:(rewrite T0; exact Hep)
                ltac:(rewrite Q0; fold q; lia)) as F.
  cbv zeta in F. rewrite Q0 in F. fold q in F.
  destruct F as (Fl & Fn & Fle & Fj & _ & _ & _ & _ & _ & Fx).
  split; [rewrite Fl, T0; reflexivity | ].
  split; [exact Fn | ].
  split; [exact Fle | ].
  split; [intros j Hj; apply Fj; lia | ].
  intros ep' H0 Hne. rewrite Fx, Q0 by auto. reflexivity.
Qed.

Lemma free_tx_fold (m : nat) :
  forall (a : nat) (dev : mt7601u_dev),
    (a + m <= List.length (tx_q dev))%nat ->
    (forall ep, Z.of_nat a <= ep < Z.of_nat (a + m) ->
       tx_entries (tx_queue dev ep)
       = Z.of_nat (List.length (tx_e (tx_queue dev ep)))) ->
    let dev' :=
      fold_left (mt7601u_free_tx_queue x) (map Z.of_nat (seq a m)) dev in
    List.length (tx_q dev') = List.length (tx_q dev)
    /\ (forall ep j, Z.of_nat a <= ep < Z.of_nat (a + m) ->
          0 <= j < tx_entries (tx_queue dev ep) ->
          in_flight (tx_urb (tx_entry (tx_queue dev' ep) j)) = false
          /\ reject (tx_urb (tx_entry (tx_queue dev' ep) j)) = true
          /\ urb_id (tx_urb (tx_entry (tx_queue dev' ep) j))
             = urb_id (tx_urb (tx_entry (tx_queue dev ep) j))
          /\ skb (tx_entry (tx_queue dev' ep) j)
             = skb (tx_entry (tx_queue dev ep) j))
    /\ (forall ep, 0 <= ep -> ~ Z.of_nat a <= ep < Z.of_nat (a + m) ->
          tx_queue dev' ep = tx_queue dev ep).
Proof.
  induction m as [ | m IH]; intros a dev Hlen Hent dev'; subst dev'.
  - cbn [seq map fold_left].
    split; [reflexivity | split; [intros; lia | intros; reflexivity]].
  - cbn [seq map fold_left].
    pose proof (free_tx_queue_slots dev (Z.of_nat a) ltac:(lia)
                  (Hent (Z.of_nat a) ltac:(lia))) as S.
    cbv zeta in S.
    set (d1 := mt7601u_free_tx_queue x dev (Z.of_nat a)) in *.
    destruct S as (Sl & Sn & Sle & Sj & Sx).
    specialize (IH (S a) d1 ltac:(lia)). cbv zeta in IH.
    destruct IH as (Il & Ij & Ix).
    { intros ep Hep. rewrite Sx by lia. apply Hent. lia. }
    split; [congruence | ].
    split.
    + intros ep j Hep Hj. destruct (Z.eq_dec ep (Z.of_nat a)) as [-> | Hne].
      * rewrite Ix by lia. apply Sj. exact Hj.
      * destruct (Ij ep j ltac:(lia) ltac:(rewrite Sx by lia; exact Hj))
          as (J1 & J2 & J3 & J4).
        rewrite J1, J2, J3, J4, Sx by lia. auto.
    + intros ep H0 Hout. rewrite Ix by lia. apply Sx; lia.
Qed.

(** X17: [mt7601u_free_tx] tears down every transmit queue.  Whatever
    the queues held, afterwards no transmit urb is in flight and every one
    refuses submissions; the receive ring, the pending tasklet and the
    receive trace are as before. *)
Theorem free_tx_all_queues (dev : mt7601u_dev) :
  (forall ep, 0 <= ep < Z.of_nat (List.length (tx_q dev)) ->
     tx_entries (tx_queue dev ep)
     = Z.of_nat (List.length (tx_e (tx_queue dev ep)))) ->
  let dev' := mt7601u_free_tx x dev in
  (forall ep j, 0 <= ep < Z.of_nat (List.length (tx_q dev)) ->
     0 <= j < tx_entries (tx_queue dev ep) ->
     in_flight (tx_urb (tx_entry (tx_queue dev' ep) j)) = false
     /\ reject (tx_urb (tx_entry (tx_queue dev' ep) j)) = true
     /\ urb_id (tx_urb (tx_entry (tx_queue dev' ep) j))
        = urb_id (tx_urb (tx_entry (tx_queue dev ep) j))
     /\ skb (tx_entry (tx_queue dev' ep) j)
        = skb (tx_entry (tx_queue dev ep) j))
  /\ List.length (tx_q dev') = List.length (tx_q dev)
  /\ rx_q dev' = rx_q dev
  /\ rx_tasklet dev' = rx_tasklet dev
  /\ rx_trace (log dev') = rx_trace (log dev).
Proof.
  intros Hent dev'. subst dev'.
  pose proof (free_tx_rx_side x dev) as R. cbv zeta in R.
  destruct R as (R1 & R2 & R3).
  unfold mt7601u_free_tx in *. unfold upto in *.
  rewrite Nat2Z.id in *.
  pose proof (free_tx_fold (List.length (tx_q dev)) 0 dev ltac:(lia)) as F.
  cbv zeta in F. destruct F as (Fl & Fj & _).
  { intros ep Hep. apply Hent. lia. }
  split; [intros ep j Hep Hj; apply Fj; [lia | exact Hj] | ].
  split; [exact Fl | ]. split; [exact R1 | ]. split; [exact R2 | exact R3].
Qed.

End FreeTx.
(** ** The life cycle of a receive buffer *)

Section RxCycle.
Variable c : dma_consts.
Variable x : collaborators.

Lemma giveback_rx_entry (dev : mt7601u_dev) (i st n : Z) (data : list byte) :
  0 <= i < Z.of_nat (List.length (rx_e (rx_q dev))) ->
  rx_entry (usb_giveback_rx x dev i st n data) i
  = mk_dma_buf (mk_urb (urb_id (rx_urb (rx_entry dev i))) st n false
                       (reject (rx_urb (rx_entry dev i))))
               data (len (rx_entry dev i)).
Proof.
  intros Hi. unfold usb_giveback_rx.
  match goal with
  | |- rx_entry (mt7601u_complete_rx x ?d ?u) i = _ =>
    pose proof (complete_rx_spec x d u) as C; cbv zeta in C;
      destruct C as (Ce & _); rewrite (rx_entry_eq d _ i Ce)
  end.
  unfold rx_entry at 1. cbn [rx_q set_rx_q rx_e].
  apply zth_zset_eq. exact Hi.
Qed.

Lemma giveback_rx_effects (dev : mt7601u_dev) (i st n : Z) (data : list byte) :
  let dev' := usb_giveback_rx x dev i st n data in
  state dev' = state dev
  /\ rx_trace (log dev') = rx_trace (log dev)
  /\ (0 <= i < Z.of_nat (List.length (rx_e (rx_q dev))) ->
      i = rx_end (rx_q dev) -> rx_tasklet dev' = true).
Proof.
  intros dev'. subst dev'. unfold usb_giveback_rx.
  match goal with
  | |- context [mt7601u_complete_rx x ?d ?u] =>
    pose proof (complete_rx_effects x d u) as C; cbv zeta in C;
      destruct C as (Cs & _ & _ & Ct & Ck & _)
  end.
  split; [exact Cs | split; [exact Ct | ]].
  intros Hi ->. apply Ck.
  cbn [rx_q set_rx_q rx_end]. unfold rx_entry at 1. cbn [rx_q set_rx_q rx_e].
  rewrite zth_zset_eq by exact Hi. reflexivity.
Qed.

(** Handling a popped entry whose transfer succeeded and whose urb is not
    poisoned. *)
Lemma rx_tasklet_body_ok (dev : mt7601u_dev) (e : Z) :
  0 <= MT_DMA_HDRS c ->
  0 <= e < Z.of_nat (List.length (rx_e (rx_q dev))) ->
  status (rx_urb (rx_entry dev e)) = 0 ->
  reject (rx_urb (rx_entry dev e)) = false ->
  exists evs dev',
    mt7601u_rx_process_entry c x (MT7601U_STATE_INITIALIZED (state dev))
      (buf (rx_entry dev e)) (actual_length (rx_urb (rx_entry dev e))) = Some evs
    /\ rx_tasklet_body c x dev e = Some dev'
    /\ log dev' = log dev ++ evs ++ [EvSubmitBuf e Complete_rx]
    /\ rx_entry dev' e
       = mk_dma_buf (mk_urb (urb_id (rx_urb (rx_entry dev e))) 0
                            (actual_length (rx_urb (rx_entry dev e))) true false)
                    (buf (rx_entry dev e)) (len (rx_entry dev e))
    /\ rx_tasklet dev' = rx_tasklet dev.
Proof.
  intros Hh He Hs Hr. unfold rx_tasklet_body. rewrite Hs. cbn [Z.eqb negb].
  destruct (rx_process_entry_total c x
              (MT7601U_STATE_INITIALIZED (state dev))
              (buf (rx_entry dev e)) (actual_length (rx_urb (rx_entry dev e))) Hh)
    as [evs Hev].
  rewrite Hev. exists evs.
  pose proof (submit_buf_spec (add_log dev evs) e Complete_rx He) as S.
  cbv zeta in S.
  change (rx_entry (add_log dev evs) e) with (rx_entry dev e) in S.
  destruct S as (Sl & _ & _ & _ & _ & _ & _ & _ & Stk & _ & _ & Sok).
  destruct (Sok Hr) as [_ Si]. rewrite Hs in Si.
  eexists. split; [reflexivity | split; [reflexivity | ]].
  split; [rewrite Sl; cbn [log add_log]; rewrite <- app_assoc; reflexivity | ].
  split; [exact Si | exact Stk].
Qed.

(** X18: one buffer through the receive path.  With the tasklet caught
    up and every transfer in flight, a successful completion of the
    transfer at [end] followed by a run of the tasklet reassembles the
    received bytes once, resubmits that buffer with the RX completion
    handler and leaves the ring as it was, one position further: nothing
    pending, every transfer in flight, no other entry touched. *)
Theorem rx_buffer_cycle (N : Z) (dev : mt7601u_dev) (n : Z) (data : list byte) :
  0 <= MT_DMA_HDRS c ->
  ring_full N dev ->
  rx_pending (rx_q dev) = 0 ->
  let i := rx_end (rx_q dev) in
  reject (rx_urb (rx_entry dev i)) = false ->
  exists evs dev',
    mt7601u_rx_process_entry c x (MT7601U_STATE_INITIALIZED (state dev)) data n
    = Some evs
    /\ run_rx_tasklet c x (usb_giveback_rx x dev i 0 n data) = Some dev'
    /\ rx_trace (log dev')
       = rx_trace (log dev) ++ rx_trace evs ++ [EvSubmitBuf i Complete_rx]
    /\ rx_entry dev' i
       = mk_dma_buf (mk_urb (urb_id (rx_urb (rx_entry dev i))) 0 n true false)
                    data (len (rx_entry dev i))
    /\ (forall j, 0 <= j -> j <> i -> rx_entry dev' j = rx_entry dev j)
    /\ ring_full N dev'
    /\ rx_pending (rx_q dev') = 0
    /\ rx_start (rx_q dev') = (i + 1) mod N
    /\ rx_tasklet dev' = false.
Proof.
  intros Hh RF P0 i Hrej.
  pose proof RF as [I F].
  pose proof I as (HN & Hent & Hlen & Hst & Hp & Hend & Hfl & Hid).
  assert (i = rx_start (rx_q dev)) as His.
  { subst i. rewrite Hend, P0, Z.add_0_r. apply Z.mod_small. lia. }
  assert (0 <= i < N) as Hi by lia.
  assert (in_flight (rx_urb (rx_entry dev i)) = true) as Hin.
  { specialize (F 0 ltac:(lia)). rewrite Z.add_0_r, Z.mod_small in F by lia.
    rewrite His. exact F. }
  set (d1 := usb_giveback_rx x dev i 0 n data).
  pose proof (ring_inv_complete x N dev i 0 n data I Hi Hin) as C.
  cbv zeta in C. fold d1 in C.
  destruct C as (I1 & S1 & [(Hne & _) | (_ & _ & E1 & P1)]);
    [exfalso; apply Hne; reflexivity | ].
  fold i in E1. rewrite P0 in P1.
  pose proof (giveback_rx_entry dev i 0 n data ltac:(lia)) as En1. fold d1 in En1.
  rewrite Hrej in En1.
  pose proof (giveback_rx_effects dev i 0 n data) as G. cbv zeta in G.
  fold d1 in G. destruct G as (G1 & G2 & G3).
  specialize (G3 ltac:(lia) eq_refl).
  (* the tasklet: one pop, one entry handled, then the queue is empty *)
  unfold run_rx_tasklet. rewrite G3. unfold mt7601u_rx_tasklet.
  set (d1' := set_rx_tasklet d1 false).
  change (rx_pending (rx_q d1')) with (rx_pending (rx_q d1)). rewrite P1.
  change (S (Z.to_nat (0 + 1))) with 2%nat.
  cbn [rx_tasklet_loop].
  pose proof (ring_inv_rx_q N d1 d1' eq_refl I1) as I1'.
  pose proof (ring_inv_pop N d1' I1') as P. cbv zeta in P.
  destruct P as (I2 & Pe & _ & Pn).
  change (rx_pending (rx_q d1')) with (rx_pending (rx_q d1)) in Pn.
  change (rx_start (rx_q d1')) with (rx_start (rx_q d1)) in Pn.
  rewrite P1, S1, <- His in Pn.
  destruct (Pn ltac:(lia)) as (Pf & Ps & Pp).
  pose proof (get_pending_entry_spec d1') as Gp. cbv zeta in Gp.
  destruct Gp as (Ge & _ & _ & Gl & _ & _).
  assert (rx_tasklet (snd (mt7601u_rx_get_pending_entry d1')) = false
          /\ state (snd (mt7601u_rx_get_pending_entry d1')) = state d1) as [Gt Gs].
  { unfold mt7601u_rx_get_pending_entry.
    destruct (rx_pending (rx_q d1') =? 0); split; reflexivity. }
  destruct (mt7601u_rx_get_pending_entry d1') as [o d2] eqn:Epop.
  cbn [fst snd] in *. subst o.
  assert (forall j, rx_entry d2 j = rx_entry d1 j) as E2
    by (intros j; apply (rx_entry_eq d1' d2 j Ge)).
  destruct (rx_tasklet_body_ok d2 i Hh) as (evs & d3 & Hev & Hb & Bl & Be & Bt).
  { destruct I2 as (_ & _ & L2 & _). lia. }
  { rewrite E2, En1. reflexivity. }
  { rewrite E2, En1. reflexivity. }
  rewrite E2, En1, Gs, G1 in Hev. cbn [buf rx_urb actual_length] in Hev.
  rewrite Hb.
  destruct (rx_tasklet_body_spec c x _ _ _ Hb) as (Bs & Bend & Bp & Bn & Bln & Bo & Bi).
  assert (ring_inv N d3) as I3.
  { apply (ring_inv_process c x N d1' d3 i I1'); rewrite Epop;
      [reflexivity | exact Hb]. }
  pose proof (get_pending_entry_spec d3) as G3'. cbv zeta in G3'.
  destruct G3' as (_ & _ & _ & _ & G0 & _).
  destruct (G0 ltac:(rewrite Bp, Pp; lia)) as [Gn Gd].
  destruct (mt7601u_rx_get_pending_entry d3) as [o d4]. cbn [fst snd] in *.
  subst o d4.
  exists evs, d3. split; [exact Hev | split; [reflexivity | ]].
  assert (forall j, 0 <= j -> j <> i -> rx_entry d3 j = rx_entry dev j) as Oth.
  { intros j Hj Hne. rewrite Bo, E2 by assumption.
    apply giveback_rx_other; assumption. }
  assert (rx_entry d3 i
          = mk_dma_buf (mk_urb (urb_id (rx_urb (rx_entry dev i))) 0 n true false)
                       data (len (rx_entry dev i))) as Ei.
  { rewrite Be, E2, En1. reflexivity. }
  split.
  { rewrite Bl, Gl. change (log d1') with (log d1).
    rewrite !rx_trace_app, G2. reflexivity. }
  split; [exact Ei | ].
  split; [exact Oth | ].
  split.
  { split; [exact I3 | ].
    intros k Hk. rewrite Bs, Ps.
    set (j := ((i + 1) mod N + k) mod N).
    assert (0 <= j < N) as Hj by (apply Z.mod_pos_bound; lia).
    destruct (Z.eq_dec j i) as [-> | Hne].
    - rewrite Ei. reflexivity.
    - rewrite Oth by lia.
      destruct (ring_cover N (rx_start (rx_q dev)) j Hst Hj) as (k' & Hk' & ->).
      apply F. lia. }
  split; [rewrite Bp, Pp; lia | ].
  split; [rewrite Bs; exact Ps | ].
  rewrite Bt. exact Gt.
Qed.

End RxCycle.

(** ** The properties of Part III on concrete inputs *)

Lemma std_hdrlen_nonneg : forall fc, 0 <= ieee80211_hdrlen std_collab fc.
Proof.
  intros fc. cbn [ieee80211_hdrlen std_collab]. unfold ieee80211_hdrlen_std.
  repeat match goal with
         | |- context [if ?b then _ else _] => destruct b
         end; lia.
Qed.

Lemma std_alloc_refuses_huge :
  forall size, 2 ^ 32 - 36 - 2 <= size -> alloc_ok std_collab size = false.
Proof.
  intros size H. cbn [alloc_ok std_collab]. apply Z.ltb_ge. lia.
Qed.

Lemma example_rx_dev_ring_full : ring_full 2 example_rx_dev.
Proof. exact (ring_full_init 2 example_rx_dev example_rx_dev_all_submitted). Qed.

Lemma example_tx_inv (start used : Z) :
  0 <= start < 4 -> 0 <= used <= 4 ->
  tx_inv 4 (tx_queue (example_dev (rx_queue_alloc 2 8)
                                  (example_tx_queue 4 start used)) 1).
Proof.
  intros Hs Hu. unfold tx_inv.
  change (tx_queue _ 1) with (example_tx_queue 4 start used).
  cbn [example_tx_queue tx_entries tx_e tx_start tx_used tx_end].
  rewrite length_map.
  repeat split; try lia; reflexivity.
Qed.

Lemma rx_loop_consumes_witness :
  0 <= MT_DMA_HDRS mt7601u_hw
  /\ 0 <= 112 < 2 ^ 32
  /\ exists evs off' len' cnt',
      rx_process_loop mt7601u_hw std_collab (rx_fuel 112) example_rx_buf 0 112 0
      = Some (evs, off', len', cnt')
      /\ cnt' = 0 + Z.of_nat (List.length
                    (rx_segments mt7601u_hw (rx_fuel 112) example_rx_buf 0 112))
      /\ mt7601u_rx_next_seg_len mt7601u_hw (advance example_rx_buf off') len' = 0.
Proof.
  assert (0 <= MT_DMA_HDRS mt7601u_hw) as H1 by evaluated.
  assert (0 <= 112 < 2 ^ 32) as H2 by evaluated.
  split; [exact H1 | split; [exact H2 | ]].
  destruct (rx_loop_consumes mt7601u_hw std_collab example_rx_buf 0 112 0 H1 H2)
    as (evs & off' & len' & cnt' & L & _ & Hc & _ & _ & _ & _ & _ & Hz).
  exists evs, off', len', cnt'. split; [exact L | split; [exact Hc | exact Hz]].
Defined.

Lemma rx_skb_from_seg_frame_witness :
  let rxwi := mk_rxwi (2 ^ 14) [0; 0; 0] in
  let data := example_hdr ++ example_pad ++ example_rest in
  (forall fc, 0 <= ieee80211_hdrlen std_collab fc)
  /\ 0 <= 20 < 2 ^ 32
  /\ 20 <= Z.of_nat (List.length data)
  /\ (l2pad mt7601u_hw rxwi = true -> 2 <= 20)
  /\ mt7601u_rx_skb_from_seg mt7601u_hw std_collab rxwi data 20
     = (if alloc_ok std_collab
             (skb_size (seg_frame mt7601u_hw std_collab rxwi data 20))
        then Some (seg_frame mt7601u_hw std_collab rxwi data 20) else None)
  /\ skb_size (seg_frame mt7601u_hw std_collab rxwi data 20) = 18.
Proof.
  intros rxwi data.
  assert (0 <= 20 < 2 ^ 32) as H2 by evaluated.
  assert (20 <= Z.of_nat (List.length data)) as H3 by evaluated.
  assert (l2pad mt7601u_hw rxwi = true -> 2 <= 20) as H4 by (intros _; lia).
  split; [exact std_hdrlen_nonneg | ].
  split; [exact H2 | split; [exact H3 | split; [exact H4 | ]]].
  destruct (rx_skb_from_seg_frame mt7601u_hw std_collab rxwi data 20
              std_hdrlen_nonneg H2 H3 H4) as (E & _ & S).
  split; [exact E | exact S].
Defined.

Lemma rx_process_seg_frame_witness :
  let c := mt7601u_hw in
  let x := std_collab in
  let fixed := MT_FCE_INFO_LEN c + MT_DMA_HDR_LEN c + sizeof_rxwi c in
  let rxwi := rxwi_of_buf x (advance example_rx_buf (0 + MT_DMA_HDR_LEN c)) in
  (forall fc, 0 <= ieee80211_hdrlen x fc)
  /\ 0 <= MT_FCE_INFO_LEN c /\ 0 <= MT_DMA_HDR_LEN c /\ 0 <= sizeof_rxwi c
  /\ 0 <= 0
  /\ fixed <= 56 < 2 ^ 32
  /\ 0 + 56 <= Z.of_nat (List.length example_rx_buf)
  /\ (l2pad c rxwi = true -> fixed + 2 <= 56)
  /\ map skb_data (rx_events (mt7601u_rx_process_seg c x example_rx_buf 0 56))
     = [example_payload].
Proof.
  intros c x fixed rxwi.
  assert (0 <= MT_FCE_INFO_LEN c) as H1 by evaluated.
  assert (0 <= MT_DMA_HDR_LEN c) as H2 by evaluated.
  assert (0 <= sizeof_rxwi c) as H3 by evaluated.
  assert (0 <= 0) as H4 by lia.
  assert (fixed <= 56 < 2 ^ 32) as H5 by evaluated.
  assert (0 + 56 <= Z.of_nat (List.length example_rx_buf)) as H6 by evaluated.
  assert (l2pad c rxwi = true -> fixed + 2 <= 56) as H7 by evaluated.
  split; [exact std_hdrlen_nonneg | ].
  split; [exact H1 | split; [exact H2 | split; [exact H3 | split; [exact H4 | ]]]].
  split; [exact H5 | split; [exact H6 | split; [exact H7 | ]]].
  pose proof (rx_process_seg_frame c x example_rx_buf 0 56 std_hdrlen_nonneg
                H1 H2 H3 H4 H5 H6 H7) as W.
  cbv zeta in W. destruct W as (W & _ & _). rewrite W. reflexivity.
Defined.

Lemma rx_process_seg_short_witness :
  let c := mt7601u_hw in
  let x := std_collab in
  let fixed := MT_FCE_INFO_LEN c + MT_DMA_HDR_LEN c + sizeof_rxwi c in
  0 <= MT_FCE_INFO_LEN c /\ 0 <= MT_DMA_HDR_LEN c /\ 0 <= sizeof_rxwi c
  /\ fixed + 2 <= 2 ^ 32
  /\ 0 <= 8 < fixed
  /\ (forall size, 2 ^ 32 - fixed - 2 <= size -> alloc_ok x size = false)
  /\ rx_events (mt7601u_rx_process_seg c x example_rx_buf 0 8) = []
  /\ 2 ^ 32 - fixed <= u32 (8 - fixed).
Proof.
  intros c x fixed.
  assert (0 <= MT_FCE_INFO_LEN c) as H1 by evaluated.
  assert (0 <= MT_DMA_HDR_LEN c) as H2 by evaluated.
  assert (0 <= sizeof_rxwi c) as H3 by evaluated.
  assert (fixed + 2 <= 2 ^ 32) as H4 by evaluated.
  assert (0 <= 8 < fixed) as H5 by evaluated.
  split; [exact H1 | split; [exact H2 | split; [exact H3 | ]]].
  split; [exact H4 | split; [exact H5 | split; [exact std_alloc_refuses_huge | ]]].
  destruct (rx_process_seg_short c x example_rx_buf 0 8 H1 H2 H3 H4 H5
              std_alloc_refuses_huge) as (R & _ & _ & B).
  split; [exact R | exact B].
Defined.

Lemma rx_process_entry_frames_witness :
  let r := mt7601u_rx_process_entry mt7601u_hw std_collab true example_rx_buf 112 in
  let evs := match r with Some evs => evs | None => [] end in
  r = Some evs
  /\ aggr_events evs = [2]
  /\ submit_buf_events evs = [].
Proof.
  intros r evs.
  assert (r = Some evs) as H by (vm_compute; reflexivity).
  split; [exact H | ].
  pose proof (rx_process_entry_frames mt7601u_hw std_collab true example_rx_buf
                112 evs H) as W.
  cbv zeta in W. destruct W as (_ & _ & A & S).
  split; [rewrite A; reflexivity | exact S].
Defined.

Lemma rx_tasklet_drains_witness :
  let dev := usb_giveback_rx std_collab example_rx_dev 0 0 112 example_rx_buf in
  0 <= MT_DMA_HDRS mt7601u_hw
  /\ ring_inv 2 dev
  /\ exists dev',
      mt7601u_rx_tasklet mt7601u_hw std_collab dev = Some dev'
      /\ rx_pending (rx_q dev') = 0
      /\ rx_start (rx_q dev') = rx_end (rx_q dev)
      /\ submit_buf_events (log dev')
         = submit_buf_events (log dev) ++ [(0, Complete_rx)].
Proof.
  intros dev.
  assert (0 <= MT_DMA_HDRS mt7601u_hw) as H1 by evaluated.
  assert (ring_inv 2 dev) as H2.
  { apply (ring_inv_step mt7601u_hw std_collab 2 example_rx_dev dev
             (ring_inv_init 2 example_rx_dev example_rx_dev_all_submitted)).
    apply (rx_step_complete mt7601u_hw std_collab example_rx_dev 0 0 112
             example_rx_buf); evaluated. }
  split; [exact H1 | split; [exact H2 | ]].
  destruct (rx_tasklet_drains mt7601u_hw std_collab 2 dev H1 H2)
    as (dev' & R & _ & P & S & _ & B & _).
  exists dev'. split; [exact R | split; [exact P | split; [exact S | ]]].
  rewrite B. reflexivity.
Defined.



Lemma submit_rx_in_order_witness :
  let dev := mt7601u_kill_rx std_collab example_rx_dev in
  rx_entries (rx_q dev) = 2
  /\ Z.of_nat (List.length (rx_e (rx_q dev))) = 2
  /\ 0 <= 0 <= 2
  /\ (forall j, 0 <= j < 0 -> reject (rx_urb (rx_entry dev j)) = false)
  /\ (0 < 2 -> reject (rx_urb (rx_entry dev 0)) = true)
  /\ fst (mt7601u_submit_rx dev) <> 0
  /\ submit_buf_events (log (snd (mt7601u_submit_rx dev)))
     = submit_buf_events (log dev)
         ++ map (fun i => (i, Complete_rx)) (upto (Z.min (0 + 1) 2)).
Proof.
  intros dev.
  assert (rx_entries (rx_q dev) = 2) as H1 by reflexivity.
  assert (Z.of_nat (List.length (rx_e (rx_q dev))) = 2) as H2 by reflexivity.
  assert (0 <= 0 <= 2) as H3 by lia.
  assert (forall j, 0 <= j < 0 -> reject (rx_urb (rx_entry dev j)) = false) as H4
    by (intros j Hj; lia).
  assert (0 < 2 -> reject (rx_urb (rx_entry dev 0)) = true) as H5
    by (intros _; reflexivity).
  split; [exact H1 | split; [exact H2 | split; [exact H3 | ]]].
  split; [exact H4 | split; [exact H5 | ]].
  pose proof (submit_rx_in_order 2 0 dev H1 H2 H3 H4 H5) as W.
  cbv zeta in W. destruct W as (R & B & _).
  split; [ | exact B].
  intros E. apply R in E. discriminate E.
Defined.

Lemma dma_init_rx_ring_witness :
  let dev := example_dev (rx_queue_alloc 2 8) (example_tx_queue 4 0 0) in
  0 < 2 < 2 ^ 32
  /\ rx_q dev = rx_queue_alloc 2 8
  /\ fst (mt7601u_submit_rx dev) = 0
  /\ rx_all_submitted 2 (snd (mt7601u_submit_rx dev)).
Proof.
  intros dev.
  assert (0 < 2 < 2 ^ 32) as H1 by evaluated.
  assert (rx_q dev = rx_queue_alloc 2 8) as H2 by reflexivity.
  split; [exact H1 | split; [exact H2 | ]].
  pose proof (dma_init_rx_ring 2 8 dev H1 H2) as W.
  cbv zeta in W. destruct W as (R & A & _).
  split; [exact R | exact A].
Defined.


Lemma dma_submit_tx_fifo_witness :
  let dev := example_dev (rx_queue_alloc 2 8) (example_tx_queue 4 0 3) in
  let r := mt7601u_dma_submit_tx dev example_frame 1 0 in
  0 <= 1 < Z.of_nat (List.length (tx_q dev))
  /\ tx_inv 4 (tx_queue dev 1)
  /\ tx_inv 4 (tx_queue (snd r) 1)
  /\ tx_fifo 4 (tx_queue (snd r) 1)
     = tx_fifo 4 (tx_queue dev 1) ++ [Some example_frame]
  /\ stop_events (log (snd r)) = [2].
Proof.
  intros dev r.
  assert (0 <= 1 < Z.of_nat (List.length (tx_q dev))) as H1 by evaluated.
  assert (tx_inv 4 (tx_queue dev 1)) as H2 by (apply example_tx_inv; lia).
  split; [exact H1 | split; [exact H2 | ]].
  pose proof (dma_submit_tx_fifo 4 dev example_frame 1 0 H1 H2) as W.
  cbv zeta in W. fold r in W. destruct W as (I & F & _ & S & _).
  split; [exact I | split; [exact (proj1 (F eq_refl)) | ]].
  rewrite S. reflexivity.
Defined.

Lemma complete_tx_fifo_witness :
  let dev := example_dev (rx_queue_alloc 2 8) (example_tx_queue 4 0 2) in
  let q := tx_queue dev 1 in
  let u := mk_urb 100 0 0 false false in
  let dev' := mt7601u_complete_tx std_collab dev 1 u in
  0 <= 1 < Z.of_nat (List.length (tx_q dev))
  /\ tx_inv 4 q
  /\ urb_id (tx_urb (tx_entry q (tx_start q))) = urb_id u
  /\ 0 < tx_used q
  /\ tx_fifo 4 q = skb (tx_entry q (tx_start q)) :: tx_fifo 4 (tx_queue dev' 1)
  /\ tx_status_events (log dev') = tx_status_events (log dev) ++ [Some example_frame].
Proof.
  intros dev q u dev'.
  assert (0 <= 1 < Z.of_nat (List.length (tx_q dev))) as H1 by evaluated.
  assert (tx_inv 4 q) as H2 by (apply example_tx_inv; lia).
  assert (urb_id (tx_urb (tx_entry q (tx_start q))) = urb_id u) as H3
    by reflexivity.
  assert (0 < tx_used q) as H4 by evaluated.
  split; [exact H1 | split; [exact H2 | split; [exact H3 | split; [exact H4 | ]]]].
  pose proof (complete_tx_fifo std_collab 4 dev 1 u H1 H2) as W.
  cbv zeta in W. destruct W as (W & _).
  destruct (W H3 H4) as (_ & F & _ & S).
  split; [exact F | exact S].
Defined.

Lemma dma_submit_tx_refused_witness :
  let dev := example_dev (rx_queue_alloc 2 8) (example_tx_queue 4 0 0) in
  let q := tx_queue dev 1 in
  let r := mt7601u_dma_submit_tx dev example_frame 1 (- ENODEV) in
  0 <= 1 < Z.of_nat (List.length (tx_q dev))
  /\ tx_used q < tx_entries q
  /\ 0 <= tx_end q < Z.of_nat (List.length (tx_e q))
  /\ - ENODEV <> 0
  /\ fst r = - ENODEV
  /\ MT7601U_STATE_REMOVED (state (snd r)) = true
  /\ dev_err_events (log (snd r)) = dev_err_events (log dev).
Proof.
  intros dev q r.
  assert (0 <= 1 < Z.of_nat (List.length (tx_q dev))) as H1 by evaluated.
  assert (tx_used q < tx_entries q) as H2 by evaluated.
  assert (0 <= tx_end q < Z.of_nat (List.length (tx_e q))) as H3 by evaluated.
  assert (- ENODEV <> 0) as H4 by evaluated.
  split; [exact H1 | split; [exact H2 | split; [exact H3 | split; [exact H4 | ]]]].
  pose proof (dma_submit_tx_refused dev example_frame 1 (- ENODEV) H1 H2 H3 H4)
    as W.
  cbv zeta in W. destruct W as (R & _ & _ & _ & _ & D & _).
  destruct (D eq_refl) as (Rm & _ & _ & _ & E).
  split; [exact R | split; [exact Rm | exact E]].
Defined.

Lemma free_tx_queue_teardown_witness :
  let dev := example_dev (rx_queue_alloc 2 8) (example_tx_queue 4 0 2) in
  let q := tx_queue dev 1 in
  let dev' := mt7601u_free_tx_queue std_collab dev 1 in
  0 <= 1 < Z.of_nat (List.length (tx_q dev))
  /\ tx_entries q = 4
  /\ Z.of_nat (List.length (tx_e q)) = 4
  /\ free_urb_events (log dev') = free_urb_events (log dev) ++ [100; 101; 102; 103]
  /\ (forall j, 0 <= j < 4 ->
        in_flight (tx_urb (tx_entry (tx_queue dev' 1) j)) = false
        /\ reject (tx_urb (tx_entry (tx_queue dev' 1) j)) = true).
Proof.
  intros dev q dev'.
  assert (0 <= 1 < Z.of_nat (List.length (tx_q dev))) as H1 by evaluated.
  assert (tx_entries q = 4) as H2 by reflexivity.
  assert (Z.of_nat (List.length (tx_e q)) = 4) as H3 by reflexivity.
  split; [exact H1 | split; [exact H2 | split; [exact H3 | ]]].
  pose proof (free_tx_queue_teardown std_collab 4 dev 1 H1 H2 H3) as W.
  cbv zeta in W. destruct W as (_ & F & J & _).
  split; [unfold dev'; rewrite F; reflexivity | ].
  intros j Hj. destruct (J j Hj) as (J1 & J2 & _). split; [exact J1 | exact J2].
Defined.

Lemma free_tx_all_queues_witness :
  let dev := example_dev (rx_queue_alloc 2 8) (example_tx_queue 4 0 2) in
  let dev' := mt7601u_free_tx std_collab dev in
  (forall ep, 0 <= ep < Z.of_nat (List.length (tx_q dev)) ->
     tx_entries (tx_queue dev ep)
     = Z.of_nat (List.length (tx_e (tx_queue dev ep))))
  /\ (forall ep j, 0 <= ep < Z.of_nat (List.length (tx_q dev)) ->
        0 <= j < tx_entries (tx_queue dev ep) ->
        in_flight (tx_urb (tx_entry (tx_queue dev' ep) j)) = false
        /\ reject (tx_urb (tx_entry (tx_queue dev' ep) j)) = true)
  /\ rx_q dev' = rx_q dev.
Proof.
  intros dev dev'.
  assert (forall ep, 0 <= ep < Z.of_nat (List.length (tx_q dev)) ->
            tx_entries (tx_queue dev ep)
            = Z.of_nat (List.length (tx_e (tx_queue dev ep)))) as H1.
  { intros ep Hep. change (Z.of_nat (List.length (tx_q dev))) with 6 in Hep.
    assert (ep = 0 \/ ep = 1 \/ ep = 2 \/ ep = 3 \/ ep = 4 \/ ep = 5)
      as [-> | [-> | [-> | [-> | [-> | ->]]]]] by lia; reflexivity. }
  split; [exact H1 | ].
  pose proof (free_tx_all_queues std_collab dev H1) as W.
  cbv zeta in W. destruct W as (J & _ & R & _).
  split; [ | exact R].
  intros ep j Hep Hj. destruct (J ep j Hep Hj) as (J1 & J2 & _).
  split; [exact J1 | exact J2].
Defined.

Lemma rx_buffer_cycle_witness :
  0 <= MT_DMA_HDRS mt7601u_hw
  /\ ring_full 2 example_rx_dev
  /\ rx_pending (rx_q example_rx_dev) = 0
  /\ reject (rx_urb (rx_entry example_rx_dev (rx_end (rx_q example_rx_dev)))) = false
  /\ exists evs dev',
      mt7601u_rx_process_entry mt7601u_hw std_collab
        (MT7601U_STATE_INITIALIZED (state example_rx_dev)) example_rx_buf 112
      = Some evs
      /\ run_rx_tasklet mt7601u_hw std_collab
           (usb_giveback_rx std_collab example_rx_dev
              (rx_end (rx_q example_rx_dev)) 0 112 example_rx_buf) = Some dev'
      /\ ring_full 2 dev'
      /\ rx_pending (rx_q dev') = 0.
Proof.
  assert (0 <= MT_DMA_HDRS mt7601u_hw) as H1 by evaluated.
  assert (rx_pending (rx_q example_rx_dev) = 0) as H3 by reflexivity.
  assert (reject (rx_urb (rx_entry example_rx_dev (rx_end (rx_q example_rx_dev))))
          = false) as H4 by reflexivity.
  split; [exact H1 | split; [exact example_rx_dev_ring_full | ]].
  split; [exact H3 | split; [exact H4 | ]].
  destruct (rx_buffer_cycle mt7601u_hw std_collab 2 example_rx_dev 112
              example_rx_buf H1 example_rx_dev_ring_full H3 H4)
    as (evs & dev' & E & R & _ & _ & _ & F & P & _).
  exists evs, dev'. split; [exact E | split; [exact R | split; [exact F | exact P]]].
Defined.

